(** * study-buddy backend: request handlers and their scoring arithmetic

    A shallow embedding of the handlers under [backend/app/api] that
    compute scores, running means and unlocks, and the properties the
    design document states about them.

    Conventions of the embedding.
    - A Python [float] is an exact rational ([Q]); equalities between
      computed numbers are stated with [==].  Python [int] is [Z].  Where a
      handler branches on the comparison of two float sums (the trend
      statistics), its arithmetic is a parameter ([FloatArith]) and the
      properties hold for every rounding.
    - A [datetime] is a number of microseconds ([Z]); every handler that
      reads the clock takes the value of [datetime.utcnow()] as [now].
    - Text is a [string] of code points below 256.
    - A table is the list of its rows in store order.  [query.first()] is
      [list_find], an attribute assignment on the fetched row followed by
      [db.commit()] is a list update at the index of that row, [db.add] is
      an append.
    - A handler is a computation in a state-and-exception monad over the
      database; a raised exception leaves the state as it was at the raise. *)

From Stdlib Require Import ZArith QArith Qabs String Ascii List Lia Lqa.
From Stdlib Require Import DecimalString.
From stdpp Require Import base option list gmap strings sorting.

Local Open Scope Z_scope.
Local Open Scope string_scope.

(** ** Exceptions and the handler monad *)

Inductive Exception : Type :=
| HTTPException (status_code : Z) (detail : string)
| ZeroDivisionError
| TypeError.

Definition HTTP_400_BAD_REQUEST : Z := 400.
Definition HTTP_404_NOT_FOUND : Z := 404.
Definition HTTP_401_UNAUTHORIZED : Z := 401.
Definition HTTP_422_UNPROCESSABLE_ENTITY : Z := 422.

Definition M (S A : Type) : Type := S -> (Exception + A) * S.

Definition ret {S A} (a : A) : M S A := fun s => (inr a, s).

Definition bind {S A B} (m : M S A) (k : A -> M S B) : M S B :=
  fun s => match m s with
           | (inr a, s') => k a s'
           | (inl e, s') => (inl e, s')
           end.

Definition raise {S A} (e : Exception) : M S A := fun s => (inl e, s).
Definition get {S} : M S S := fun s => (inr s, s).
Definition modify {S} (f : S -> S) : M S unit := fun s => (inr tt, f s).

Declare Scope handler_scope.
Delimit Scope handler_scope with handler.
Notation "'let*' x ':=' m 'in' k" := (bind m (fun x => k))
  (at level 10, x pattern, m at level 100, k at level 200) : handler_scope.
Notation "m ';;' k" := (bind m (fun _ => k))
  (at level 100, k at level 200, right associativity) : handler_scope.

(** [if cond: raise e] *)
Definition raise_if {S} (cond : bool) (e : Exception) : M S unit :=
  if cond then raise e else ret tt.

(** ** Arithmetic as Python evaluates it *)

(** [a / b] on numbers: raises [ZeroDivisionError] on a zero divisor. *)
Definition truediv {S} (a b : Q) : M S Q :=
  if Qeq_bool b 0 then raise ZeroDivisionError else ret (a / b)%Q.

(** [sum(l)]: the additions run left to right from [0]. *)
Definition sum (l : list Q) : Q := fold_left Qplus l 0%Q.

Definition sumZ (l : list Z) : Z := fold_left Z.add l 0.

(** [len(l)] *)
Definition len {A} (l : list A) : Z := Z.of_nat (length l).

(** [range(n)] *)
Definition range (n : Z) : list Z := map Z.of_nat (seq 0 (Z.to_nat n)).

(** [enumerate(l)] *)
Definition enumerate {A} (l : list A) : list (Z * A) :=
  combine (range (len l)) l.

Definition Qgtb (a b : Q) : bool := negb (Qle_bool a b).
Definition Qgeb (a b : Q) : bool := Qle_bool b a.

(** ** Text: [str.strip], [str.lower] and truthiness *)

Module Str.

Definition code (c : ascii) : N := N_of_ascii c.

(** [c.isspace()] for a code point below 256. *)
Definition isspace (c : ascii) : bool :=
  let n := code c in
  ((9 <=? n) && (n <=? 13) || (28 <=? n) && (n <=? 32)
   || (n =? 133) || (n =? 160))%N.

(** [c.lower()] for a code point below 256. *)
Definition lower_char (c : ascii) : ascii :=
  let n := code c in
  if ((65 <=? n) && (n <=? 90)
      || (192 <=? n) && (n <=? 222) && negb (n =? 215))%N
  then ascii_of_N (n + 32) else c.

Fixpoint lstrip (s : string) : string :=
  match s with
  | EmptyString => EmptyString
  | String c s' => if isspace c then lstrip s' else s
  end.

Fixpoint rev_onto (s acc : string) : string :=
  match s with
  | EmptyString => acc
  | String c s' => rev_onto s' (String c acc)
  end.

Definition reverse (s : string) : string := rev_onto s EmptyString.

Definition rstrip (s : string) : string := reverse (lstrip (reverse s)).

Definition strip (s : string) : string := rstrip (lstrip s).

Fixpoint lower (s : string) : string :=
  match s with
  | EmptyString => EmptyString
  | String c s' => String (lower_char c) (lower s')
  end.

(** Truth value of an [Optional[str]]: [None] and [""] are false. *)
Definition truthy (s : option string) : bool :=
  match s with
  | Some (String _ _) => true
  | _ => false
  end.

(** [a or b] *)
Definition or (a b : option string) : option string :=
  if truthy a then a else b.

End Str.

(** ** Data model: the columns the handlers read or write *)

Module User.
Record t : Type := mk {
  id : Z;
  total_study_time_minutes : Z;
  total_assessments_completed : Z;
  average_score : Q;
  streak_days : Z
}.
End User.

Module LearningSession.
Record t : Type := mk {
  id : Z;
  user_id : Z;
  subject : string;
  start_time : option Z;
  end_time : option Z;
  duration_minutes : option Z;
  completion_percentage : Q;
  is_completed : bool
}.
End LearningSession.

Module Assessment.
Record t : Type := mk {
  id : Z;
  user_id : Z;
  subject : string;
  start_time : option Z;
  end_time : option Z;
  time_taken_minutes : option Q;
  total_questions : Z;
  questions_answered : Z;
  correct_answers : Z;
  score_percentage : option Q;
  status : string;
  is_completed : bool;
  created_at : Z
}.
End Assessment.

Module Question.
Record t : Type := mk {
  id : Z;
  assessment_id : Z;
  correct_answer : string;
  points_possible : Q
}.
End Question.

Module Answer.
Record t : Type := mk {
  assessment_id : Z;
  question_id : Z;
  user_id : Z;
  answer_text : option string;
  selected_option : option string;
  points_possible : Q;
  is_correct : option bool;
  points_earned : Q
}.
End Answer.

Module Content.
Record t : Type := mk {
  id : Z;
  average_rating : option Q;
  total_ratings : Z
}.
End Content.

Module ContentInteraction.
Record t : Type := mk {
  user_id : Z;
  content_id : Z;
  interaction_type : string;
  start_time : option Z;
  rating : option Z
}.
End ContentInteraction.

Module Progress.
Record t : Type := mk {
  user_id : Z;
  streak_days : option Z;
  is_mastered : bool
}.
End Progress.

Module Achievement.
Record t : Type := mk {
  user_id : Z;
  achievement_type : string;
  title : string;
  description : string;
  badge_icon : string;
  category : string;
  difficulty_level : string;
  rarity : string;
  points_awarded : Z;
  threshold_value : option Q;
  required_progress : Q;
  current_progress : Q;
  progress_percentage : Q;
  is_unlocked : bool;
  unlocked_at : option Z
}.
End Achievement.

Module Recommendation.
Record t : Type := mk {
  id : Z;
  user_id : Z;
  is_viewed : bool;
  is_accepted : option bool;
  is_completed : bool;
  completed_at : option Z;
  status : string
}.
End Recommendation.

(** The record store: one list of rows per table. *)
Record Db : Type := mkDb {
  users : list User.t;
  learning_sessions : list LearningSession.t;
  assessments : list Assessment.t;
  questions : list Question.t;
  answers : list Answer.t;
  content : list Content.t;
  content_interactions : list ContentInteraction.t;
  progress : list Progress.t;
  achievements : list Achievement.t;
  recommendations : list Recommendation.t
}.

Definition with_users (v : list User.t) (db : Db) : Db :=
  mkDb v (learning_sessions db) (assessments db) (questions db) (answers db)
       (content db) (content_interactions db) (progress db) (achievements db)
       (recommendations db).

Definition with_learning_sessions (v : list LearningSession.t) (db : Db) : Db :=
  mkDb (users db) v (assessments db) (questions db) (answers db)
       (content db) (content_interactions db) (progress db) (achievements db)
       (recommendations db).

Definition with_assessments (v : list Assessment.t) (db : Db) : Db :=
  mkDb (users db) (learning_sessions db) v (questions db) (answers db)
       (content db) (content_interactions db) (progress db) (achievements db)
       (recommendations db).

Definition with_answers (v : list Answer.t) (db : Db) : Db :=
  mkDb (users db) (learning_sessions db) (assessments db) (questions db) v
       (content db) (content_interactions db) (progress db) (achievements db)
       (recommendations db).

Definition with_content (v : list Content.t) (db : Db) : Db :=
  mkDb (users db) (learning_sessions db) (assessments db) (questions db)
       (answers db) v (content_interactions db) (progress db) (achievements db)
       (recommendations db).

Definition with_content_interactions (v : list ContentInteraction.t) (db : Db) : Db :=
  mkDb (users db) (learning_sessions db) (assessments db) (questions db)
       (answers db) (content db) v (progress db) (achievements db)
       (recommendations db).

Definition with_achievements (v : list Achievement.t) (db : Db) : Db :=
  mkDb (users db) (learning_sessions db) (assessments db) (questions db)
       (answers db) (content db) (content_interactions db) (progress db) v
       (recommendations db).

Definition with_recommendations (v : list Recommendation.t) (db : Db) : Db :=
  mkDb (users db) (learning_sessions db) (assessments db) (questions db)
       (answers db) (content db) (content_interactions db) (progress db)
       (achievements db) v.

Definition empty_db : Db := mkDb [] [] [] [] [] [] [] [] [] [].

(** [Depends(get_current_user)]: the row of the authenticated user, with
    its position in the table. *)
Definition get_current_user (uid : Z) : M Db (nat * User.t) :=
  fun db =>
    match list_find (fun u => User.id u = uid) (users db) with
    | Some r => (inr r, db)
    | None => (inl (HTTPException HTTP_401_UNAUTHORIZED
                      "Could not validate credentials"), db)
    end.

(** ** api/assessments.py *)

Record AnswerSubmission : Type := mkAnswerSubmission {
  sub_question_id : Z;
  sub_answer_text : option string;
  sub_selected_option : option string
}.

(** Body of [AssessmentSubmission]: the list [answers]. *)
Definition AssessmentSubmission : Type := list AnswerSubmission.

(** [db.query(Assessment).filter(id == assessment_id, user_id == uid).first()] *)
Definition query_assessment (assessment_id uid : Z) (db : Db)
  : option (nat * Assessment.t) :=
  list_find (fun a => Assessment.id a = assessment_id /\ Assessment.user_id a = uid)
            (assessments db).

Definition started (now : Z) (a : Assessment.t) : Assessment.t :=
  Assessment.mk (Assessment.id a) (Assessment.user_id a) (Assessment.subject a)
    (Some now) (Assessment.end_time a) (Assessment.time_taken_minutes a)
    (Assessment.total_questions a) (Assessment.questions_answered a)
    (Assessment.correct_answers a) (Assessment.score_percentage a)
    "in_progress" (Assessment.is_completed a) (Assessment.created_at a).

Definition start_assessment (assessment_id current_user now : Z)
  : M Db Assessment.t :=
  (let* db := get in
   match query_assessment assessment_id current_user db with
   | None => raise (HTTPException HTTP_404_NOT_FOUND "Assessment not found")
   | Some (i, assessment) =>
       raise_if (negb (String.eqb (Assessment.status assessment) "not_started"))
                (HTTPException HTTP_400_BAD_REQUEST
                               "Assessment has already been started") ;;
       let assessment := started now assessment in
       modify (fun db => with_assessments (<[i := assessment]> (assessments db)) db) ;;
       ret assessment
   end)%handler.

(** [{q.id: q for q in questions}]: a later row replaces an earlier one
    under the same key. *)
Definition question_dict_of (qs : list Question.t) : gmap Z Question.t :=
  foldl (fun d q => <[Question.id q := q]> d) ∅ qs.

(** [db.query(Question).filter(Question.assessment_id == assessment_id).all()] *)
Definition query_questions (assessment_id : Z) (db : Db) : list Question.t :=
  filter (fun q => Question.assessment_id q = assessment_id) (questions db).

(** The local variables of the grading loop, with the rows passed to
    [db.add] so far. *)
Record Tally : Type := mkTally {
  correct_answers : Z;
  total_points : Q;
  earned_points : Q;
  added : list Answer.t
}.

(** The test of line 299 on one submitted answer. *)
Definition answer_matches (answer_data : AnswerSubmission) (question : Question.t)
  : bool :=
  let user_answer := Str.or (sub_answer_text answer_data)
                            (sub_selected_option answer_data) in
  match user_answer with
  | Some s =>
      Str.truthy user_answer
      && String.eqb (Str.lower (Str.strip s))
                    (Str.lower (Str.strip (Question.correct_answer question)))
  | None => false
  end.

(** One iteration of [for answer_data in submission.answers]. *)
Definition grade_answer (question_dict : gmap Z Question.t)
    (assessment_id uid : Z) (t : Tally) (answer_data : AnswerSubmission) : Tally :=
  match question_dict !! sub_question_id answer_data with
  | None => t
  | Some question =>
      let pts := Question.points_possible question in
      let answer is_correct points_earned :=
        Answer.mk assessment_id (sub_question_id answer_data) uid
                  (sub_answer_text answer_data) (sub_selected_option answer_data)
                  pts (Some is_correct) points_earned in
      if answer_matches answer_data question then
        mkTally (correct_answers t + 1) (total_points t + pts)%Q
                (earned_points t + pts)%Q (added t ++ [answer true pts])
      else
        mkTally (correct_answers t) (total_points t + pts)%Q
                (earned_points t) (added t ++ [answer false 0%Q])
  end.

Definition grade (question_dict : gmap Z Question.t) (assessment_id uid : Z)
    (submission : AssessmentSubmission) : Tally :=
  foldl (grade_answer question_dict assessment_id uid)
        (mkTally 0 0%Q 0%Q []) submission.

Definition submitted (now : Z) (answered correct : Z) (score : Q)
    (a : Assessment.t) : Assessment.t :=
  Assessment.mk (Assessment.id a) (Assessment.user_id a) (Assessment.subject a)
    (Assessment.start_time a) (Some now)
    (match Assessment.start_time a with
     | Some st => Some (inject_Z (now - st) / 1000000 / 60)%Q
     | None => Assessment.time_taken_minutes a
     end)
    (Assessment.total_questions a) answered correct (Some score)
    "completed" true (Assessment.created_at a).

Definition with_assessment_stats (n : Z) (avg : Q) (u : User.t) : User.t :=
  User.mk (User.id u) (User.total_study_time_minutes u) n avg (User.streak_days u).

Record SubmitResponse : Type := mkSubmitResponse {
  resp_assessment : Assessment.t;
  resp_score : Q;
  resp_correct_answers : Z;
  resp_total_questions : Z
}.

Definition submit_assessment (assessment_id : Z) (submission : AssessmentSubmission)
    (current_user now : Z) : M Db SubmitResponse :=
  (let* cu := get_current_user current_user in
   let (ui, user) := cu in
   let* db := get in
   match query_assessment assessment_id current_user db with
   | None => raise (HTTPException HTTP_404_NOT_FOUND "Assessment not found")
   | Some (i, assessment) =>
       raise_if (negb (String.eqb (Assessment.status assessment) "in_progress"))
                (HTTPException HTTP_400_BAD_REQUEST
                               "Assessment is not in progress") ;;
       let questions := query_questions assessment_id db in
       let question_dict := question_dict_of questions in
       let t := grade question_dict assessment_id current_user submission in
       let* score :=
         if Qgtb (total_points t) 0
         then (let* r := truediv (earned_points t) (total_points t) in
               ret (r * 100)%Q)
         else ret 0%Q in
       let assessment :=
         submitted now (len submission) (correct_answers t) score assessment in
       let completed := User.total_assessments_completed user + 1 in
       let* average_score :=
         if (0 <? completed)%Z
         then truediv (User.average_score user * inject_Z (completed - 1) + score)
                      (inject_Z completed)
         else ret (User.average_score user) in
       let user := with_assessment_stats completed average_score user in
       modify (fun db =>
                 with_users (<[ui := user]> (users db))
                   (with_assessments (<[i := assessment]> (assessments db))
                      (with_answers (answers db ++ added t) db))) ;;
       ret (mkSubmitResponse assessment score (correct_answers t) (len questions))
   end)%handler.

(** *** Performance analytics: the improvement trend *)

(** Lines 444-454: the slope of the scores against their position. *)
Definition improvement_trend_of {S} (scores : list Q) : M S Q :=
  if (1 <? len scores)%Z then
    let n := len scores in
    let x_sum := sumZ (range n) in
    let y_sum := sum scores in
    let xy_sum := sum (map (fun p => (inject_Z (fst p) * snd p)%Q) (enumerate scores)) in
    let x_squared_sum := sumZ (map (fun i => i * i) (range n)) in
    truediv (inject_Z n * xy_sum - inject_Z x_sum * y_sum)%Q
            (inject_Z (n * x_squared_sum - x_sum * x_sum))
  else ret 0%Q.

(** [sum([a.score_percentage for a in assessments])]: adding [None]
    raises [TypeError]. *)
Fixpoint sum_scores_from {S} (acc : Q) (l : list (option Q)) : M S Q :=
  match l with
  | [] => ret acc
  | Some x :: l' => sum_scores_from (acc + x)%Q l'
  | None :: _ => raise TypeError
  end.

Fixpoint scores_of {S} (l : list Assessment.t) : M S (list Q) :=
  match l with
  | [] => ret []
  | a :: l' =>
      match Assessment.score_percentage a with
      | Some x => bind (scores_of l') (fun r => ret (x :: r))
      | None => raise TypeError
      end
  end.

Definition timedelta_days (days : Z) : Z := days * 86400000000.

(** [column >= start_date] on a nullable column: a NULL never passes. *)
Definition at_or_after (start_date : Z) (t : option Z) : Prop :=
  match t with
  | Some t => (start_date <= t)%Z
  | None => False
  end.

#[global] Instance at_or_after_dec start_date t : Decision (at_or_after start_date t).
Proof. destruct t; simpl; apply _. Defined.

(** The order of [order_by(Assessment.created_at)]. *)
Definition created_le (a b : Assessment.t) : Prop :=
  (Assessment.created_at a <= Assessment.created_at b)%Z.

#[global] Instance created_le_dec : RelDecision created_le.
Proof. intros a b; unfold created_le; apply _. Defined.

Record PerformanceAnalytics : Type := mkPerformanceAnalytics {
  pa_total_assessments : Z;
  pa_average_score : Q;
  pa_improvement_trend : Q
}.

(** The query of [get_assessment_analytics]: the user's completed
    assessments of the window, optionally of one subject, ordered by
    [created_at]. *)
Definition query_performance (uid : Z) (subject : option string) (days now : Z)
    (db : Db) : list Assessment.t :=
  let in_window :=
    filter (fun a => Assessment.user_id a = uid
                     /\ Assessment.is_completed a = true
                     /\ (now - timedelta_days days <= Assessment.created_at a)%Z)
           (assessments db) in
  let by_subject :=
    if Str.truthy subject
    then filter (fun a => Some (Assessment.subject a) = subject) in_window
    else in_window in
  merge_sort created_le by_subject.

(** [get_assessment_analytics]: the values of [total_assessments],
    [average_score] and [improvement_trend] at the return statement (the
    response body rounds the last two to 2 and 4 places; the per-subject
    and per-difficulty tables are not part of this model). *)
Definition get_assessment_analytics (current_user : Z) (subject : option string)
    (days now : Z) : M Db PerformanceAnalytics :=
  (let* db := get in
   let assessments := query_performance current_user subject days now db in
   match assessments with
   | [] => ret (mkPerformanceAnalytics 0 0%Q 0%Q)
   | _ =>
       let total_assessments := len assessments in
       let* total := sum_scores_from 0%Q (map Assessment.score_percentage assessments) in
       let* average_score := truediv total (inject_Z total_assessments) in
       let* scores := scores_of assessments in
       let* improvement_trend := improvement_trend_of scores in
       ret (mkPerformanceAnalytics total_assessments average_score improvement_trend)
   end)%handler.

(** ** api/analytics.py *)

(** Line 73. *)
Definition average_score_of {S} (assessments : list Assessment.t) : M S Q :=
  match assessments with
  | [] => ret 0%Q
  | _ =>
      (let* total := sum_scores_from 0%Q (map Assessment.score_percentage assessments) in
       truediv total (inject_Z (len assessments)))%handler
  end.

(** Lines 84-93. *)
Definition improvement_rate_of {S} (assessments : list Assessment.t) : M S Q :=
  if (2 <=? len assessments)%Z then
    let first_half := take (Z.to_nat (len assessments / 2)) assessments in
    let second_half := drop (Z.to_nat (len assessments / 2)) assessments in
    (let* first_total :=
       sum_scores_from 0%Q (map Assessment.score_percentage first_half) in
     let* first_avg := truediv first_total (inject_Z (len first_half)) in
     let* second_total :=
       sum_scores_from 0%Q (map Assessment.score_percentage second_half) in
     let* second_avg := truediv second_total (inject_Z (len second_half)) in
     if Qgtb first_avg 0
     then (let* r := truediv (second_avg - first_avg) first_avg in ret (r * 100)%Q)
     else ret 0%Q)%handler
  else ret 0%Q.

(** The assessment query of the overview: the user's completed assessments
    created in the window, in the order the store returns them (the query
    has no [order_by]). *)
Definition completed_assessments_since (uid start_date : Z) (db : Db)
  : list Assessment.t :=
  filter (fun a => Assessment.user_id a = uid
                   /\ (start_date <= Assessment.created_at a)%Z
                   /\ Assessment.is_completed a = true)
         (assessments db).

Record Overview : Type := mkOverview {
  ov_total_study_time_minutes : Z;
  ov_total_sessions : Z;
  ov_total_assessments : Z;
  ov_average_score : Q;
  ov_subjects_studied : Z;
  ov_content_interactions : Z;
  ov_improvement_rate : Q
}.

(** [get_analytics_overview]: the values of the overview's variables at
    the return statement (the response body rounds [average_score] and
    [improvement_rate] to 2 places and adds the per-day averages). *)
Definition get_analytics_overview (current_user days now : Z) : M Db Overview :=
  (let* db := get in
   let end_date := now in
   let start_date := end_date - timedelta_days days in
   let sessions :=
     filter (fun s => LearningSession.user_id s = current_user
                      /\ at_or_after start_date (LearningSession.start_time s))
            (learning_sessions db) in
   let total_study_time :=
     sumZ (map (fun s => default 0 (LearningSession.duration_minutes s)) sessions) in
   let total_sessions := len sessions in
   let subjects_studied :=
     Z.of_nat (size (list_to_set (map LearningSession.subject sessions) : gset string)) in
   let assessments := completed_assessments_since current_user start_date db in
   let total_assessments := len assessments in
   let* average_score := average_score_of assessments in
   let content_interactions :=
     len (filter (fun c => ContentInteraction.user_id c = current_user
                           /\ at_or_after start_date
                                          (ContentInteraction.start_time c))
                 (content_interactions db)) in
   let* improvement_rate := improvement_rate_of assessments in
   ret (mkOverview total_study_time total_sessions total_assessments average_score
                   subjects_studied content_interactions improvement_rate))%handler.

(** ** api/learning.py *)

(** [int(duration.total_seconds() / 60)]: whole minutes, rounded toward 0. *)
Definition whole_minutes (start_time end_time : Z) : Z :=
  Z.quot (end_time - start_time) 60000000.

Definition completed_session (now : Z) (s : LearningSession.t) : LearningSession.t :=
  LearningSession.mk (LearningSession.id s) (LearningSession.user_id s)
    (LearningSession.subject s) (LearningSession.start_time s) (Some now)
    (match LearningSession.start_time s with
     | Some st => Some (whole_minutes st now)
     | None => LearningSession.duration_minutes s
     end)
    100%Q true.

Definition with_total_study_time (v : Z) (u : User.t) : User.t :=
  User.mk (User.id u) v (User.total_assessments_completed u)
          (User.average_score u) (User.streak_days u).

(** Truth value of an [Optional[int]]: [None] and [0] are false. *)
Definition truthy_int (v : option Z) : bool :=
  match v with
  | Some n => negb (n =? 0)%Z
  | None => false
  end.

Definition complete_learning_session (session_id current_user now : Z)
  : M Db LearningSession.t :=
  (let* cu := get_current_user current_user in
   let (ui, user) := cu in
   let* db := get in
   match list_find (fun s => LearningSession.id s = session_id
                             /\ LearningSession.user_id s = current_user)
                   (learning_sessions db) with
   | None => raise (HTTPException HTTP_404_NOT_FOUND "Learning session not found")
   | Some (i, session) =>
       let session := completed_session now session in
       let user :=
         if truthy_int (LearningSession.duration_minutes session)
         then with_total_study_time
                (User.total_study_time_minutes user
                 + default 0 (LearningSession.duration_minutes session)) user
         else user in
       modify (fun db =>
                 with_users (<[ui := user]> (users db))
                   (with_learning_sessions
                      (<[i := session]> (learning_sessions db)) db)) ;;
       ret session
   end)%handler.

(** ** api/content.py *)

Definition with_rating (v : Z) (c : ContentInteraction.t) : ContentInteraction.t :=
  ContentInteraction.mk (ContentInteraction.user_id c)
    (ContentInteraction.content_id c) (ContentInteraction.interaction_type c)
    (ContentInteraction.start_time c) (Some v).

(** [a * b] and [a - b] with a nullable left or right operand. *)
Definition nullable {S A} (v : option A) : M S A :=
  match v with
  | Some x => ret x
  | None => raise TypeError
  end.

(** [db.query(Content).filter(Content.id == cid).first()] *)
Definition query_content (cid : Z) (db : Db) : option (nat * Content.t) :=
  list_find (fun c => Content.id c = cid) (content db).

(** The caller's own [rate] interaction with content [cid], if any. *)
Definition query_own_rating (uid cid : Z) (db : Db)
  : option (nat * ContentInteraction.t) :=
  list_find (fun r => ContentInteraction.user_id r = uid
                      /\ ContentInteraction.content_id r = cid
                      /\ ContentInteraction.interaction_type r = "rate")
            (content_interactions db).

(** [rate_content]; the result is the stored [average_rating], which the
    response body rounds to 2 places. *)
Definition rate_content (content_id rating current_user now : Z) : M Db Q :=
  (raise_if ((rating <? 1)%Z || (5 <? rating)%Z)
            (HTTPException HTTP_422_UNPROCESSABLE_ENTITY "rating") ;;
   let* db := get in
   let rows := content db in
   match query_content content_id db with
   | None => raise (HTTPException HTTP_404_NOT_FOUND "Content not found")
   | Some (ci, content) =>
       let existing_rating := query_own_rating current_user content_id db in
       let* upd :=
         match existing_rating with
         | Some (ri, existing) =>
             let old_rating := ContentInteraction.rating existing in
             let existing := with_rating rating existing in
             let* average_rating :=
               if (0 <? Content.total_ratings content)%Z then
                 let* avg := nullable (Content.average_rating content) in
                 let total_rating_points :=
                   (avg * inject_Z (Content.total_ratings content))%Q in
                 let* old := nullable old_rating in
                 let total_rating_points :=
                   (total_rating_points - inject_Z old + inject_Z rating)%Q in
                 let* r := truediv total_rating_points
                                   (inject_Z (Content.total_ratings content)) in
                 ret (Some r)
               else ret (Content.average_rating content) in
             ret (Content.mk (Content.id content) average_rating
                             (Content.total_ratings content),
                  <[ri := existing]> (content_interactions db))
         | None =>
             let rating_interaction :=
               ContentInteraction.mk current_user content_id "rate" (Some now)
                                     (Some rating) in
             let* average_rating :=
               if (0 <? Content.total_ratings content)%Z then
                 let* avg := nullable (Content.average_rating content) in
                 let total_rating_points :=
                   (avg * inject_Z (Content.total_ratings content))%Q in
                 truediv (total_rating_points + inject_Z rating)%Q
                         (inject_Z (Content.total_ratings content + 1))
               else ret (inject_Z rating) in
             ret (Content.mk (Content.id content) (Some average_rating)
                             (Content.total_ratings content + 1),
                  (content_interactions db ++ [rating_interaction])%list)
         end in
       let (content, interactions) := (upd : Content.t * list ContentInteraction.t) in
       modify (fun db =>
                 with_content (<[ci := content]> rows)
                   (with_content_interactions interactions db)) ;;
       nullable (Content.average_rating content)
   end)%handler.

(** ** api/recommendations.py *)

Definition completed_recommendation (now : Z) (r : Recommendation.t)
  : Recommendation.t :=
  Recommendation.mk (Recommendation.id r) (Recommendation.user_id r)
    (Recommendation.is_viewed r) (Recommendation.is_accepted r)
    true (Some now) "completed".

(** [db.query(Recommendation).filter(id == rid, user_id == uid).first()] *)
Definition query_recommendation (rid uid : Z) (db : Db)
  : option (nat * Recommendation.t) :=
  list_find (fun r => Recommendation.id r = rid /\ Recommendation.user_id r = uid)
            (recommendations db).

Definition complete_recommendation (recommendation_id current_user now : Z)
  : M Db Recommendation.t :=
  (let* db := get in
   match query_recommendation recommendation_id current_user db with
   | None => raise (HTTPException HTTP_404_NOT_FOUND "Recommendation not found")
   | Some (i, recommendation) =>
       raise_if (negb (default false (Recommendation.is_accepted recommendation)))
                (HTTPException HTTP_400_BAD_REQUEST
                   "Cannot complete a recommendation that wasn't accepted") ;;
       let recommendation := completed_recommendation now recommendation in
       modify (fun db =>
                 with_recommendations
                   (<[i := recommendation]> (recommendations db)) db) ;;
       ret recommendation
   end)%handler.

(** ** api/progress.py *)

(** [f"{n}"] for an integer. *)
Definition str_of_int (n : Z) : string := NilZero.string_of_int (Z.to_int n).

(** [Achievement.threshold_value == milestone]; a NULL threshold never
    compares equal. *)
Definition threshold_is (milestone : Z) (a : Achievement.t) : Prop :=
  match Achievement.threshold_value a with
  | Some v => (v == inject_Z milestone)%Q
  | None => False
  end.

#[global] Instance threshold_is_dec milestone a : Decision (threshold_is milestone a).
Proof.
  unfold threshold_is; destruct (Achievement.threshold_value a);
    [apply Qeq_dec | apply _].
Defined.

(** The lookup made before each thresholded insert. *)
Definition existing_threshold (uid : Z) (achievement_type : string)
    (milestone : Z) (db : Db) : option (nat * Achievement.t) :=
  list_find (fun a => Achievement.user_id a = uid
                      /\ Achievement.achievement_type a = achievement_type
                      /\ threshold_is milestone a)
            (achievements db).

(** The lookup made before the perfect-score insert. *)
Definition existing_title (uid : Z) (achievement_type title : string) (db : Db)
  : option (nat * Achievement.t) :=
  list_find (fun a => Achievement.user_id a = uid
                      /\ Achievement.achievement_type a = achievement_type
                      /\ Achievement.title a = title)
            (achievements db).

Definition streak_achievement (uid now max_streak milestone : Z) : Achievement.t :=
  Achievement.mk uid "streak"
    (str_of_int milestone ++ "-Day Study Streak")
    ("Studied consistently for " ++ str_of_int milestone ++ " days in a row!")
    "streak_badge" "consistency"
    (if (milestone <=? 30)%Z then "medium" else "hard")
    (if (milestone <=? 30)%Z then "uncommon" else "rare")
    (milestone * 2) (Some (inject_Z milestone)) (inject_Z milestone)
    (inject_Z max_streak) 100%Q true (Some now).

Definition time_achievement (uid now total_study_time milestone : Z) : Achievement.t :=
  let hours := (milestone / 60)%Z in
  Achievement.mk uid "time"
    (str_of_int hours ++ "-Hour Scholar")
    ("Dedicated " ++ str_of_int hours ++ " hours to learning!")
    "time_badge" "dedication"
    (if (hours <=? 20)%Z then "easy" else if (hours <=? 100)%Z then "medium" else "hard")
    (if (hours <=? 20)%Z then "common" else if (hours <=? 100)%Z then "uncommon" else "rare")
    (hours * 5) (Some (inject_Z milestone)) (inject_Z milestone)
    (inject_Z total_study_time) 100%Q true (Some now).

Definition perfect_achievement (uid now : Z) (average_score : Q) : Achievement.t :=
  Achievement.mk uid "assessment" "Perfectionist"
    "Maintained an average score of 95% or higher!"
    "perfect_badge" "excellence" "hard" "epic"
    100 (Some 95%Q) 95%Q average_score 100%Q true (Some now).

Definition mastery_achievement (uid now mastered_subjects milestone : Z) : Achievement.t :=
  let s := if (1 <? milestone)%Z then "s" else "" in
  Achievement.mk uid "mastery"
    ("Master of " ++ str_of_int milestone ++ " Subject" ++ s)
    ("Achieved mastery in " ++ str_of_int milestone ++ " subject" ++ s ++ "!")
    "mastery_badge" "expertise"
    (if (milestone <=? 3)%Z then "medium" else "hard")
    (if (milestone <=? 3)%Z then "rare" else "epic")
    (milestone * 50) (Some (inject_Z milestone)) (inject_Z milestone)
    (inject_Z mastered_subjects) 100%Q true (Some now).

(** The counter [achievements_unlocked] and the rows passed to [db.add]. *)
Definition Unlocks : Type := (Z * list Achievement.t)%type.

(** One iteration of a milestone loop ([for milestone in ..._milestones]):
    the three loops differ in the aggregate compared, the type tag and the
    row built. *)
Definition check_milestone (db : Db) (uid : Z) (achievement_type : string)
    (aggregate : Z) (build : Z -> Achievement.t) (acc : Unlocks) (milestone : Z)
  : Unlocks :=
  if (milestone <=? aggregate)%Z then
    match existing_threshold uid achievement_type milestone db with
    | Some _ => acc
    | None => (fst acc + 1, (snd acc ++ [build milestone])%list)
    end
  else acc.

Definition streak_milestones : list Z := [7; 14; 30; 60; 100].
Definition time_milestones : list Z := [600; 1200; 3000; 6000; 12000].
Definition mastery_milestones : list Z := [1; 3; 5; 10].

(** [db.query(func.max(Progress.streak_days)).filter(user_id == uid).scalar()]:
    the largest non-NULL value, [None] when there is none. *)
Definition max_streak_days (uid : Z) (db : Db) : option Z :=
  foldl (fun m p =>
           match Progress.streak_days p, m with
           | Some v, Some w => Some (Z.max w v)
           | Some v, None => Some v
           | None, _ => m
           end)
        None
        (filter (fun p => Progress.user_id p = uid) (progress db)).

(** [v or 0] *)
Definition or_zero (v : option Z) : Z :=
  if truthy_int v then default 0 v else 0.

Definition check_for_new_achievements (current_user now : Z) : M Db Z :=
  (let* cu := get_current_user current_user in
   let (_, user) := cu in
   let* db := get in
   let acc : Unlocks := (0, []) in
   let max_streak := or_zero (max_streak_days current_user db) in
   let acc :=
     foldl (check_milestone db current_user "streak" max_streak
              (streak_achievement current_user now max_streak))
           acc streak_milestones in
   let total_study_time := User.total_study_time_minutes user in
   let acc :=
     foldl (check_milestone db current_user "time" total_study_time
              (time_achievement current_user now total_study_time))
           acc time_milestones in
   let acc :=
     if Qgeb (User.average_score user) 95 then
       match existing_title current_user "assessment" "Perfectionist" db with
       | Some _ => acc
       | None =>
           (fst acc + 1,
            (snd acc ++ [perfect_achievement current_user now
                           (User.average_score user)])%list)
       end
     else acc in
   let mastered_subjects :=
     len (filter (fun p => Progress.user_id p = current_user
                           /\ Progress.is_mastered p = true)
                 (progress db)) in
   let acc :=
     foldl (check_milestone db current_user "mastery" mastered_subjects
              (mastery_achievement current_user now mastered_subjects))
           acc mastery_milestones in
   modify (fun db => with_achievements (achievements db ++ snd acc)%list db) ;;
   ret (fst acc))%handler.

(** * Reference definitions

    What the design document says each handler computes, written without
    the handlers' loops and accumulators. *)

(** Sum and arithmetic mean of a list of numbers. *)
Definition total (l : list Q) : Q := foldr Qplus 0%Q l.

Definition mean (l : list Q) : Q := (total l / inject_Z (len l))%Q.

Definition totalZ (l : list Z) : Z := foldr Z.add 0 l.

(** A row of assessments whose scores are all present and are [scores]. *)
Definition scored (rows : list Assessment.t) (scores : list Q) : Prop :=
  map Assessment.score_percentage rows = map Some scores.

(** Two-bucket improvement: the list is cut at [n // 2]. *)
Definition two_bucket_improvement (scores : list Q) : Q :=
  if (len scores <? 2)%Z then 0%Q
  else
    let h := Z.to_nat (len scores / 2) in
    let first_mean := mean (take h scores) in
    let second_mean := mean (drop h scores) in
    if Qeq_bool first_mean 0 then 0%Q
    else ((second_mean - first_mean) / first_mean * 100)%Q.

(** Least-squares slope of [scores] against the positions [0 .. n-1]. *)
Definition sum_x (n : nat) : Z := totalZ (map Z.of_nat (seq 0 n)).
Definition sum_xx (n : nat) : Z := totalZ (map (fun i => Z.of_nat i * Z.of_nat i) (seq 0 n)).
Definition sum_xy (scores : list Q) : Q :=
  total (map (fun p => (inject_Z (Z.of_nat (fst p)) * snd p)%Q)
             (combine (seq 0 (length scores)) scores)).

Definition slope_denominator (n : nat) : Z :=
  Z.of_nat n * sum_xx n - sum_x n * sum_x n.

Definition least_squares_slope (scores : list Q) : Q :=
  let n := length scores in
  ((inject_Z (Z.of_nat n) * sum_xy scores - inject_Z (sum_x n) * total scores)
   / inject_Z (slope_denominator n))%Q.

(** ** Sample stores, used to instantiate the properties below *)

Definition sample_user : User.t := User.mk 1 120 0 0%Q 0.

Definition sample_assessment (status : string) : Assessment.t :=
  Assessment.mk 10 1 "math" (Some 0) None None 2 0 0 None status false 0.

Definition sample_questions : list Question.t :=
  [Question.mk 100 10 " Paris " 2%Q; Question.mk 101 10 "4" 1%Q].

Definition sample_db (status : string) : Db :=
  mkDb [sample_user] [] [sample_assessment status] sample_questions
       [] [] [] [] [] [].

Definition sample_submission : AssessmentSubmission :=
  [mkAnswerSubmission 100 (Some "paris") None;
   mkAnswerSubmission 7 (Some "x") None;
   mkAnswerSubmission 101 None (Some "5")].

(** ** Closed forms of the values [submit_assessment] stores *)

Definition score_of (t : Tally) : Q :=
  if Qgtb (total_points t) 0
  then (earned_points t / total_points t * 100)%Q else 0%Q.

Definition average_after (user : User.t) (score : Q) : Q :=
  let completed := (User.total_assessments_completed user + 1)%Z in
  if (0 <? completed)%Z
  then ((User.average_score user * inject_Z (completed - 1) + score)
        / inject_Z completed)%Q
  else User.average_score user.

Definition submit_tally (aid uid : Z) (submission : AssessmentSubmission) (db : Db)
  : Tally :=
  grade (question_dict_of (query_questions aid db)) aid uid submission.

Definition sample_recommendation (is_accepted : option bool) (status : string)
  : Recommendation.t :=
  Recommendation.mk 20 1 false is_accepted false None status.

Definition sample_rec_db (is_accepted : option bool) (status : string) : Db :=
  with_recommendations [sample_recommendation is_accepted status] (sample_db "completed").

Definition sample_session : LearningSession.t :=
  LearningSession.mk 30 1 "math" (Some 1000) None None 0%Q false.

Definition sample_session_db : Db :=
  with_learning_sessions [sample_session] (sample_db "completed").

(** ** Closed forms of the overview's two assessment metrics *)

Definition average_value (scores : list Q) : Q :=
  match scores with
  | [] => 0%Q
  | _ => (sum scores / inject_Z (len scores))%Q
  end.

Definition improvement_value (scores : list Q) : Q :=
  if (2 <=? len scores)%Z then
    let first_half := take (Z.to_nat (len scores / 2)) scores in
    let second_half := drop (Z.to_nat (len scores / 2)) scores in
    let first_avg := (sum first_half / inject_Z (len first_half))%Q in
    let second_avg := (sum second_half / inject_Z (len second_half))%Q in
    if Qgtb first_avg 0
    then ((second_avg - first_avg) / first_avg * 100)%Q else 0%Q
  else 0%Q.

Definition sample_scored (score : Q) (created_at : Z) : Assessment.t :=
  Assessment.mk created_at 1 "math" (Some 0) (Some 1) (Some 1%Q) 2 2 1
                (Some score) "completed" true created_at.

Definition sample_scores_db : Db :=
  with_assessments [sample_scored 60 100; sample_scored 90 200] (sample_db "completed").

(** ** Grading, answer by answer *)

(** The question a submitted [question_id] is graded against: the row of
    that assessment with that id (the last one in store order, were an id
    repeated). *)
Definition question_for (aid qid : Z) (db : Db) : option Question.t :=
  last (filter (fun q => Question.id q = qid) (query_questions aid db)).

(** The text an answer is judged by, and the judgement, as the handler
    makes them: [answer_text] when it is present and not empty, otherwise
    [selected_option]; an absent or empty text matches nothing. *)
Definition judged_text (a : AnswerSubmission) : option string :=
  match sub_answer_text a with
  | Some (String c s) => Some (String c s)
  | _ => sub_selected_option a
  end.

Definition judged_correct (a : AnswerSubmission) (q : Question.t) : Prop :=
  exists s, judged_text a = Some s /\ s <> ""
            /\ Str.lower (Str.strip s)
               = Str.lower (Str.strip (Question.correct_answer q)).

(** The same two notions read literally from the sentence "the trimmed,
    case-insensitive text ([answer_text], or [selected_option] when
    [answer_text] is absent) equals the trimmed, case-insensitive
    [correct_answer]". *)
Definition stated_text (a : AnswerSubmission) : option string :=
  match sub_answer_text a with
  | Some s => Some s
  | None => sub_selected_option a
  end.

Definition stated_correct (a : AnswerSubmission) (q : Question.t) : bool :=
  match stated_text a with
  | Some s => String.eqb (Str.lower (Str.strip s))
                         (Str.lower (Str.strip (Question.correct_answer q)))
  | None => false
  end.

(** The [Answer] row stored for a submitted answer graded against [q]. *)
Definition graded_row (aid uid : Z) (a : AnswerSubmission) (q : Question.t)
  : Answer.t :=
  Answer.mk aid (sub_question_id a) uid (sub_answer_text a) (sub_selected_option a)
            (Question.points_possible q) (Some (answer_matches a q))
            (if answer_matches a q then Question.points_possible q else 0%Q).

Definition graded_rows (aid uid : Z) (sub : AssessmentSubmission) (db : Db)
  : list Answer.t :=
  omap (fun a => graded_row aid uid a <$> question_for aid (sub_question_id a) db) sub.

(** Points of the rows marked correct, and points of all rows. *)
Definition points_of_correct (rows : list Answer.t) : Q :=
  total (map Answer.points_possible
             (filter (fun r => Answer.is_correct r = Some true) rows)).

Definition points_of_all (rows : list Answer.t) : Q :=
  total (map Answer.points_possible rows).

(** Points of the submitted answers that are correct in the literal
    reading, and the score that reading gives. *)
Definition stated_earned (aid : Z) (sub : AssessmentSubmission) (db : Db) : Q :=
  total (omap (fun a =>
                 match question_for aid (sub_question_id a) db with
                 | Some q => if stated_correct a q
                             then Some (Question.points_possible q) else None
                 | None => None
                 end) sub).

Definition stated_score (aid uid : Z) (sub : AssessmentSubmission) (db : Db) : Q :=
  (stated_earned aid sub db / points_of_all (graded_rows aid uid sub db) * 100)%Q.

(** An essay question with no reference answer, and an empty answer to it. *)
Definition essay_db : Db :=
  mkDb [sample_user] [] [sample_assessment "in_progress"]
       [Question.mk 100 10 "" 1%Q] [] [] [] [] [] [].

Definition essay_submission : AssessmentSubmission :=
  [mkAnswerSubmission 100 None (Some "")].

(** ** Ratings of a content item *)

(** The [rate] interactions of content [cid], one row per rating user. *)
Definition is_rate_of (cid : Z) (r : ContentInteraction.t) : Prop :=
  ContentInteraction.content_id r = cid
  /\ ContentInteraction.interaction_type r = "rate".

#[global] Instance is_rate_of_dec cid r : Decision (is_rate_of cid r).
Proof. unfold is_rate_of; apply _. Defined.

Definition rate_rows (cid : Z) (db : Db) : list ContentInteraction.t :=
  filter (is_rate_of cid) (content_interactions db).

Definition ratings_of (cid : Z) (db : Db) : list Z :=
  omap ContentInteraction.rating (rate_rows cid db).

Definition mean_rating (l : list Z) : Q :=
  (inject_Z (totalZ l) / inject_Z (len l))%Q.

(** The aggregate columns of content [cid] agree with its rating rows:
    [total_ratings] counts them, every row carries a rating, no user has
    two rows, and once there is a rating [average_rating] is their mean. *)
Definition ratings_consistent (cid : Z) (db : Db) : Prop :=
  exists ci c,
    query_content cid db = Some (ci, c)
    /\ Content.total_ratings c = len (rate_rows cid db)
    /\ Forall (fun r => is_Some (ContentInteraction.rating r)) (rate_rows cid db)
    /\ NoDup (map ContentInteraction.user_id (rate_rows cid db))
    /\ ((0 < Content.total_ratings c)%Z ->
        exists avg, Content.average_rating c = Some avg
                    /\ (avg == mean_rating (ratings_of cid db))%Q).



Definition fresh_content_db : Db :=
  mkDb [sample_user] [] [] [] [] [Content.mk 3 None 0] [] [] [] [].

(** The mean after a first rating by a user, and after a changed one. *)
Definition mean_after_insert (c : Content.t) (rating : Z) : Q :=
  if (0 <? Content.total_ratings c)%Z
  then ((default 0%Q (Content.average_rating c) * inject_Z (Content.total_ratings c)
         + inject_Z rating)
        / inject_Z (Content.total_ratings c + 1))%Q
  else inject_Z rating.

Definition mean_after_edit (c : Content.t) (old rating : Z) : Q :=
  ((default 0%Q (Content.average_rating c) * inject_Z (Content.total_ratings c)
    - inject_Z old + inject_Z rating)
   / inject_Z (Content.total_ratings c))%Q.

(** ** Unlocks of one achievement check *)

(** The counter and the new rows after each of the four stages of the
    check; the last is what the check commits. *)
Definition after_streaks (uid now : Z) (db : Db) : Unlocks :=
  let max_streak := or_zero (max_streak_days uid db) in
  foldl (check_milestone db uid "streak" max_streak
           (streak_achievement uid now max_streak))
        (0, []) streak_milestones.

Definition after_times (uid now : Z) (user : User.t) (db : Db) : Unlocks :=
  let total_study_time := User.total_study_time_minutes user in
  foldl (check_milestone db uid "time" total_study_time
           (time_achievement uid now total_study_time))
        (after_streaks uid now db) time_milestones.

Definition after_perfect (uid now : Z) (user : User.t) (db : Db) : Unlocks :=
  let acc := after_times uid now user db in
  if Qgeb (User.average_score user) 95 then
    match existing_title uid "assessment" "Perfectionist" db with
    | Some _ => acc
    | None =>
        (fst acc + 1,
         (snd acc ++ [perfect_achievement uid now (User.average_score user)])%list)
    end
  else acc.

Definition mastered_count (uid : Z) (db : Db) : Z :=
  len (filter (fun p => Progress.user_id p = uid /\ Progress.is_mastered p = true)
              (progress db)).

Definition pending_unlocks (uid now : Z) (user : User.t) (db : Db) : Unlocks :=
  foldl (check_milestone db uid "mastery" (mastered_count uid db)
           (mastery_achievement uid now (mastered_count uid db)))
        (after_perfect uid now user db) mastery_milestones.

(** Two rows stand for the same unlock: same user and type, and the same
    threshold, or for the perfect-score type the same title. *)
Definition same_unlock (a b : Achievement.t) : Prop :=
  Achievement.user_id a = Achievement.user_id b
  /\ Achievement.achievement_type a = Achievement.achievement_type b
  /\ if decide (Achievement.achievement_type a = "assessment")
     then Achievement.title a = Achievement.title b
     else match Achievement.threshold_value a, Achievement.threshold_value b with
          | Some v, Some w => (v == w)%Q
          | _, _ => False
          end.

Definition achiever_db : Db :=
  mkDb [User.mk 1 700 3 96%Q 0] [] [] [] [] [] []
       [Progress.mk 1 (Some 15) true; Progress.mk 1 None false] [] [].

(** A row of the table carries the key [(uid, ty, m)]. *)
Definition has_threshold (uid : Z) (ty : string) (m : Z) (l : list Achievement.t)
  : Prop :=
  exists a, a ∈ l /\ Achievement.user_id a = uid
            /\ Achievement.achievement_type a = ty /\ threshold_is m a.

(** A new row of the check: it belongs to [uid], is unlocked, and no row
    of the table stood for the same unlock. *)
Definition newly_unlocked (uid : Z) (db : Db) (a : Achievement.t) : Prop :=
  Achievement.user_id a = uid
  /\ Achievement.is_unlocked a = true
  /\ forall b, b ∈ achievements db -> ~ same_unlock a b.

(** How many rows of [l] carry the key [(uid, ty, m)], and how many the
    key [(uid, ty, title)]. *)
Definition unlock_count (uid : Z) (ty : string) (m : Z) (l : list Achievement.t)
  : nat :=
  length (filter (fun a => Achievement.user_id a = uid
                           /\ Achievement.achievement_type a = ty
                           /\ threshold_is m a) l).

Definition title_count (uid : Z) (ty title : string) (l : list Achievement.t)
  : nat :=
  length (filter (fun a => Achievement.user_id a = uid
                           /\ Achievement.achievement_type a = ty
                           /\ Achievement.title a = title) l).

(** ** The overview's window, as the design states it *)

(** "Completed assessments in the time window": the rows that belong to
    [uid], are completed and were created no more than [days] days (of
    24 * 60 * 60 seconds, in microseconds) before [now], in the order of
    [rows]. *)
Fixpoint completed_in_window (uid days now : Z) (rows : list Assessment.t)
  : list Assessment.t :=
  match rows with
  | [] => []
  | a :: rows' =>
      if ((Assessment.user_id a =? uid)%Z
          && Assessment.is_completed a
          && (now - days * (24 * 60 * 60 * 1000000) <=? Assessment.created_at a)%Z)%bool
      then a :: completed_in_window uid days now rows'
      else completed_in_window uid days now rows'
  end.

(** "The time-ordered list": the rows by increasing [created_at]. *)
Definition time_ordered (rows : list Assessment.t) : list Assessment.t :=
  merge_sort created_le rows.

(** The rows of one subject; every row when no subject (or an empty one)
    is asked for. *)
Definition of_subject (subject : option string) (rows : list Assessment.t)
  : list Assessment.t :=
  match subject with
  | Some (String c s) =>
      List.filter (fun a => String.eqb (Assessment.subject a) (String c s)) rows
  | _ => rows
  end.

(** Forty days after the epoch, the clock of the examples below. *)
Definition day_40 : Z := 40 * 86400000000.

(** A completed assessment of user 1 created [minutes] minutes before
    [day_40]. *)
Definition recent_scored (score : Q) (minutes : Z) : Assessment.t :=
  sample_scored score (day_40 - minutes * 60000000).

(** Rows the 30-day window of user 1 at [day_40] leaves out: another
    user's, one created 31 days before, one not completed. *)
Definition other_users_row : Assessment.t :=
  Assessment.mk 1 2 "math" (Some 0) (Some 1) (Some 1%Q) 2 2 1
                (Some 10%Q) "completed" true (day_40 - 500 * 60000000).

Definition stale_row : Assessment.t := sample_scored 20 (day_40 - 31 * 86400000000).

Definition unfinished_row : Assessment.t :=
  Assessment.mk 2 1 "math" (Some 0) None None 2 0 0 None "in_progress" false
                (day_40 - 300 * 60000000).

Definition outside_db : Db :=
  with_assessments [other_users_row; stale_row; unfinished_row] (sample_db "completed").

(** The window holds the scores 60 and 90, in time order, among rows it
    leaves out. *)
Definition window_db : Db :=
  with_assessments
    [other_users_row; recent_scored 60 200; stale_row; recent_scored 90 100;
     unfinished_row]
    (sample_db "completed").

(** The score 80 was created after the score 40 and is stored before it. *)
Definition unordered_db : Db :=
  with_assessments [recent_scored 80 100; recent_scored 40 200] (sample_db "completed").

(** A first half with a negative mean. *)
Definition negative_db : Db :=
  with_assessments [recent_scored (-50) 200; recent_scored 10 100]
                   (sample_db "completed").

(** * Further handlers *)

(** ** api/assessments.py: results *)

(** One entry of [question_results]; the question's text, type and
    explanation, copied into the response as they are, are not columns of
    this model. *)
Record QuestionResult : Type := mkQuestionResult {
  qr_question_id : Z;
  qr_correct_answer : string;
  qr_user_answer : option string;
  qr_is_correct : option bool;
  qr_points_earned : Q;
  qr_points_possible : Q
}.

Record ResultsResponse : Type := mkResultsResponse {
  res_assessment : Assessment.t;
  res_total_questions : Z;
  res_questions_answered : Z;
  res_correct_answers : Z;
  res_score_percentage : option Q;
  res_time_taken_minutes : option Q;
  res_question_results : list QuestionResult
}.

(** [db.query(Answer).filter(Answer.assessment_id == assessment_id).all()] *)
Definition query_answers (assessment_id : Z) (db : Db) : list Answer.t :=
  filter (fun a => Answer.assessment_id a = assessment_id) (answers db).

(** [{a.question_id: a for a in answers}] *)
Definition answer_dict_of (rows : list Answer.t) : gmap Z Answer.t :=
  foldl (fun d a => <[Answer.question_id a := a]> d) ∅ rows.

(** The entry built for one question in the loop of lines 378-390. *)
Definition question_result (answer_dict : gmap Z Answer.t) (question : Question.t)
  : QuestionResult :=
  let answer := answer_dict !! Question.id question in
  mkQuestionResult
    (Question.id question)
    (Question.correct_answer question)
    (match answer with
     | Some answer => Str.or (Answer.answer_text answer) (Answer.selected_option answer)
     | None => None
     end)
    (match answer with
     | Some answer => Answer.is_correct answer
     | None => Some false
     end)
    (match answer with
     | Some answer => Answer.points_earned answer
     | None => 0%Q
     end)
    (Question.points_possible question).

Definition get_assessment_results (assessment_id current_user : Z)
  : M Db ResultsResponse :=
  (let* db := get in
   match query_assessment assessment_id current_user db with
   | None => raise (HTTPException HTTP_404_NOT_FOUND "Assessment not found")
   | Some (_, assessment) =>
       raise_if (negb (Assessment.is_completed assessment))
                (HTTPException HTTP_400_BAD_REQUEST
                               "Assessment is not completed yet") ;;
       let questions := query_questions assessment_id db in
       let answers := query_answers assessment_id db in
       let answer_dict := answer_dict_of answers in
       let question_results := map (question_result answer_dict) questions in
       ret (mkResultsResponse assessment
              (Assessment.total_questions assessment)
              (Assessment.questions_answered assessment)
              (Assessment.correct_answers assessment)
              (Assessment.score_percentage assessment)
              (Assessment.time_taken_minutes assessment)
              question_results)
   end)%handler.

(** Scores that grow by [d] from one assessment to the next, from [a]. *)
Definition linear_scores (a d : Q) (n : nat) : list Q :=
  map (fun i => (a + d * inject_Z (Z.of_nat i))%Q) (seq 0 n).

(** The session query of the overview: the user's sessions started in the
    window. *)
Definition sessions_since (uid start_date : Z) (db : Db) : list LearningSession.t :=
  filter (fun s => LearningSession.user_id s = uid
                   /\ at_or_after start_date (LearningSession.start_time s))
         (learning_sessions db).

Definition sample_sessions_db : Db :=
  with_learning_sessions
    [LearningSession.mk 30 1 "math" (Some 900) (Some 950) (Some 25) 100%Q true;
     LearningSession.mk 31 1 "math" (Some 960) None None 0%Q false;
     LearningSession.mk 32 1 "physics" (Some 970) (Some 990) (Some 40) 100%Q true]
    sample_scores_db.

(** ** api/analytics.py: performance trends and learning patterns *)

(** The float operations of the trend statistics.  What [sum] returns for
    a list of floats, and the float quotient, difference and product, are
    fixed by the values only up to rounding (for a sum the rounding depends
    on the order of the additions), so the handler is modelled over any
    such operations. *)
Record FloatArith : Type := mkFloatArith {
  fl_sum : list Q -> Q;
  fl_div : Q -> Q -> Q;
  fl_sub : Q -> Q -> Q;
  fl_mul : Q -> Q -> Q
}.

(** The operations without rounding. *)
Definition exact_arith : FloatArith := mkFloatArith sum Qdiv Qminus Qmult.

(** The numbers of a list of nullable values; a [None] among them makes
    [sum] raise [TypeError]. *)
Fixpoint values_of {S} (l : list (option Q)) : M S (list Q) :=
  match l with
  | [] => ret []
  | Some x :: l' => bind (values_of l') (fun r => ret (x :: r))
  | None :: _ => raise TypeError
  end.

(** [sum(values)] *)
Definition float_sum {S} (fp : FloatArith) (l : list (option Q)) : M S Q :=
  bind (values_of l) (fun xs => ret (fl_sum fp xs)).

(** [a / b] *)
Definition float_div {S} (fp : FloatArith) (a b : Q) : M S Q :=
  if Qeq_bool b 0 then raise ZeroDivisionError else ret (fl_div fp a b).

(** The trend statistics of [get_performance_trends] (lines 279-288) over
    the values of [trend_data]; the result is [trend_direction] and
    [trend_percentage] (rounded to 2 places in the response). *)
Definition trend_statistics {S} (fp : FloatArith) (values : list (option Q))
  : M S (string * Q) :=
  if (2 <=? len values)%Z then
    let half := (len values / 2)%Z in
    (let* first_total := float_sum fp (take (Z.to_nat half) values) in
     let* first_half_avg := float_div fp first_total (inject_Z half) in
     let* second_total := float_sum fp (drop (Z.to_nat half) values) in
     let* second_half_avg :=
       float_div fp second_total (inject_Z (len values - half)) in
     let trend_direction :=
       if Qgtb second_half_avg first_half_avg then "improving" else "declining" in
     let* trend_percentage :=
       if Qgtb first_half_avg 0
       then (let* r := float_div fp (fl_sub fp second_half_avg first_half_avg)
                                 first_half_avg in
             ret (fl_mul fp r 100))
       else ret 0%Q in
     ret (trend_direction, trend_percentage))%handler
  else ret ("stable", 0%Q).

(** [time_periods], in the order the dict literal lists its ranges. *)
Definition time_periods : list (Z * Z * string) :=
  [(6, 12, "Morning"); (12, 17, "Afternoon"); (17, 22, "Evening");
   (22, 24, "Night"); (0, 6, "Night")].

(** [hour in range(lo, hi)] *)
Definition in_range (hour : Z) (r : Z * Z * string) : bool :=
  (fst (fst r) <=? hour)%Z && (hour <? snd (fst r))%Z.

(** The loop of lines 348-352: the first period whose range holds the
    hour, ["Morning"] when none does. *)
Definition most_productive_time_of (most_productive_hour : Z) : string :=
  match List.find (in_range most_productive_hour) time_periods with
  | Some r => snd r
  | None => "Morning"
  end.

(** The user row [complete_learning_session] writes back: the duration of
    the completed session is added when it is present and not 0. *)
Definition credited_user (session : LearningSession.t) (user : User.t) : User.t :=
  if truthy_int (LearningSession.duration_minutes session)
  then with_total_study_time
         (User.total_study_time_minutes user
          + default 0%Z (LearningSession.duration_minutes session)) user
  else user.

(** [db.query(LearningSession).filter(id == sid, user_id == uid).first()] *)
Definition query_session (sid uid : Z) (db : Db) : option (nat * LearningSession.t) :=
  list_find (fun s => LearningSession.id s = sid /\ LearningSession.user_id s = uid)
            (learning_sessions db).

(** ** api/recommendations.py: dismissal and effectiveness *)

Definition dismissed (r : Recommendation.t) : Recommendation.t :=
  Recommendation.mk (Recommendation.id r) (Recommendation.user_id r)
    (Recommendation.is_viewed r) (Recommendation.is_accepted r)
    (Recommendation.is_completed r) (Recommendation.completed_at r) "dismissed".

Definition dismiss_recommendation (recommendation_id current_user : Z) : M Db unit :=
  (let* db := get in
   match query_recommendation recommendation_id current_user db with
   | None => raise (HTTPException HTTP_404_NOT_FOUND "Recommendation not found")
   | Some (i, recommendation) =>
       let recommendation := dismissed recommendation in
       modify (fun db =>
                 with_recommendations
                   (<[i := recommendation]> (recommendations db)) db)
   end)%handler.

(** [sum(1 for r in recommendations if cond(r))] *)
Definition count_if {A} (cond : A -> bool) (l : list A) : Z :=
  len (List.filter cond l).

(** [r.is_accepted == True] *)
Definition accepted (r : Recommendation.t) : bool :=
  match Recommendation.is_accepted r with
  | Some true => true
  | _ => false
  end.

Record Effectiveness : Type := mkEffectiveness {
  eff_total_recommendations : Z;
  eff_viewed_count : Z;
  eff_acceptance_rate : Q;
  eff_completion_rate : Q
}.

(** The head metrics of [get_recommendation_analytics] (lines 393-408) over
    the fetched recommendations; the two rates are rounded to 2 places in
    the response. *)
Definition effectiveness_of {S} (recommendations : list Recommendation.t)
  : M S Effectiveness :=
  match recommendations with
  | [] => ret (mkEffectiveness 0 0 0%Q 0%Q)
  | _ =>
      let total_recommendations := len recommendations in
      let viewed_count := count_if Recommendation.is_viewed recommendations in
      let accepted_count := count_if accepted recommendations in
      let completed_count := count_if Recommendation.is_completed recommendations in
      (let* acceptance_rate :=
         if (0 <? viewed_count)%Z
         then (let* r := truediv (inject_Z accepted_count) (inject_Z viewed_count) in
               ret (r * 100)%Q)
         else ret 0%Q in
       let* completion_rate :=
         if (0 <? accepted_count)%Z
         then (let* r := truediv (inject_Z completed_count) (inject_Z accepted_count) in
               ret (r * 100)%Q)
         else ret 0%Q in
       ret (mkEffectiveness total_recommendations viewed_count
                            acceptance_rate completion_rate))%handler
  end.


Definition sample_recommendations : list Recommendation.t :=
  [Recommendation.mk 20 1 true (Some true) true (Some 5) "completed";
   Recommendation.mk 21 1 true (Some false) false None "declined";
   Recommendation.mk 22 1 false None false None "active";
   Recommendation.mk 23 1 true (Some true) false None "accepted"].

(** A row the check may insert for user [uid] whose largest streak is
    [max_streak], study time [total_study_time], average [average_score]
    and number of mastered subjects [mastered]: a milestone of one of the
    three tables that the aggregate has reached, or the perfect-score row,
    with the points of its kind. *)
Definition earned_by (uid max_streak total_study_time : Z) (average_score : Q)
    (mastered : Z) (a : Achievement.t) : Prop :=
  Achievement.user_id a = uid
  /\ Achievement.is_unlocked a = true
  /\ ((Achievement.achievement_type a = "streak"
       /\ exists m, In m streak_milestones /\ (m <= max_streak)%Z
                    /\ Achievement.threshold_value a = Some (inject_Z m)
                    /\ Achievement.points_awarded a = (m * 2)%Z)
      \/ (Achievement.achievement_type a = "time"
          /\ exists m, In m time_milestones /\ (m <= total_study_time)%Z
                       /\ Achievement.threshold_value a = Some (inject_Z m)
                       /\ Achievement.points_awarded a = (m / 60 * 5)%Z)
      \/ (Achievement.achievement_type a = "assessment"
          /\ Achievement.title a = "Perfectionist"
          /\ (95 <= average_score)%Q
          /\ Achievement.points_awarded a = 100%Z)
      \/ (Achievement.achievement_type a = "mastery"
          /\ exists m, In m mastery_milestones /\ (m <= mastered)%Z
                       /\ Achievement.threshold_value a = Some (inject_Z m)
                       /\ Achievement.points_awarded a = (m * 50)%Z)).

(** A text made of whitespace only. *)
Fixpoint blank (s : string) : bool :=
  match s with
  | EmptyString => true
  | String c s' => Str.isspace c && blank s'
  end.

(** * Properties *)

Local Open Scope handler_scope.
Local Open Scope list_scope.

(** ** Running a handler *)

Lemma bind_ok {S A B} (m : M S A) (k : A -> M S B) s a s' :
  m s = (inr a, s') -> bind m k s = k a s'.
Proof. intros H; unfold bind; now rewrite H. Qed.

Lemma bind_raise {S A B} (m : M S A) (k : A -> M S B) s e s' :
  m s = (inl e, s') -> bind m k s = (inl e, s').
Proof. intros H; unfold bind; now rewrite H. Qed.

Lemma truediv_ok {S} (a b : Q) (s : S) :
  ~ (b == 0)%Q -> truediv a b s = (inr (a / b)%Q, s).
Proof.
  intros Hb; unfold truediv.
  destruct (Qeq_bool b 0) eqn:E; [apply Qeq_bool_eq in E; contradiction | reflexivity].
Qed.

Lemma get_current_user_inv uid db r db' :
  get_current_user uid db = (inr r, db') ->
  db' = db /\ list_find (fun u => User.id u = uid) (users db) = Some r.
Proof.
  unfold get_current_user.
  destruct (list_find _ _) as [r0|]; intros H; inversion H; subst; auto.
Qed.

Lemma get_current_user_ok uid db r :
  list_find (fun u => User.id u = uid) (users db) = Some r ->
  get_current_user uid db = (inr r, db).
Proof. intros H; unfold get_current_user; now rewrite H. Qed.

(** ** Assessment lifecycle *)

Lemma start_assessment_inv aid uid now db r db' :
  start_assessment aid uid now db = (inr r, db') ->
  exists i a, query_assessment aid uid db = Some (i, a)
              /\ Assessment.status a = "not_started".
Proof.
  unfold start_assessment, bind, get, raise_if, raise, ret, modify.
  destruct (query_assessment aid uid db) as [[i a]|]; [|discriminate].
  destruct (String.eqb (Assessment.status a) "not_started") eqn:E; simpl;
    [|discriminate].
  intros _. exists i, a. split; [reflexivity | now apply String.eqb_eq].
Qed.

Lemma start_assessment_rejects aid uid now db i a :
  query_assessment aid uid db = Some (i, a) ->
  Assessment.status a <> "not_started" ->
  start_assessment aid uid now db
  = (inl (HTTPException HTTP_400_BAD_REQUEST "Assessment has already been started"), db).
Proof.
  intros Hq Hs.
  unfold start_assessment, bind, get, raise_if, raise. rewrite Hq.
  apply String.eqb_neq in Hs. now rewrite Hs.
Qed.

Lemma start_assessment_raise_keeps aid uid now db e db' :
  start_assessment aid uid now db = (inl e, db') -> db' = db.
Proof.
  unfold start_assessment, bind, get, raise_if, raise, ret, modify.
  destruct (query_assessment aid uid db) as [[i a]|].
  - destruct (String.eqb (Assessment.status a) "not_started"); simpl;
      intros H; inversion H; reflexivity.
  - intros H; inversion H; reflexivity.
Qed.

Lemma Qgtb_true a b : Qgtb a b = true <-> (b < a)%Q.
Proof.
  unfold Qgtb. rewrite negb_true_iff.
  destruct (Qle_bool a b) eqn:E.
  - apply Qle_bool_iff in E. split; [discriminate |].
    intros H; exfalso; exact (Qlt_not_le _ _ H E).
  - split; [intros _ | reflexivity].
    apply Qnot_le_lt. intros H. apply Qle_bool_iff in H. congruence.
Qed.

Lemma inject_Z_nonzero z : z <> 0%Z -> ~ (inject_Z z == 0)%Q.
Proof. intros Hz H. apply Hz. unfold Qeq in H; simpl in H. lia. Qed.

(** The success path of [submit_assessment], with everything it writes. *)
Lemma submit_assessment_run aid sub uid now db ui user i a :
  list_find (fun u => User.id u = uid) (users db) = Some (ui, user) ->
  query_assessment aid uid db = Some (i, a) ->
  Assessment.status a = "in_progress" ->
  let t := submit_tally aid uid sub db in
  let a' := submitted now (len sub) (correct_answers t) (score_of t) a in
  let user' :=
    with_assessment_stats (User.total_assessments_completed user + 1)
                          (average_after user (score_of t)) user in
  submit_assessment aid sub uid now db
  = (inr (mkSubmitResponse a' (score_of t) (correct_answers t)
                           (len (query_questions aid db))),
     with_users (<[ui := user']> (users db))
       (with_assessments (<[i := a']> (assessments db))
          (with_answers (answers db ++ added t)%list db))).
Proof.
  intros Hu Hq Hs t a' user'.
  unfold submit_assessment.
  rewrite (bind_ok _ _ _ _ _ (get_current_user_ok _ _ _ Hu)).
  unfold bind at 1, get at 1. rewrite Hq.
  unfold raise_if. rewrite Hs. simpl negb. cbv iota.
  unfold bind at 1, ret at 1.
  fold (submit_tally aid uid sub db). fold t.
  assert (Hscore :
    (if Qgtb (total_points t) 0
     then bind (truediv (earned_points t) (total_points t))
               (fun r => ret (r * 100)%Q)
     else ret 0%Q) db = (inr (score_of t), db)).
  { unfold score_of. destruct (Qgtb (total_points t) 0) eqn:E; [|reflexivity].
    apply Qgtb_true in E.
    assert (Hnz : ~ (total_points t == 0)%Q)
      by (intros H0; rewrite H0 in E; exact (Qlt_irrefl _ E)).
    rewrite (bind_ok _ _ _ _ _ (truediv_ok _ _ _ Hnz)). reflexivity. }
  rewrite (bind_ok _ _ _ _ _ Hscore).
  assert (Havg :
    (if (0 <? User.total_assessments_completed user + 1)%Z
     then truediv (User.average_score user
                   * inject_Z (User.total_assessments_completed user + 1 - 1)
                   + score_of t)%Q
                  (inject_Z (User.total_assessments_completed user + 1))
     else ret (User.average_score user)) db
    = (inr (average_after user (score_of t)), db)).
  { unfold average_after.
    destruct (0 <? User.total_assessments_completed user + 1)%Z eqn:E;
      [|reflexivity].
    apply Z.ltb_lt in E. apply truediv_ok, inject_Z_nonzero. lia. }
  rewrite (bind_ok _ _ _ _ _ Havg).
  reflexivity.
Qed.

Lemma submit_assessment_inv aid sub uid now db r db' :
  submit_assessment aid sub uid now db = (inr r, db') ->
  exists i a, query_assessment aid uid db = Some (i, a)
              /\ Assessment.status a = "in_progress".
Proof.
  unfold submit_assessment.
  destruct (get_current_user uid db) as [[e|[ui user]] db0] eqn:Hu.
  - rewrite (bind_raise _ _ _ _ _ Hu). discriminate.
  - rewrite (bind_ok _ _ _ _ _ Hu).
    unfold bind at 1, get at 1.
    destruct (query_assessment aid uid db0) as [[i a]|] eqn:Hq; [|discriminate].
    apply get_current_user_inv in Hu as [-> _].
    unfold raise_if.
    destruct (String.eqb (Assessment.status a) "in_progress") eqn:E.
    + intros _. exists i, a. split; [assumption | now apply String.eqb_eq].
    + simpl. unfold bind at 1, raise at 1. discriminate.
Qed.

Lemma submit_assessment_rejects aid sub uid now db u i a :
  list_find (fun u => User.id u = uid) (users db) = Some u ->
  query_assessment aid uid db = Some (i, a) ->
  Assessment.status a <> "in_progress" ->
  submit_assessment aid sub uid now db
  = (inl (HTTPException HTTP_400_BAD_REQUEST "Assessment is not in progress"), db).
Proof.
  intros Hu Hq Hs. unfold submit_assessment.
  rewrite (bind_ok _ _ _ _ _ (get_current_user_ok _ _ _ Hu)).
  destruct u as [ui user].
  unfold bind at 1, get at 1. rewrite Hq.
  apply String.eqb_neq in Hs. unfold raise_if. rewrite Hs. reflexivity.
Qed.

Lemma submit_assessment_raise_keeps aid sub uid now db e db' :
  submit_assessment aid sub uid now db = (inl e, db') -> db' = db.
Proof.
  unfold submit_assessment.
  destruct (get_current_user uid db) as [[e0|[ui user]] db0] eqn:Hu.
  - rewrite (bind_raise _ _ _ _ _ Hu).
    unfold get_current_user in Hu.
    destruct (list_find _ _); inversion Hu; subst. intros H; now inversion H.
  - pose proof (get_current_user_inv _ _ _ _ Hu) as [-> Hfind].
    destruct (query_assessment aid uid db) as [[i a]|] eqn:Hq.
    + destruct (String.eqb_spec (Assessment.status a) "in_progress") as [Hs|Hs].
      * fold (submit_assessment aid sub uid now db).
        rewrite (submit_assessment_run _ _ _ _ _ _ _ _ _ Hfind Hq Hs). discriminate.
      * fold (submit_assessment aid sub uid now db).
        rewrite (submit_assessment_rejects _ _ _ _ _ _ _ _ Hfind Hq Hs).
        intros H; now inversion H.
    + rewrite (bind_ok _ _ _ _ _ Hu). unfold bind at 1, get at 1. rewrite Hq.
      intros H; now inversion H.
Qed.

(** C7. An assessment can be started only from [not_started] and submitted
    only from [in_progress]: a successful call implies that status, a call
    on an assessment in any other status raises the 400 error, and a call
    that raises leaves the store as it was. *)
Theorem start_and_submit_guard_status aid uid now sub db :
  (forall r db', start_assessment aid uid now db = (inr r, db') ->
     exists i a, query_assessment aid uid db = Some (i, a)
                 /\ Assessment.status a = "not_started")
  /\ (forall i a, query_assessment aid uid db = Some (i, a) ->
        Assessment.status a <> "not_started" ->
        start_assessment aid uid now db
        = (inl (HTTPException HTTP_400_BAD_REQUEST
                  "Assessment has already been started"), db))
  /\ (forall r db', submit_assessment aid sub uid now db = (inr r, db') ->
        exists i a, query_assessment aid uid db = Some (i, a)
                    /\ Assessment.status a = "in_progress")
  /\ (forall u i a,
        list_find (fun u => User.id u = uid) (users db) = Some u ->
        query_assessment aid uid db = Some (i, a) ->
        Assessment.status a <> "in_progress" ->
        submit_assessment aid sub uid now db
        = (inl (HTTPException HTTP_400_BAD_REQUEST
                  "Assessment is not in progress"), db))
  /\ (forall e db', start_assessment aid uid now db = (inl e, db') -> db' = db)
  /\ (forall e db', submit_assessment aid sub uid now db = (inl e, db') -> db' = db).
Proof.
  repeat split.
  - apply start_assessment_inv.
  - apply start_assessment_rejects.
  - apply submit_assessment_inv.
  - apply submit_assessment_rejects.
  - apply start_assessment_raise_keeps.
  - apply submit_assessment_raise_keeps.
Qed.

Lemma start_and_submit_guard_status_witness :
  start_assessment 10 1 5 (sample_db "completed")
  = (inl (HTTPException HTTP_400_BAD_REQUEST "Assessment has already been started"),
     sample_db "completed")
  /\ submit_assessment 10 sample_submission 1 5 (sample_db "not_started")
     = (inl (HTTPException HTTP_400_BAD_REQUEST "Assessment is not in progress"),
        sample_db "not_started")
  /\ (exists i a, query_assessment 10 1 (sample_db "in_progress") = Some (i, a)
                  /\ Assessment.status a = "in_progress").
Proof.
  split; [|split].
  - destruct (start_and_submit_guard_status 10 1 5 sample_submission
                (sample_db "completed")) as (_ & H & _).
    apply (H 0%nat (sample_assessment "completed")); [reflexivity | discriminate].
  - destruct (start_and_submit_guard_status 10 1 5 sample_submission
                (sample_db "not_started")) as (_ & _ & _ & H & _).
    apply (H (0%nat, sample_user) 0%nat (sample_assessment "not_started"));
      [reflexivity | reflexivity | discriminate].
  - destruct (start_and_submit_guard_status 10 1 5 sample_submission
                (sample_db "in_progress")) as (_ & _ & H & _).
    eapply H. vm_compute. reflexivity.
Defined.

(** ** Recommendation lifecycle *)

(** C8. [complete_recommendation] succeeds only on a recommendation whose
    [is_accepted] is true; when it is false (declined) or NULL (pending,
    never responded to) the call raises the 400 error and the store is
    unchanged, as it is after any raise. *)
Theorem complete_requires_accepted rid uid now db :
  (forall r db', complete_recommendation rid uid now db = (inr r, db') ->
     exists i rec, query_recommendation rid uid db = Some (i, rec)
                   /\ Recommendation.is_accepted rec = Some true)
  /\ (forall i rec, query_recommendation rid uid db = Some (i, rec) ->
        Recommendation.is_accepted rec <> Some true ->
        complete_recommendation rid uid now db
        = (inl (HTTPException HTTP_400_BAD_REQUEST
                  "Cannot complete a recommendation that wasn't accepted"), db))
  /\ (forall i rec, query_recommendation rid uid db = Some (i, rec) ->
        Recommendation.is_accepted rec = Some true ->
        complete_recommendation rid uid now db
        = (inr (completed_recommendation now rec),
           with_recommendations
             (<[i := completed_recommendation now rec]> (recommendations db)) db))
  /\ (forall e db', complete_recommendation rid uid now db = (inl e, db') -> db' = db).
Proof.
  unfold complete_recommendation, query_recommendation, bind, get, raise_if,
    raise, ret, modify.
  repeat split.
  - intros r db'. destruct (list_find _ _) as [[i rec]|]; [|discriminate].
    destruct (Recommendation.is_accepted rec) as [[|]|] eqn:E; simpl;
      try discriminate.
    intros _. now exists i, rec.
  - intros i rec -> Hacc.
    destruct (Recommendation.is_accepted rec) as [[|]|]; simpl;
      [congruence | reflexivity | reflexivity].
  - intros i rec -> ->. reflexivity.
  - intros e db'. destruct (list_find _ _) as [[i rec]|].
    + destruct (Recommendation.is_accepted rec) as [[|]|]; simpl;
        intros H; now inversion H.
    + intros H; now inversion H.
Qed.

Lemma complete_requires_accepted_witness :
  complete_recommendation 20 1 9 (sample_rec_db None "active")
  = (inl (HTTPException HTTP_400_BAD_REQUEST
            "Cannot complete a recommendation that wasn't accepted"),
     sample_rec_db None "active")
  /\ complete_recommendation 20 1 9 (sample_rec_db (Some false) "declined")
     = (inl (HTTPException HTTP_400_BAD_REQUEST
               "Cannot complete a recommendation that wasn't accepted"),
        sample_rec_db (Some false) "declined")
  /\ fst (complete_recommendation 20 1 9 (sample_rec_db (Some true) "accepted"))
     = inr (completed_recommendation 9 (sample_recommendation (Some true) "accepted")).
Proof.
  split; [|split].
  - destruct (complete_requires_accepted 20 1 9 (sample_rec_db None "active"))
      as (_ & H & _).
    apply (H 0%nat (sample_recommendation None "active")); [reflexivity | discriminate].
  - destruct (complete_requires_accepted 20 1 9 (sample_rec_db (Some false) "declined"))
      as (_ & H & _).
    apply (H 0%nat (sample_recommendation (Some false) "declined"));
      [reflexivity | discriminate].
  - destruct (complete_requires_accepted 20 1 9 (sample_rec_db (Some true) "accepted"))
      as (_ & _ & H & _).
    rewrite (H 0%nat (sample_recommendation (Some true) "accepted"));
      reflexivity.
Defined.

(** ** Sums and means *)

Lemma fold_left_Qplus_total l a : (fold_left Qplus l a == a + total l)%Q.
Proof.
  revert a; induction l as [|x l IH]; intros a; simpl.
  - ring.
  - rewrite IH. ring.
Qed.

Lemma sum_total l : (sum l == total l)%Q.
Proof. unfold sum. rewrite fold_left_Qplus_total. ring. Qed.

Lemma total_nonneg l : Forall (fun x => (0 <= x)%Q) l -> (0 <= total l)%Q.
Proof.
  induction 1 as [|x l Hx _ IH]; simpl; [apply Qle_refl|].
  replace 0%Q with (0 + 0)%Q by reflexivity. now apply Qplus_le_compat.
Qed.

Lemma sum_scores_from_Some {S} scores acc (s : S) :
  sum_scores_from acc (map Some scores) s = (inr (fold_left Qplus scores acc), s).
Proof.
  revert acc; induction scores as [|x l IH]; intros acc; simpl; [reflexivity|].
  apply IH.
Qed.

Lemma scored_length rows scores : scored rows scores -> length rows = length scores.
Proof.
  unfold scored; intros H.
  apply (f_equal (@length _)) in H. now rewrite !length_map in H.
Qed.

Lemma scored_take n rows scores :
  scored rows scores -> scored (take n rows) (take n scores).
Proof. unfold scored; intros H. now rewrite <- !firstn_map, H. Qed.

Lemma scored_drop n rows scores :
  scored rows scores -> scored (drop n rows) (drop n scores).
Proof. unfold scored; intros H. now rewrite <- !skipn_map, H. Qed.

Lemma scores_of_scored {S} rows scores (s : S) :
  scored rows scores -> scores_of rows s = (inr scores, s).
Proof.
  unfold scored. revert scores; induction rows as [|a rows IH];
    intros [|x scores] H; simpl in *; try discriminate; [reflexivity|].
  injection H as Ha H. rewrite Ha.
  now rewrite (bind_ok _ _ _ _ _ (IH _ H)).
Qed.

Lemma scored_sum {S} rows scores (s : S) :
  scored rows scores ->
  sum_scores_from 0%Q (map Assessment.score_percentage rows) s = (inr (sum scores), s).
Proof. intros H. rewrite H. apply sum_scores_from_Some. Qed.

Lemma len_nonzero {A} (l : list A) : l <> [] -> ~ (inject_Z (len l) == 0)%Q.
Proof.
  intros H. apply inject_Z_nonzero. unfold len.
  destruct l; [congruence | simpl; lia].
Qed.

(** ** Overview: average score and improvement rate *)

Lemma average_score_of_scored {S} rows scores (s : S) :
  scored rows scores ->
  average_score_of rows s = (inr (average_value scores), s).
Proof.
  intros H. pose proof (scored_length _ _ H) as Hlen.
  unfold average_score_of, average_value.
  destruct rows as [|a rows], scores as [|x scores]; try discriminate;
    [reflexivity|].
  rewrite (bind_ok _ _ _ _ _ (scored_sum _ _ _ H)).
  unfold len. rewrite Hlen.
  apply truediv_ok. now apply (len_nonzero (x :: scores)).
Qed.

Lemma half_bounds (n : Z) : (2 <= n)%Z -> (1 <= n / 2 /\ n / 2 < n)%Z.
Proof.
  intros H. split.
  - apply Z.div_le_lower_bound; lia.
  - apply Z.div_lt_upper_bound; lia.
Qed.

Lemma improvement_rate_of_scored {S} rows scores (s : S) :
  scored rows scores ->
  improvement_rate_of rows s = (inr (improvement_value scores), s).
Proof.
  intros H. pose proof (scored_length _ _ H) as Hlen.
  unfold improvement_rate_of, improvement_value.
  assert (Hl : len rows = len scores) by (unfold len; now rewrite Hlen).
  rewrite Hl.
  destruct (Z.leb_spec 2 (len scores)) as [Hn|Hn]; [|reflexivity].
  destruct (half_bounds _ Hn) as [Hh1 Hh2].
  set (h := Z.to_nat (len scores / 2)).
  assert (Hh : (0 < h < length scores)%nat) by (unfold len in *; lia).
  rewrite (bind_ok _ _ _ _ _ (scored_sum _ _ _ (scored_take h _ _ H))).
  assert (Hlt : len (take h rows) = len (take h scores))
    by (unfold len; now rewrite !length_take, Hlen).
  assert (Hld : len (drop h rows) = len (drop h scores))
    by (unfold len; now rewrite !length_drop, Hlen).
  rewrite Hlt, Hld.
  assert (Hnz1 : ~ (inject_Z (len (take h scores)) == 0)%Q).
  { apply inject_Z_nonzero. unfold len. rewrite length_take. lia. }
  assert (Hnz2 : ~ (inject_Z (len (drop h scores)) == 0)%Q).
  { apply inject_Z_nonzero. unfold len. rewrite length_drop. lia. }
  rewrite (bind_ok _ _ _ _ _ (truediv_ok _ _ _ Hnz1)).
  rewrite (bind_ok _ _ _ _ _ (scored_sum _ _ _ (scored_drop h _ _ H))).
  rewrite (bind_ok _ _ _ _ _ (truediv_ok _ _ _ Hnz2)).
  cbv zeta.
  destruct (Qgtb _ 0) eqn:E; [|reflexivity].
  apply Qgtb_true in E.
  assert (Hnz : ~ (sum (take h scores) / inject_Z (len (take h scores)) == 0)%Q)
    by (intros H0; rewrite H0 in E; exact (Qlt_irrefl _ E)).
  now rewrite (bind_ok _ _ _ _ _ (truediv_ok _ _ _ Hnz)).
Qed.

(** The overview on a window whose completed assessments all carry a score. *)
Lemma get_analytics_overview_run uid days now db scores :
  scored (completed_assessments_since uid (now - timedelta_days days) db) scores ->
  exists ov,
    get_analytics_overview uid days now db = (inr ov, db)
    /\ ov_total_assessments ov = len scores
    /\ ov_average_score ov = average_value scores
    /\ ov_improvement_rate ov = improvement_value scores.
Proof.
  intros H. unfold get_analytics_overview.
  unfold bind at 1, get at 1.
  rewrite (bind_ok _ _ _ _ _ (average_score_of_scored _ _ _ H)).
  rewrite (bind_ok _ _ _ _ _ (improvement_rate_of_scored _ _ _ H)).
  eexists. split; [reflexivity|]. simpl.
  repeat split. unfold len. now rewrite (scored_length _ _ H).
Qed.

Lemma average_value_mean scores :
  scores <> [] -> (average_value scores == mean scores)%Q.
Proof.
  intros H. unfold average_value, mean.
  destruct scores; [congruence|]. now rewrite sum_total.
Qed.

Lemma completed_assessments_since_window uid days now db :
  completed_assessments_since uid (now - timedelta_days days) db
  = completed_in_window uid days now (assessments db).
Proof.
  unfold completed_assessments_since, timedelta_days.
  induction (assessments db) as [|a rows IH]; [reflexivity|].
  rewrite filter_cons, IH. simpl.
  replace (24 * 60 * 60 * 1000000)%Z with 86400000000%Z by reflexivity.
  destruct (Z.eqb_spec (Assessment.user_id a) uid) as [Eu|Eu];
    destruct (Assessment.is_completed a) eqn:Ec;
    destruct (Z.leb_spec (now - days * 86400000000) (Assessment.created_at a))
      as [Et|Et]; simpl;
    try (rewrite decide_True by (repeat split; assumption); reflexivity);
    rewrite decide_False; try reflexivity;
    intros (H1 & H2 & H3); try congruence; lia.
Qed.

(** C9. The overview's [average_score] is the arithmetic mean of
    [score_percentage] over the user's completed assessments created in
    the last [days] days, and with no such assessment the handler returns
    normally with exactly 0. *)
Theorem overview_average_score_is_mean uid days now db :
  let rows := completed_in_window uid days now (assessments db) in
  (rows = [] ->
     exists ov, get_analytics_overview uid days now db = (inr ov, db)
                /\ ov_total_assessments ov = 0
                /\ ov_average_score ov = 0%Q)
  /\ (forall scores, scored rows scores -> scores <> [] ->
        exists ov, get_analytics_overview uid days now db = (inr ov, db)
                   /\ ov_total_assessments ov = len scores
                   /\ (ov_average_score ov == mean scores)%Q).
Proof.
  intros rows. subst rows.
  rewrite <- completed_assessments_since_window. split.
  - intros Hnil.
    destruct (get_analytics_overview_run uid days now db []) as (ov & Hrun & Hn & Ha & _).
    { unfold scored. now rewrite Hnil. }
    exists ov. auto.
  - intros scores Hs Hne.
    destruct (get_analytics_overview_run uid days now db scores Hs)
      as (ov & Hrun & Hn & Ha & _).
    exists ov. repeat split; try assumption.
    rewrite Ha. now apply average_value_mean.
Qed.

Lemma overview_average_score_is_mean_witness :
  (exists ov, get_analytics_overview 1 30 day_40 outside_db = (inr ov, outside_db)
              /\ ov_total_assessments ov = 0 /\ ov_average_score ov = 0%Q)
  /\ (exists ov, get_analytics_overview 1 30 day_40 window_db = (inr ov, window_db)
                 /\ ov_total_assessments ov = 2
                 /\ (ov_average_score ov == 75)%Q).
Proof.
  split.
  - apply (overview_average_score_is_mean 1 30 day_40 outside_db).
    reflexivity.
  - destruct (overview_average_score_is_mean 1 30 day_40 window_db) as [_ H].
    destruct (H [60%Q; 90%Q]) as (ov & Hrun & Hn & Ha);
      [reflexivity | discriminate |].
    exists ov. repeat split; try assumption. rewrite Ha. reflexivity.
Defined.

Lemma mean_nonneg l : Forall (fun x => (0 <= x)%Q) l -> (0 <= mean l)%Q.
Proof.
  intros H. unfold mean, len.
  destruct l as [|x l]; [discriminate|].
  apply Qle_shift_div_l.
  - unfold Qlt; simpl. lia.
  - rewrite Qmult_0_l. now apply total_nonneg.
Qed.

Lemma improvement_value_two_bucket scores :
  Forall (fun x => (0 <= x)%Q) scores ->
  (improvement_value scores == two_bucket_improvement scores)%Q.
Proof.
  intros Hpos. unfold improvement_value, two_bucket_improvement.
  destruct (Z.leb_spec 2 (len scores)) as [Hn|Hn];
    destruct (Z.ltb_spec (len scores) 2) as [Hn'|Hn']; try lia; [|reflexivity].
  set (h := Z.to_nat (len scores / 2)). cbv zeta.
  assert (Hf : (sum (take h scores) / inject_Z (len (take h scores))
                == mean (take h scores))%Q)
    by (unfold mean; now rewrite sum_total).
  assert (Hg : (sum (drop h scores) / inject_Z (len (drop h scores))
                == mean (drop h scores))%Q)
    by (unfold mean; now rewrite sum_total).
  assert (Hge : (0 <= mean (take h scores))%Q)
    by (apply mean_nonneg, Forall_take, Hpos).
  destruct (Qgtb _ 0) eqn:E.
  - apply Qgtb_true in E. rewrite Hf in E.
    destruct (Qeq_bool (mean (take h scores)) 0) eqn:E0.
    + apply Qeq_bool_eq in E0. rewrite E0 in E. exfalso. exact (Qlt_irrefl _ E).
    + now rewrite Hf, Hg.
  - destruct (Qeq_bool (mean (take h scores)) 0) eqn:E0; [reflexivity|].
    exfalso. apply Qeq_bool_neq in E0. apply E0.
    apply Qle_antisym; [|exact Hge].
    rewrite <- Hf. apply Qnot_lt_le. intros Hlt.
    apply Qgtb_true in Hlt. congruence.
Qed.

Lemma improvement_value_guarded scores :
  ((len scores < 2)%Z -> improvement_value scores = 0%Q)
  /\ ((2 <= len scores)%Z ->
      let h := Z.to_nat (len scores / 2) in
      ((0 < mean (take h scores))%Q ->
       (improvement_value scores
        == (mean (drop h scores) - mean (take h scores))
           / mean (take h scores) * 100)%Q)
      /\ ((mean (take h scores) <= 0)%Q -> improvement_value scores = 0%Q)).
Proof.
  unfold improvement_value. split.
  - intros Hn. destruct (Z.leb_spec 2 (len scores)); [lia | reflexivity].
  - intros Hn. cbv zeta.
    destruct (Z.leb_spec 2 (len scores)) as [_|]; [|lia].
    set (h := Z.to_nat (len scores / 2)).
    assert (Hf : (sum (take h scores) / inject_Z (len (take h scores))
                  == mean (take h scores))%Q)
      by (unfold mean; now rewrite sum_total).
    assert (Hg : (sum (drop h scores) / inject_Z (len (drop h scores))
                  == mean (drop h scores))%Q)
      by (unfold mean; now rewrite sum_total).
    destruct (Qgtb _ 0) eqn:E.
    + apply Qgtb_true in E. rewrite Hf in E. split.
      * intros _. now rewrite Hf, Hg.
      * intros Hle. exfalso. exact (Qlt_irrefl _ (Qlt_le_trans _ _ _ E Hle)).
    + split; [|reflexivity].
      intros Hpos. exfalso.
      rewrite <- Hf in Hpos. apply Qgtb_true in Hpos. congruence.
Qed.

(** C5, amended. When the overview's query returns the user's completed
    assessments of the window in time order (each with a score),
    [improvement_rate] cuts that list at [n // 2], takes the mean of each
    part and returns [(second - first) / first * 100] when the first mean
    is positive, and 0 when the first mean is not positive or the list has
    fewer than 2 entries (for scores that are not negative this is the
    stated rule, 0 when the first mean is 0); for the scores 60 then 90 it
    is 50. *)
Theorem overview_improvement_rate_two_bucket uid days now db scores :
  let rows := completed_in_window uid days now (assessments db) in
  time_ordered rows = rows ->
  scored (time_ordered rows) scores ->
  exists ov,
    get_analytics_overview uid days now db = (inr ov, db)
    /\ ((len scores < 2)%Z -> ov_improvement_rate ov = 0%Q)
    /\ ((2 <= len scores)%Z ->
        let h := Z.to_nat (len scores / 2) in
        let first_mean := mean (take h scores) in
        let second_mean := mean (drop h scores) in
        ((0 < first_mean)%Q ->
         (ov_improvement_rate ov
          == (second_mean - first_mean) / first_mean * 100)%Q)
        /\ ((first_mean <= 0)%Q -> ov_improvement_rate ov = 0%Q))
    /\ (Forall (fun x => (0 <= x)%Q) scores ->
        (ov_improvement_rate ov == two_bucket_improvement scores)%Q)
    /\ (scores = [60%Q; 90%Q] -> (ov_improvement_rate ov == 50)%Q).
Proof.
  intros rows Hord Hs. rewrite Hord in Hs. subst rows.
  rewrite <- completed_assessments_since_window in Hs.
  destruct (get_analytics_overview_run uid days now db scores Hs)
    as (ov & Hrun & _ & _ & Hi).
  destruct (improvement_value_guarded scores) as [Hlt Hge].
  exists ov. split; [exact Hrun|]. rewrite Hi. split; [exact Hlt|].
  split; [exact Hge|].
  split; [apply improvement_value_two_bucket|].
  intros ->. reflexivity.
Qed.

Lemma overview_improvement_rate_two_bucket_witness :
  exists ov,
    get_analytics_overview 1 30 day_40 window_db = (inr ov, window_db)
    /\ (ov_improvement_rate ov == 50)%Q.
Proof.
  destruct (overview_improvement_rate_two_bucket 1 30 day_40 window_db
              [60%Q; 90%Q])
    as (ov & Hrun & _ & _ & _ & H50).
  - reflexivity.
  - reflexivity.
  - exists ov. split; [exact Hrun | now apply H50].
Defined.

(** C5 as stated fails twice.  The query has no [order_by]: on a store that
    holds the later score 80 before the earlier score 40 the handler cuts
    80 | 40 and returns -50, while the time-ordered list 40, 80 gives
    +100.  And the guard is [first_avg > 0]: for the scores -50 then 10 the
    first mean is not 0 and the stated formula gives -120, while the
    handler returns 0. *)
Lemma overview_improvement_stated_counterexample :
  (exists ov,
     get_analytics_overview 1 30 day_40 unordered_db = (inr ov, unordered_db)
     /\ scored (time_ordered (completed_in_window 1 30 day_40
                                (assessments unordered_db)))
               [40%Q; 80%Q]
     /\ (two_bucket_improvement [40%Q; 80%Q] == 100)%Q
     /\ (ov_improvement_rate ov == -50)%Q
     /\ ~ (ov_improvement_rate ov == two_bucket_improvement [40%Q; 80%Q])%Q)
  /\ (exists ov,
        get_analytics_overview 1 30 day_40 negative_db = (inr ov, negative_db)
        /\ scored (time_ordered (completed_in_window 1 30 day_40
                                   (assessments negative_db)))
                  [(-50)%Q; 10%Q]
        /\ (two_bucket_improvement [(-50)%Q; 10%Q] == -120)%Q
        /\ ov_improvement_rate ov = 0%Q
        /\ ~ (ov_improvement_rate ov == two_bucket_improvement [(-50)%Q; 10%Q])%Q).
Proof.
  split.
  - destruct (get_analytics_overview_run 1 30 day_40 unordered_db [80%Q; 40%Q])
      as (ov & Hrun & _ & _ & Hi); [reflexivity|].
    exists ov. split; [exact Hrun|]. rewrite Hi.
    repeat split; try reflexivity. discriminate.
  - destruct (get_analytics_overview_run 1 30 day_40 negative_db [(-50)%Q; 10%Q])
      as (ov & Hrun & _ & _ & Hi); [reflexivity|].
    exists ov. split; [exact Hrun|]. rewrite Hi.
    repeat split; try reflexivity. discriminate.
Qed.

(** ** Performance analytics: the least-squares trend *)

Lemma fold_left_Zadd_totalZ l a : fold_left Z.add l a = (a + totalZ l)%Z.
Proof.
  revert a; induction l as [|x l IH]; intros a; simpl; [lia|].
  rewrite IH. lia.
Qed.

Lemma sumZ_totalZ l : sumZ l = totalZ l.
Proof. unfold sumZ. now rewrite fold_left_Zadd_totalZ. Qed.

Lemma totalZ_app l1 l2 : totalZ (l1 ++ l2) = (totalZ l1 + totalZ l2)%Z.
Proof. induction l1 as [|x l1 IH]; simpl; lia. Qed.

Lemma sum_x_closed n : (2 * sum_x n = Z.of_nat n * (Z.of_nat n - 1))%Z.
Proof.
  unfold sum_x. induction n as [|n IH]; [reflexivity|].
  rewrite seq_S, map_app, totalZ_app. simpl. nia.
Qed.

Lemma sum_xx_closed n :
  (6 * sum_xx n = (Z.of_nat n - 1) * Z.of_nat n * (2 * Z.of_nat n - 1))%Z.
Proof.
  unfold sum_xx. induction n as [|n IH]; [reflexivity|].
  rewrite seq_S, map_app, totalZ_app. simpl totalZ. simpl Nat.add.
  rewrite Nat2Z.inj_succ. nia.
Qed.

Lemma slope_denominator_closed n :
  (12 * slope_denominator n
   = Z.of_nat n * Z.of_nat n * (Z.of_nat n * Z.of_nat n - 1))%Z.
Proof.
  unfold slope_denominator.
  pose proof (sum_x_closed n) as Hx. pose proof (sum_xx_closed n) as Hxx.
  set (a := sum_x n) in *. set (b := sum_xx n) in *. set (k := Z.of_nat n) in *.
  replace (12 * (k * b - a * a))%Z with (2 * k * (6 * b) - 3 * ((2 * a) * (2 * a)))%Z
    by ring.
  rewrite Hx, Hxx. ring.
Qed.

Lemma slope_denominator_pos n : (2 <= n)%nat -> (0 < slope_denominator n)%Z.
Proof.
  intros Hn. pose proof (slope_denominator_closed n) as H.
  assert (0 < Z.of_nat n * Z.of_nat n * (Z.of_nat n * Z.of_nat n - 1))%Z by nia.
  lia.
Qed.

Lemma range_len {A} (l : list A) : range (len l) = map Z.of_nat (seq 0 (length l)).
Proof. unfold range, len. now rewrite Nat2Z.id. Qed.

Lemma combine_map_l {A B C} (f : A -> B) (l1 : list A) (l2 : list C) :
  combine (map f l1) l2 = map (fun p => (f (fst p), snd p)) (combine l1 l2).
Proof.
  revert l2; induction l1 as [|x l1 IH]; intros [|y l2]; simpl; try reflexivity.
  now rewrite IH.
Qed.

Lemma code_sum_x {A} (l : list A) : sumZ (range (len l)) = sum_x (length l).
Proof. now rewrite range_len, sumZ_totalZ. Qed.

Lemma code_sum_xx {A} (l : list A) :
  sumZ (map (fun i => i * i)%Z (range (len l))) = sum_xx (length l).
Proof. now rewrite range_len, sumZ_totalZ, map_map. Qed.

Lemma code_sum_xy scores :
  (sum (map (fun p => inject_Z (fst p) * snd p) (enumerate scores))
   == sum_xy scores)%Q.
Proof.
  unfold enumerate, sum_xy.
  now rewrite sum_total, range_len, combine_map_l, map_map.
Qed.

Lemma improvement_trend_of_run {S} (scores : list Q) (s : S) :
  ((len scores <= 1)%Z -> improvement_trend_of scores s = (inr 0%Q, s))
  /\ ((2 <= len scores)%Z ->
        (0 < slope_denominator (length scores))%Z
        /\ (12 * slope_denominator (length scores)
            = len scores * len scores * (len scores * len scores - 1))%Z
        /\ exists r, improvement_trend_of scores s = (inr r, s)
                     /\ (r == least_squares_slope scores)%Q).
Proof.
  unfold improvement_trend_of. split; intros Hn.
  - destruct (Z.ltb_spec 1 (len scores)); [lia | reflexivity].
  - assert (Hpos : (0 < slope_denominator (length scores))%Z)
      by (apply slope_denominator_pos; unfold len in Hn; lia).
    split; [exact Hpos|]. split; [apply slope_denominator_closed|].
    destruct (Z.ltb_spec 1 (len scores)); [|lia].
    rewrite code_sum_x, code_sum_xx.
    change (len scores * sum_xx (length scores)
            - sum_x (length scores) * sum_x (length scores))%Z
      with (slope_denominator (length scores)).
    eexists. split.
    + apply truediv_ok, inject_Z_nonzero. lia.
    + unfold least_squares_slope. now rewrite code_sum_xy, sum_total.
Qed.

(** The trend the handler reports, as a function of the ordered scores. *)
Lemma get_assessment_analytics_run uid subject days now db scores :
  scored (query_performance uid subject days now db) scores ->
  exists pa,
    get_assessment_analytics uid subject days now db = (inr pa, db)
    /\ pa_total_assessments pa = len scores
    /\ (pa_improvement_trend pa
        == if (len scores <=? 1)%Z then 0 else least_squares_slope scores)%Q.
Proof.
  intros H. pose proof (scored_length _ _ H) as Hlen.
  unfold get_assessment_analytics. unfold bind at 1, get at 1.
  destruct (query_performance uid subject days now db) as [|a rows] eqn:Hrows.
  - destruct scores; [|discriminate]. eexists. split; [reflexivity|].
    split; reflexivity.
  - rewrite (bind_ok _ _ _ _ _ (scored_sum _ _ _ H)).
    rewrite (bind_ok _ _ _ _ _ (truediv_ok _ _ _ (len_nonzero (a :: rows) ltac:(discriminate)))).
    rewrite (bind_ok _ _ _ _ _ (scores_of_scored _ _ _ H)).
    destruct (improvement_trend_of_run scores db) as [H1 H2].
    destruct (Z.leb_spec (len scores) 1) as [Hn|Hn].
    + rewrite (bind_ok _ _ _ _ _ (H1 Hn)). eexists. split; [reflexivity|].
      split; [unfold len; now rewrite Hlen | reflexivity].
    + destruct H2 as (_ & _ & r & Hr & Heq); [lia|].
      rewrite (bind_ok _ _ _ _ _ Hr). eexists. split; [reflexivity|].
      split; [unfold len; now rewrite Hlen | exact Heq].
Qed.

(** C6. [improvement_trend] is 0 for at most one score; for two or more it
    is the least-squares slope of the scores against the positions
    [0 .. n-1], and the divisor [n * Sum x^2 - (Sum x)^2], twelve times
    which is [n^2 * (n^2 - 1)], is positive, so the division never raises
    and the handler returns that slope. *)
Theorem improvement_trend_least_squares (scores : list Q) :
  (forall uid subject days now db,
     scored (query_performance uid subject days now db) scores ->
     exists pa,
       get_assessment_analytics uid subject days now db = (inr pa, db)
       /\ (pa_improvement_trend pa
           == if (len scores <=? 1)%Z then 0 else least_squares_slope scores)%Q)
  /\ (forall db : Db, (len scores <= 1)%Z ->
        improvement_trend_of scores db = (inr 0%Q, db))
  /\ (forall db : Db, (2 <= len scores)%Z ->
        (0 < slope_denominator (length scores))%Z
        /\ (12 * slope_denominator (length scores)
            = len scores * len scores * (len scores * len scores - 1))%Z
        /\ exists r, improvement_trend_of scores db = (inr r, db)
                     /\ (r == least_squares_slope scores)%Q).
Proof.
  split; [|split].
  - intros uid subject days now db H.
    destruct (get_assessment_analytics_run _ _ _ _ _ _ H) as (pa & Hrun & _ & Ht).
    now exists pa.
  - intros db. apply improvement_trend_of_run.
  - intros db. apply improvement_trend_of_run.
Qed.

Lemma improvement_trend_least_squares_witness :
  improvement_trend_of [70%Q] empty_db = (inr 0%Q, empty_db)
  /\ (0 < slope_denominator 3)%Z
  /\ (exists r, improvement_trend_of [60%Q; 90%Q; 100%Q] empty_db = (inr r, empty_db)
                /\ (r == 20)%Q)
  /\ (exists pa, get_assessment_analytics 1 None 30 1000 sample_scores_db
                 = (inr pa, sample_scores_db)
                 /\ (pa_improvement_trend pa == 30)%Q).
Proof.
  split; [|split; [|split]].
  - apply (improvement_trend_least_squares [70%Q]). unfold len; simpl; lia.
  - apply (improvement_trend_least_squares [60%Q; 90%Q; 100%Q] ) with (db := empty_db).
    unfold len; simpl; lia.
  - destruct (improvement_trend_least_squares [60%Q; 90%Q; 100%Q]) as (_ & _ & H).
    destruct (H empty_db) as (_ & _ & r & Hr & Heq); [unfold len; simpl; lia|].
    exists r. split; [exact Hr|]. rewrite Heq. reflexivity.
  - destruct (improvement_trend_least_squares [60%Q; 90%Q]) as (H & _).
    destruct (H 1 None 30 1000 sample_scores_db) as (pa & Hrun & Heq);
      [reflexivity|].
    exists pa. split; [exact Hrun|]. rewrite Heq. reflexivity.
Defined.

(** ** Grading *)

Lemma question_dict_fold (qs : list Question.t) (d : gmap Z Question.t) (k : Z) :
  foldl (fun d q => <[Question.id q := q]> d) d qs !! k
  = match last (filter (fun q => Question.id q = k) qs) with
    | Some q => Some q
    | None => d !! k
    end.
Proof.
  revert d; induction qs as [|q qs IH] using rev_ind; intros d; [reflexivity|].
  rewrite foldl_app, filter_app. simpl.
  rewrite filter_cons, filter_nil.
  destruct (decide (Question.id q = k)) as [E|E].
  - rewrite last_snoc, <- E. apply lookup_insert_eq.
  - rewrite app_nil_r, lookup_insert_ne by exact E. apply IH.
Qed.

Lemma question_dict_lookup aid qid db :
  question_dict_of (query_questions aid db) !! qid = question_for aid qid db.
Proof.
  unfold question_dict_of, question_for. rewrite question_dict_fold.
  destruct (last _); [reflexivity | apply lookup_empty].
Qed.

Lemma question_for_belongs aid qid db q :
  question_for aid qid db = Some q ->
  q ∈ questions db /\ Question.assessment_id q = aid /\ Question.id q = qid.
Proof.
  unfold question_for, query_questions. intros H.
  apply last_Some_elem_of in H.
  apply list_elem_of_filter in H as [Hid H].
  apply list_elem_of_filter in H as [Haid H]. auto.
Qed.

Lemma question_for_unknown aid qid db :
  (forall q, q ∈ questions db -> Question.assessment_id q = aid ->
             Question.id q <> qid) ->
  question_for aid qid db = None.
Proof.
  intros H. destruct (question_for aid qid db) as [q|] eqn:E; [|reflexivity].
  apply question_for_belongs in E as (Hin & Ha & Hi). now destruct (H q Hin Ha).
Qed.

Lemma grade_answer_unknown d aid uid t a :
  d !! sub_question_id a = None -> grade_answer d aid uid t a = t.
Proof. intros H. unfold grade_answer. now rewrite H. Qed.

Lemma answer_matches_judged a q :
  answer_matches a q = true <-> judged_correct a q.
Proof.
  unfold answer_matches, judged_correct, judged_text, Str.or, Str.truthy.
  destruct (sub_answer_text a) as [[|c s]|]; simpl.
  - destruct (sub_selected_option a) as [[|c s]|]; simpl.
    + split; [discriminate | intros (s & [= <-] & Hne & _); congruence].
    + rewrite String.eqb_eq. split.
      * intros H. exists (String c s). auto.
      * now intros (s' & [= <-] & _ & H).
    + split; [discriminate | intros (s & [=] & _)].
  - rewrite String.eqb_eq. split.
    + intros H. exists (String c s). auto.
    + now intros (s' & [= <-] & _ & H).
  - destruct (sub_selected_option a) as [[|c s]|]; simpl.
    + split; [discriminate | intros (s & [= <-] & Hne & _); congruence].
    + rewrite String.eqb_eq. split.
      * intros H. exists (String c s). auto.
      * now intros (s' & [= <-] & _ & H).
    + split; [discriminate | intros (s & [=] & _)].
Qed.

Lemma graded_rows_cons aid uid a sub db :
  graded_rows aid uid (a :: sub) db
  = match question_for aid (sub_question_id a) db with
    | Some q => graded_row aid uid a q :: graded_rows aid uid sub db
    | None => graded_rows aid uid sub db
    end.
Proof. unfold graded_rows. simpl. now destruct (question_for _ _ _). Qed.

Lemma points_of_correct_cons r rows :
  points_of_correct (r :: rows)
  = if decide (Answer.is_correct r = Some true)
    then (Answer.points_possible r + points_of_correct rows)%Q
    else points_of_correct rows.
Proof.
  unfold points_of_correct. rewrite filter_cons.
  now destruct (decide (Answer.is_correct r = Some true)).
Qed.

Lemma grade_answer_known d aid uid t a q :
  d !! sub_question_id a = Some q ->
  grade_answer d aid uid t a
  = if answer_matches a q
    then mkTally (correct_answers t + 1)
                 (total_points t + Question.points_possible q)
                 (earned_points t + Question.points_possible q)
                 (added t ++ [graded_row aid uid a q])
    else mkTally (correct_answers t)
                 (total_points t + Question.points_possible q)
                 (earned_points t)
                 (added t ++ [graded_row aid uid a q]).
Proof.
  intros H. unfold grade_answer, graded_row. rewrite H.
  now destruct (answer_matches a q).
Qed.

(** The loop's counters are the sums over the rows it has produced. *)
Lemma grade_fold d aid uid db sub t0 :
  (forall k, d !! k = question_for aid k db) ->
  let rows := graded_rows aid uid sub db in
  let t := foldl (grade_answer d aid uid) t0 sub in
  added t = (added t0 ++ rows)%list
  /\ (total_points t == total_points t0 + points_of_all rows)%Q
  /\ (earned_points t == earned_points t0 + points_of_correct rows)%Q
  /\ correct_answers t
     = (correct_answers t0
        + len (filter (fun r => Answer.is_correct r = Some true) rows))%Z.
Proof.
  intros Hd. revert t0. induction sub as [|a sub IH]; intros t0; cbv zeta.
  - simpl. rewrite app_nil_r. unfold points_of_all, points_of_correct, len. simpl.
    repeat split; ring.
  - simpl foldl. rewrite graded_rows_cons.
    destruct (question_for aid (sub_question_id a) db) as [q|] eqn:Eq.
    + rewrite (grade_answer_known _ _ _ _ _ q) by (now rewrite Hd).
      rewrite points_of_correct_cons, filter_cons.
      unfold points_of_all in *. simpl map. simpl total.
      destruct (answer_matches a q) eqn:Em;
        match goal with
        | |- context [foldl _ ?t1 sub] => destruct (IH t1) as (Ha & Ht & He & Hc)
        end;
        rewrite Ha, Ht, He, Hc; simpl; rewrite Em; simpl.
      * rewrite <- app_assoc. simpl.
        repeat split; try ring. unfold len. simpl length. lia.
      * rewrite <- app_assoc. simpl.
        repeat split; ring.
    + rewrite grade_answer_unknown by (now rewrite Hd). apply IH.
Qed.

Lemma submit_tally_rows aid uid sub db :
  let rows := graded_rows aid uid sub db in
  let t := submit_tally aid uid sub db in
  added t = rows
  /\ (total_points t == points_of_all rows)%Q
  /\ (earned_points t == points_of_correct rows)%Q
  /\ correct_answers t
     = len (filter (fun r => Answer.is_correct r = Some true) rows).
Proof.
  destruct (grade_fold (question_dict_of (query_questions aid db)) aid uid db sub
              (mkTally 0 0%Q 0%Q []) (fun k => question_dict_lookup aid k db))
    as (Ha & Ht & He & Hc).
  cbv zeta. unfold submit_tally, grade.
  rewrite Ha, Ht, He, Hc. simpl. repeat split; ring.
Qed.

Lemma score_of_rows aid uid sub db :
  let rows := graded_rows aid uid sub db in
  let sc := score_of (submit_tally aid uid sub db) in
  ((0 < points_of_all rows)%Q ->
     (sc == points_of_correct rows / points_of_all rows * 100)%Q)
  /\ (~ (0 < points_of_all rows)%Q -> sc = 0%Q).
Proof.
  destruct (submit_tally_rows aid uid sub db) as (_ & Ht & He & _).
  cbv zeta. unfold score_of.
  destruct (Qgtb _ 0) eqn:E.
  - apply Qgtb_true in E. split.
    + intros _. now rewrite Ht, He.
    + intros H. rewrite Ht in E. contradiction.
  - split; [|reflexivity].
    intros H. rewrite <- Ht in H. apply Qgtb_true in H. congruence.
Qed.

Lemma graded_rows_origin aid uid sub db row :
  row ∈ graded_rows aid uid sub db ->
  exists a q, a ∈ sub /\ question_for aid (sub_question_id a) db = Some q
              /\ row = graded_row aid uid a q.
Proof.
  unfold graded_rows. intros H.
  apply list_elem_of_omap in H as (a & Ha & Hrow).
  destruct (question_for aid (sub_question_id a) db) as [q|] eqn:E;
    [|discriminate].
  injection Hrow as <-. now exists a, q.
Qed.

Lemma graded_row_marks aid uid a q :
  let row := graded_row aid uid a q in
  Answer.points_possible row = Question.points_possible q
  /\ (judged_correct a q ->
        Answer.is_correct row = Some true
        /\ Answer.points_earned row = Question.points_possible q)
  /\ (~ judged_correct a q ->
        Answer.is_correct row = Some false /\ Answer.points_earned row = 0%Q).
Proof.
  cbv zeta. unfold graded_row. simpl. split; [reflexivity|].
  destruct (answer_matches a q) eqn:E.
  - apply answer_matches_judged in E. split; [auto | contradiction].
  - split; [|auto]. intros H. apply answer_matches_judged in H. congruence.
Qed.

Lemma graded_rows_question_ids aid uid sub db :
  map Answer.question_id (graded_rows aid uid sub db)
  = filter (fun k => is_Some (question_for aid k db)) (map sub_question_id sub).
Proof.
  induction sub as [|a sub IH]; [reflexivity|].
  rewrite graded_rows_cons. simpl map. rewrite filter_cons.
  destruct (question_for aid (sub_question_id a) db) as [q|] eqn:E.
  - rewrite decide_True by eauto. simpl. now rewrite IH.
  - rewrite decide_False by apply is_Some_None. exact IH.
Qed.

(** C10. On submission only the answers whose [question_id] is a question
    of the assessment are graded and stored, in submission order; an
    answer with an unknown id produces no row and no error; the score's
    denominator is the sum of [points_possible] over the stored rows, so a
    question nobody answered adds nothing to it; and [questions_answered]
    is the number of submitted answers, skipped ones included. *)
Theorem submit_grades_matched_answers aid sub uid now db ui user i a :
  list_find (fun u => User.id u = uid) (users db) = Some (ui, user) ->
  query_assessment aid uid db = Some (i, a) ->
  Assessment.status a = "in_progress" ->
  let rows := graded_rows aid uid sub db in
  exists r db',
    submit_assessment aid sub uid now db = (inr r, db')
    /\ answers db' = (answers db ++ rows)%list
    /\ map Answer.question_id rows
       = filter (fun k => is_Some (question_for aid k db)) (map sub_question_id sub)
    /\ (forall row, row ∈ rows ->
          exists q, q ∈ questions db /\ Question.assessment_id q = aid
                    /\ Question.id q = Answer.question_id row
                    /\ Answer.points_possible row = Question.points_possible q)
    /\ (forall x, (forall q, q ∈ questions db -> Question.assessment_id q = aid ->
                             Question.id q <> sub_question_id x) ->
          graded_rows aid uid [x] db = [])
    /\ assessments db' = <[i := resp_assessment r]> (assessments db)
    /\ Assessment.questions_answered (resp_assessment r) = len sub
    /\ Assessment.score_percentage (resp_assessment r) = Some (resp_score r)
    /\ ((0 < points_of_all rows)%Q ->
          (resp_score r == points_of_correct rows / points_of_all rows * 100)%Q)
    /\ (~ (0 < points_of_all rows)%Q -> resp_score r = 0%Q).
Proof.
  intros Hu Hq Hs rows.
  pose proof (submit_assessment_run aid sub uid now db ui user i a Hu Hq Hs) as Hrun.
  cbv zeta in Hrun.
  destruct (submit_tally_rows aid uid sub db) as (Hadd & _).
  destruct (score_of_rows aid uid sub db) as (Hpos & Hzero).
  eexists _, _. split; [exact Hrun|]. simpl.
  split; [now rewrite Hadd|].
  split; [apply graded_rows_question_ids|].
  split.
  { intros row Hrow.
    apply graded_rows_origin in Hrow as (x & q & _ & Hq' & ->).
    apply question_for_belongs in Hq' as (Hin & Ha & Hi).
    exists q. simpl. auto. }
  split.
  { intros x Hx. unfold graded_rows. simpl.
    now rewrite (question_for_unknown _ _ _ Hx). }
  repeat split; assumption.
Qed.

Lemma submit_grades_matched_answers_witness :
  exists r db',
    submit_assessment 10 sample_submission 1 60000000 (sample_db "in_progress")
    = (inr r, db')
    /\ map Answer.question_id (answers db') = [100; 101]
    /\ Assessment.questions_answered (resp_assessment r) = 3
    /\ (resp_score r == 200 # 3)%Q.
Proof.
  destruct (submit_grades_matched_answers 10 sample_submission 1 60000000
              (sample_db "in_progress") 0%nat sample_user 0%nat
              (sample_assessment "in_progress") eq_refl eq_refl eq_refl)
    as (r & db' & Hrun & Hans & Hids & _ & _ & _ & Hn & _ & Hscore & _).
  exists r, db'. split; [exact Hrun|]. split; [|split].
  - rewrite Hans. reflexivity.
  - exact Hn.
  - rewrite Hscore; reflexivity.
Defined.

(** C1, amended.  When an in-progress assessment is submitted and the
    graded answers have total points above 0, the stored score is
    [earned / total * 100], where [earned] sums [points_possible] over the
    rows marked correct; a row is marked correct, with all its points,
    exactly when the judged text ([answer_text] if present and not empty,
    otherwise [selected_option]) is not empty and equals the question's
    [correct_answer] after trimming and lower-casing both; every other
    graded row earns 0. *)
Theorem submit_scores_graded_answers aid sub uid now db ui user i a :
  list_find (fun u => User.id u = uid) (users db) = Some (ui, user) ->
  query_assessment aid uid db = Some (i, a) ->
  Assessment.status a = "in_progress" ->
  let rows := graded_rows aid uid sub db in
  (0 < points_of_all rows)%Q ->
  exists r db',
    submit_assessment aid sub uid now db = (inr r, db')
    /\ assessments db' = <[i := resp_assessment r]> (assessments db)
    /\ Assessment.status (resp_assessment r) = "completed"
    /\ Assessment.score_percentage (resp_assessment r) = Some (resp_score r)
    /\ (resp_score r == points_of_correct rows / points_of_all rows * 100)%Q
    /\ answers db' = (answers db ++ rows)%list
    /\ (forall row, row ∈ rows ->
          exists x q,
            x ∈ sub /\ question_for aid (sub_question_id x) db = Some q
            /\ row = graded_row aid uid x q
            /\ Answer.points_possible row = Question.points_possible q
            /\ (judged_correct x q ->
                  Answer.is_correct row = Some true
                  /\ Answer.points_earned row = Question.points_possible q)
            /\ (~ judged_correct x q ->
                  Answer.is_correct row = Some false
                  /\ Answer.points_earned row = 0%Q)).
Proof.
  intros Hu Hq Hs rows Hpos.
  pose proof (submit_assessment_run aid sub uid now db ui user i a Hu Hq Hs) as Hrun.
  cbv zeta in Hrun.
  destruct (submit_tally_rows aid uid sub db) as (Hadd & _).
  destruct (score_of_rows aid uid sub db) as (Hscore & _).
  eexists _, _. split; [exact Hrun|]. simpl.
  split; [reflexivity|]. split; [reflexivity|]. split; [reflexivity|].
  split; [now apply Hscore|]. split; [now rewrite Hadd|].
  intros row Hrow.
  apply graded_rows_origin in Hrow as (x & q & Hx & Hq' & ->).
  exists x, q.
  destruct (graded_row_marks aid uid x q) as (Hp & Hyes & Hno).
  repeat split; try assumption; try reflexivity.
  - now apply Hyes.
  - now apply Hyes.
  - now apply Hno.
  - now apply Hno.
Qed.

Lemma submit_scores_graded_answers_witness :
  exists r db',
    submit_assessment 10 sample_submission 1 60000000 (sample_db "in_progress")
    = (inr r, db')
    /\ (resp_score r == 200 # 3)%Q
    /\ map Answer.is_correct (answers db') = [Some true; Some false].
Proof.
  destruct (submit_scores_graded_answers 10 sample_submission 1 60000000
              (sample_db "in_progress") 0%nat sample_user 0%nat
              (sample_assessment "in_progress") eq_refl eq_refl eq_refl)
    as (r & db' & Hrun & _ & _ & _ & Hscore & Hans & _).
  - reflexivity.
  - exists r, db'. split; [exact Hrun|]. split.
    + rewrite Hscore. reflexivity.
    + rewrite Hans. reflexivity.
Defined.

(** C1 as stated fails: for a question whose [correct_answer] is empty and
    an answer whose only text is an empty [selected_option], the trimmed,
    lower-cased texts are equal, so the stated rule earns the point and
    gives 100, while the handler marks the row incorrect and stores 0. *)
Lemma submit_score_stated_counterexample :
  exists r db',
    submit_assessment 10 essay_submission 1 60000000 essay_db = (inr r, db')
    /\ (0 < points_of_all (graded_rows 10 1 essay_submission essay_db))%Q
    /\ stated_correct (mkAnswerSubmission 100 None (Some ""))
                      (Question.mk 100 10 "" 1%Q) = true
    /\ (stated_score 10 1 essay_submission essay_db == 100)%Q
    /\ Assessment.score_percentage (resp_assessment r) = Some 0%Q
    /\ map Answer.is_correct (answers db') = [Some false]
    /\ ~ (0 == stated_score 10 1 essay_submission essay_db)%Q.
Proof.
  eexists _, _. split; [vm_compute; reflexivity|].
  repeat split; try reflexivity. discriminate.
Qed.

(** ** Rating a content item *)

Lemma list_find_insert_same {A} (P : A -> Prop) `{!forall x, Decision (P x)}
    (l : list A) i x y :
  list_find P l = Some (i, x) -> P y ->
  list_find P (<[i := y]> l) = Some (i, y).
Proof.
  intros Hf Hy. apply list_find_Some in Hf as (Hi & Hx & Hlt).
  apply list_find_Some. split; [|split].
  - apply list_lookup_insert_eq. now apply lookup_lt_Some in Hi.
  - exact Hy.
  - intros j z Hj Hji. rewrite list_lookup_insert_ne in Hj by lia. eauto.
Qed.

Lemma filter_insert_split {A} (P : A -> Prop) `{!forall x, Decision (P x)}
    (l : list A) i x y :
  l !! i = Some x -> P x -> P y ->
  exists l1 l2, filter P l = l1 ++ x :: l2
                /\ filter P (<[i := y]> l) = l1 ++ y :: l2.
Proof.
  intros Hi Hx Hy.
  exists (filter P (take i l)), (filter P (drop (S i) l)). split.
  - rewrite <- (take_drop_middle l i x Hi) at 1.
    rewrite filter_app, filter_cons. now rewrite decide_True.
  - rewrite insert_take_drop by (now apply lookup_lt_Some in Hi).
    rewrite filter_app, filter_cons. now rewrite decide_True.
Qed.

Lemma totalZ_omap_middle (l1 l2 : list ContentInteraction.t) e v :
  ContentInteraction.rating e = Some v ->
  totalZ (omap ContentInteraction.rating (l1 ++ e :: l2))
  = (totalZ (omap ContentInteraction.rating l1) + v
     + totalZ (omap ContentInteraction.rating l2))%Z.
Proof.
  intros He. rewrite omap_app, totalZ_app. simpl. rewrite He. simpl.
  apply Z.add_assoc.
Qed.

Lemma omap_rating_length (l : list ContentInteraction.t) :
  Forall (fun r => is_Some (ContentInteraction.rating r)) l ->
  length (omap ContentInteraction.rating l) = length l.
Proof.
  induction 1 as [|r l [v Hv] _ IH]; [reflexivity|].
  simpl. rewrite Hv. simpl. f_equal. exact IH.
Qed.

Lemma rating_in_range rating :
  (1 <= rating <= 5)%Z -> ((rating <? 1)%Z || (5 <? rating)%Z) = false.
Proof. intros H. apply orb_false_iff. split; apply Z.ltb_ge; lia. Qed.

(** A first rating by [uid]: a row is added and the count grows by one. *)
Lemma rate_content_insert cid rating uid now db ci c :
  (1 <= rating <= 5)%Z ->
  query_content cid db = Some (ci, c) ->
  query_own_rating uid cid db = None ->
  ((0 < Content.total_ratings c)%Z -> is_Some (Content.average_rating c)) ->
  rate_content cid rating uid now db
  = (inr (mean_after_insert c rating),
     with_content
       (<[ci := Content.mk (Content.id c) (Some (mean_after_insert c rating))
                           (Content.total_ratings c + 1)]> (content db))
       (with_content_interactions
          (content_interactions db
           ++ [ContentInteraction.mk uid cid "rate" (Some now) (Some rating)])
          db)).
Proof.
  intros Hr Hc Hown Havg.
  unfold rate_content. rewrite (rating_in_range _ Hr).
  unfold raise_if. unfold bind at 1, ret at 1. unfold bind at 1, get at 1.
  rewrite Hc. cbv zeta. rewrite Hown.
  unfold mean_after_insert.
  destruct (0 <? Content.total_ratings c)%Z eqn:E.
  - apply Z.ltb_lt in E. destruct (Havg E) as [avg Ha]. rewrite Ha. simpl.
    assert (Hnz : ~ (inject_Z (Content.total_ratings c + 1) == 0)%Q)
      by (apply inject_Z_nonzero; lia).
    unfold bind, nullable, ret, modify.
    rewrite (truediv_ok _ _ db Hnz). reflexivity.
  - reflexivity.
Qed.

(** A changed rating: the caller's row is rewritten, the count stays. *)
Lemma rate_content_edit cid rating uid now db ci c ri e old avg :
  (1 <= rating <= 5)%Z ->
  query_content cid db = Some (ci, c) ->
  query_own_rating uid cid db = Some (ri, e) ->
  ContentInteraction.rating e = Some old ->
  (0 < Content.total_ratings c)%Z ->
  Content.average_rating c = Some avg ->
  rate_content cid rating uid now db
  = (inr (mean_after_edit c old rating),
     with_content
       (<[ci := Content.mk (Content.id c) (Some (mean_after_edit c old rating))
                           (Content.total_ratings c)]> (content db))
       (with_content_interactions
          (<[ri := with_rating rating e]> (content_interactions db)) db)).
Proof.
  intros Hr Hc Hown Hold Hpos Ha.
  unfold rate_content. rewrite (rating_in_range _ Hr).
  unfold raise_if. unfold bind at 1, ret at 1. unfold bind at 1, get at 1.
  rewrite Hc. cbv zeta. rewrite Hown.
  unfold mean_after_edit. rewrite Hold, Ha.
  apply Z.ltb_lt in Hpos as Hb. rewrite Hb. simpl.
  assert (Hnz : ~ (inject_Z (Content.total_ratings c) == 0)%Q)
    by (apply inject_Z_nonzero; lia).
  unfold bind, nullable, ret, modify.
  rewrite (truediv_ok _ _ db Hnz). reflexivity.
Qed.

Lemma rate_content_invalid cid rating uid now db :
  ~ (1 <= rating <= 5)%Z ->
  rate_content cid rating uid now db
  = (inl (HTTPException HTTP_422_UNPROCESSABLE_ENTITY "rating"), db).
Proof.
  intros H. unfold rate_content.
  destruct ((rating <? 1)%Z || (5 <? rating)%Z) eqn:E; [reflexivity|].
  apply orb_false_iff in E as [E1 E2].
  apply Z.ltb_ge in E1, E2. lia.
Qed.

Lemma query_own_rating_None uid cid db :
  query_own_rating uid cid db = None ->
  uid ∉ map ContentInteraction.user_id (rate_rows cid db).
Proof.
  intros H Hin. apply list_elem_of_fmap in Hin as (r & -> & Hr).
  apply list_elem_of_filter in Hr as [[Hc Ht] Hr].
  unfold query_own_rating in H.
  eapply list_find_None in H. rewrite Forall_forall in H.
  apply (H r); [exact Hr | auto].
Qed.

Lemma query_own_rating_Some uid cid db ri e :
  query_own_rating uid cid db = Some (ri, e) ->
  content_interactions db !! ri = Some e
  /\ ContentInteraction.user_id e = uid /\ is_rate_of cid e.
Proof.
  unfold query_own_rating. intros H.
  apply list_find_Some in H as (Hi & (Hu & Hc & Ht) & _).
  unfold is_rate_of. auto.
Qed.

Lemma mean_times_count avg s t :
  (0 < t)%Z -> (avg == inject_Z s / inject_Z t)%Q ->
  (avg * inject_Z t == inject_Z s)%Q.
Proof.
  intros Ht H. rewrite H. field. apply inject_Z_nonzero. lia.
Qed.

Lemma ratings_of_length cid db :
  Forall (fun r => is_Some (ContentInteraction.rating r)) (rate_rows cid db) ->
  len (ratings_of cid db) = len (rate_rows cid db).
Proof. intros H. unfold len, ratings_of. now rewrite omap_rating_length. Qed.

Lemma query_content_insert cid db ci c c' db' :
  query_content cid db = Some (ci, c) ->
  Content.id c' = cid ->
  content db' = <[ci := c']> (content db) ->
  query_content cid db' = Some (ci, c').
Proof.
  unfold query_content. intros H Hid ->.
  now apply (list_find_insert_same (fun c => Content.id c = cid)) with (x := c).
Qed.

Lemma query_content_id cid db ci c :
  query_content cid db = Some (ci, c) -> Content.id c = cid.
Proof. unfold query_content. intros H. now apply list_find_Some in H as (_ & ? & _). Qed.

(** One valid call of the rate endpoint on a consistent store: what it
    returns, what it writes, and that the store stays consistent. *)
Lemma rate_content_step cid rating uid now db :
  (1 <= rating <= 5)%Z ->
  ratings_consistent cid db ->
  exists avg' db' ci c c',
    rate_content cid rating uid now db = (inr avg', db')
    /\ query_content cid db = Some (ci, c)
    /\ query_content cid db' = Some (ci, c')
    /\ Content.average_rating c' = Some avg'
    /\ ratings_consistent cid db'
    /\ (((uid ∉ map ContentInteraction.user_id (rate_rows cid db))
         /\ rate_rows cid db'
            = rate_rows cid db
              ++ [ContentInteraction.mk uid cid "rate" (Some now) (Some rating)]
         /\ Content.total_ratings c' = (Content.total_ratings c + 1)%Z
         /\ avg' = mean_after_insert c rating)
        \/ (exists l1 e old l2,
              rate_rows cid db = l1 ++ e :: l2
              /\ ContentInteraction.user_id e = uid
              /\ ContentInteraction.rating e = Some old
              /\ rate_rows cid db' = l1 ++ with_rating rating e :: l2
              /\ Content.total_ratings c' = Content.total_ratings c
              /\ avg' = mean_after_edit c old rating)).
Proof.
  intros Hr (ci & c & Hc & Htot & Hsome & Hnd & Havg).
  pose proof (query_content_id _ _ _ _ Hc) as Hid.
  pose proof (ratings_of_length _ _ Hsome) as Hlen.
  destruct (query_own_rating uid cid db) as [[ri e]|] eqn:Hown.
  - (* the caller already rated: edit *)
    destruct (query_own_rating_Some _ _ _ _ _ Hown) as (Hri & Hu & Hrate).
    destruct (filter_insert_split (is_rate_of cid) (content_interactions db)
                ri e (with_rating rating e) Hri Hrate Hrate)
      as (l1 & l2 & Hrows & Hrows').
    fold (rate_rows cid db) in Hrows.
    assert (Hold : is_Some (ContentInteraction.rating e)).
    { rewrite Hrows in Hsome. apply Forall_app in Hsome as [_ Hs].
      now apply Forall_cons in Hs as [? _]. }
    destruct Hold as [old Hold].
    assert (Hpos : (0 < Content.total_ratings c)%Z).
    { rewrite Htot, Hrows. unfold len. rewrite length_app. simpl. lia. }
    destruct (Havg Hpos) as (avg & Ha & Hmean).
    set (c' := Content.mk (Content.id c) (Some (mean_after_edit c old rating))
                          (Content.total_ratings c)).
    set (db' := with_content (<[ci := c']> (content db))
                  (with_content_interactions
                     (<[ri := with_rating rating e]> (content_interactions db)) db)).
    assert (Hrr : rate_rows cid db' = l1 ++ with_rating rating e :: l2)
      by exact Hrows'.
    exists (mean_after_edit c old rating), db', ci, c, c'.
    split; [exact (rate_content_edit _ _ _ now _ _ _ _ _ _ _ Hr Hc Hown Hold Hpos Ha)|].
    split; [exact Hc|].
    assert (Hc' : query_content cid db' = Some (ci, c'))
      by (apply (query_content_insert cid db ci c); auto).
    split; [exact Hc'|]. split; [reflexivity|]. split.
    + exists ci, c'. split; [exact Hc'|]. rewrite Hrr.
      split; [|split; [|split]].
      * simpl. rewrite Htot, Hrows. unfold len. now rewrite !length_app.
      * rewrite Hrows in Hsome. apply Forall_app in Hsome as [Hs1 Hs2].
        apply Forall_cons in Hs2 as [_ Hs2].
        apply Forall_app. split; [exact Hs1|]. apply Forall_cons. split; [|exact Hs2].
        simpl. eauto.
      * rewrite Hrows in Hnd. rewrite map_app in *. exact Hnd.
      * intros _. eexists. split; [reflexivity|].
        unfold mean_after_edit, mean_rating, ratings_of. rewrite Hrr, Ha. simpl default.
        rewrite (mean_times_count _ _ _ Hpos
                   (eq_ind _ (fun t => (avg == inject_Z _ / inject_Z t)%Q)
                           Hmean _ (eq_trans Hlen (eq_sym Htot)))).
        unfold ratings_of. rewrite Hrows.
        rewrite (totalZ_omap_middle l1 l2 e old Hold).
        rewrite (totalZ_omap_middle l1 l2 (with_rating rating e) rating eq_refl).
        assert (Hl : len (omap ContentInteraction.rating (l1 ++ with_rating rating e :: l2))
                     = Content.total_ratings c).
        { rewrite Htot, Hrows. unfold len.
          rewrite !omap_rating_length; [now rewrite !length_app|].
          rewrite Hrows in Hsome. apply Forall_app in Hsome as [Hs1 Hs2].
          apply Forall_cons in Hs2 as [_ Hs2].
          apply Forall_app. split; [exact Hs1|]. apply Forall_cons.
          split; [simpl; eauto | exact Hs2]. }
        rewrite Hl. rewrite !inject_Z_plus. field.
        apply inject_Z_nonzero. lia.
    + right. exists l1, e, old, l2. repeat split; auto.
  - (* first rating by the caller: insert *)
    set (row := ContentInteraction.mk uid cid "rate" (Some now) (Some rating)).
    set (c' := Content.mk (Content.id c) (Some (mean_after_insert c rating))
                          (Content.total_ratings c + 1)).
    set (db' := with_content (<[ci := c']> (content db))
                  (with_content_interactions (content_interactions db ++ [row]) db)).
    assert (Hnone := query_own_rating_None _ _ _ Hown).
    assert (Hrr : rate_rows cid db' = rate_rows cid db ++ [row]).
    { unfold rate_rows, db'. simpl. rewrite filter_app, filter_cons, filter_nil.
      rewrite decide_True; [reflexivity | split; reflexivity]. }
    assert (Hsome' : (0 < Content.total_ratings c)%Z ->
                     is_Some (Content.average_rating c)).
    { intros Hp. destruct (Havg Hp) as (avg & -> & _). eauto. }
    exists (mean_after_insert c rating), db', ci, c, c'.
    split; [exact (rate_content_insert _ _ _ now _ _ _ Hr Hc Hown Hsome')|].
    split; [exact Hc|].
    assert (Hc' : query_content cid db' = Some (ci, c'))
      by (apply (query_content_insert cid db ci c); auto).
    split; [exact Hc'|]. split; [reflexivity|]. split.
    + exists ci, c'. split; [exact Hc'|]. rewrite Hrr.
      split; [|split; [|split]].
      * simpl. rewrite Htot. unfold len. rewrite length_app. simpl. lia.
      * apply Forall_app. split; [exact Hsome|].
        apply Forall_cons. split; [simpl; eauto | constructor].
      * rewrite map_app. apply NoDup_app. split; [exact Hnd|]. split.
        -- intros x Hx Hx'. simpl in Hx'. apply list_elem_of_singleton in Hx'.
           subst x. now apply Hnone.
        -- simpl. apply NoDup_singleton.
      * intros _. eexists. split; [reflexivity|].
        assert (Hl : len (ratings_of cid db') = (Content.total_ratings c + 1)%Z).
        { unfold ratings_of. rewrite Hrr, omap_app. unfold len.
          rewrite length_app. simpl.
          fold (ratings_of cid db). unfold len in Hlen, Htot. lia. }
        assert (Hs : totalZ (ratings_of cid db')
                     = (totalZ (ratings_of cid db) + rating)%Z).
        { unfold ratings_of. rewrite Hrr, omap_app, totalZ_app. simpl. lia. }
        unfold mean_rating. rewrite Hl, Hs. unfold mean_after_insert.
        destruct (Z.ltb_spec 0 (Content.total_ratings c)) as [Hp|Hp].
        -- destruct (Havg Hp) as (avg & Ha & Hmean). rewrite Ha. simpl default.
           unfold mean_rating in Hmean. rewrite Hlen, <- Htot in Hmean.
           rewrite (mean_times_count _ _ _ Hp Hmean).
           rewrite !inject_Z_plus. reflexivity.
        -- assert (Hz : Content.total_ratings c = 0%Z)
             by (rewrite Htot in *; unfold len in *; lia).
           assert (Hnil : rate_rows cid db = [])
             by (apply length_zero_iff_nil; unfold len in Htot; lia).
           unfold ratings_of. rewrite Hnil, Hz. simpl.
           unfold Qeq; simpl. lia.
    + left. repeat split; auto.
Qed.



Lemma fresh_content_consistent : ratings_consistent 3 fresh_content_db.
Proof.
  exists 0%nat, (Content.mk 3 None 0). split; [reflexivity|].
  split; [reflexivity|]. split; [constructor|]. split; [constructor|].
  simpl. lia.
Qed.



(** ** Achievement check *)

Lemma check_for_new_achievements_run uid now db ui user :
  list_find (fun u => User.id u = uid) (users db) = Some (ui, user) ->
  check_for_new_achievements uid now db
  = (inr (fst (pending_unlocks uid now user db)),
     with_achievements
       (achievements db ++ snd (pending_unlocks uid now user db)) db).
Proof.
  intros Hu. unfold check_for_new_achievements.
  rewrite (bind_ok _ _ _ _ _ (get_current_user_ok _ _ _ Hu)).
  unfold pending_unlocks, after_perfect, after_times, after_streaks, mastered_count.
  unfold bind, get, modify, ret. reflexivity.
Qed.

Lemma existing_threshold_Some uid ty m db :
  is_Some (existing_threshold uid ty m db) <-> has_threshold uid ty m (achievements db).
Proof.
  unfold existing_threshold, has_threshold. split.
  - intros [[i a] H]. apply list_find_Some in H as (Hi & Hp & _).
    exists a. split; [now apply list_elem_of_lookup_2 in Hi | exact Hp].
  - intros (a & Hin & Hp).
    now apply (list_find_elem_of _ _ a).
Qed.

Section MilestoneLoop.

Variables (db : Db) (uid : Z) (ty : string) (aggregate : Z).
Variable build : Z -> Achievement.t.

Hypothesis build_key : forall m,
  Achievement.user_id (build m) = uid
  /\ Achievement.achievement_type (build m) = ty
  /\ Achievement.threshold_value (build m) = Some (inject_Z m).

Let step := check_milestone db uid ty aggregate build.

Lemma check_milestone_cases acc m :
  (step acc m = acc
   /\ ((aggregate < m)%Z \/ has_threshold uid ty m (achievements db)))
  \/ (step acc m = (fst acc + 1, snd acc ++ [build m])%Z
      /\ (m <= aggregate)%Z
      /\ existing_threshold uid ty m db = None).
Proof.
  unfold step, check_milestone.
  destruct (Z.leb_spec m aggregate) as [Hle|Hlt]; [|left; split; [reflexivity | now left]].
  destruct (existing_threshold uid ty m db) as [r|] eqn:E.
  - left. split; [reflexivity|]. right.
    apply existing_threshold_Some. rewrite E. eauto.
  - right. auto.
Qed.

Lemma milestone_loop_skips acc ms :
  (forall m, m ∈ ms -> (m <= aggregate)%Z ->
             has_threshold uid ty m (achievements db)) ->
  foldl step acc ms = acc.
Proof.
  revert acc; induction ms as [|m ms IH]; intros acc H; [reflexivity|].
  simpl. destruct (check_milestone_cases acc m) as [[-> _]|(_ & Hle & Hnone)].
  - apply IH. intros m' Hm'. apply H. now apply list_elem_of_further.
  - exfalso. specialize (H m (list_elem_of_here _ _) Hle).
    apply existing_threshold_Some in H. rewrite Hnone in H. now destruct H.
Qed.

Lemma milestone_loop_keeps acc ms x :
  x ∈ snd acc -> x ∈ snd (foldl step acc ms).
Proof.
  revert acc; induction ms as [|m ms IH]; intros acc H; [exact H|].
  simpl. apply IH.
  destruct (check_milestone_cases acc m) as [[-> _]|(-> & _)]; [exact H|].
  simpl. apply elem_of_app. now left.
Qed.

Lemma milestone_loop_covers acc ms m :
  m ∈ ms -> (m <= aggregate)%Z ->
  has_threshold uid ty m (achievements db) \/ build m ∈ snd (foldl step acc ms).
Proof.
  revert acc; induction ms as [|m' ms IH]; intros acc Hin Hle.
  - now apply elem_of_nil in Hin.
  - simpl. apply elem_of_cons in Hin as [->|Hin]; [|now apply IH].
    destruct (check_milestone_cases acc m') as [[_ [Hlt|Hex]]|(-> & _)].
    + lia.
    + now left.
    + right. apply milestone_loop_keeps. simpl.
      apply elem_of_app. right. apply list_elem_of_here.
Qed.

Lemma milestone_loop_counts acc ms :
  fst acc = len (snd acc) ->
  fst (foldl step acc ms) = len (snd (foldl step acc ms)).
Proof.
  revert acc; induction ms as [|m ms IH]; intros acc H; [exact H|].
  simpl. apply IH.
  destruct (check_milestone_cases acc m) as [[-> _]|(-> & _)]; [exact H|].
  simpl. rewrite H. unfold len. rewrite length_app. simpl. lia.
Qed.

Lemma milestone_loop_Forall (Q : Achievement.t -> Prop) acc ms :
  (forall m, (m <= aggregate)%Z -> existing_threshold uid ty m db = None ->
             Q (build m)) ->
  Forall Q (snd acc) -> Forall Q (snd (foldl step acc ms)).
Proof.
  intros HQ. revert acc; induction ms as [|m ms IH]; intros acc H; [exact H|].
  simpl. apply IH.
  destruct (check_milestone_cases acc m) as [[-> _]|(-> & Hle & Hnone)]; [exact H|].
  simpl. apply Forall_app. split; [exact H|].
  apply Forall_cons. split; [now apply HQ | constructor].
Qed.

Lemma milestone_row_fresh m :
  ty <> "assessment" ->
  existing_threshold uid ty m db = None ->
  forall b, b ∈ achievements db -> ~ same_unlock (build m) b.
Proof.
  intros Hty Hnone b Hb (Hu & Ht & Hk).
  destruct (build_key m) as (Bu & Bt & Bv).
  rewrite decide_False in Hk by (now rewrite Bt).
  rewrite Bv in Hk.
  unfold existing_threshold in Hnone.
  eapply list_find_None in Hnone. rewrite Forall_forall in Hnone.
  apply (Hnone b Hb). split; [congruence|]. split; [congruence|].
  unfold threshold_is. destruct (Achievement.threshold_value b) as [w|];
    [now symmetry | exact Hk].
Qed.

End MilestoneLoop.

Lemma streak_achievement_key uid now max_streak m :
  Achievement.user_id (streak_achievement uid now max_streak m) = uid
  /\ Achievement.achievement_type (streak_achievement uid now max_streak m) = "streak"
  /\ Achievement.threshold_value (streak_achievement uid now max_streak m)
     = Some (inject_Z m).
Proof. repeat split. Qed.

Lemma time_achievement_key uid now total_study_time m :
  Achievement.user_id (time_achievement uid now total_study_time m) = uid
  /\ Achievement.achievement_type (time_achievement uid now total_study_time m) = "time"
  /\ Achievement.threshold_value (time_achievement uid now total_study_time m)
     = Some (inject_Z m).
Proof. repeat split. Qed.

Lemma mastery_achievement_key uid now mastered m :
  Achievement.user_id (mastery_achievement uid now mastered m) = uid
  /\ Achievement.achievement_type (mastery_achievement uid now mastered m) = "mastery"
  /\ Achievement.threshold_value (mastery_achievement uid now mastered m)
     = Some (inject_Z m).
Proof. repeat split. Qed.

Lemma has_threshold_app uid ty m l1 l2 :
  has_threshold uid ty m l1 \/ has_threshold uid ty m l2 ->
  has_threshold uid ty m (l1 ++ l2).
Proof.
  intros [(a & Hin & H)|(a & Hin & H)]; exists a; (split; [|exact H]);
    apply elem_of_app; auto.
Qed.

Lemma has_threshold_built uid ty m (build : Z -> Achievement.t) l :
  (Achievement.user_id (build m) = uid
   /\ Achievement.achievement_type (build m) = ty
   /\ Achievement.threshold_value (build m) = Some (inject_Z m)) ->
  build m ∈ l -> has_threshold uid ty m l.
Proof.
  intros (Hu & Ht & Hv) Hin. exists (build m). repeat split; try assumption.
  unfold threshold_is. rewrite Hv. reflexivity.
Qed.

Lemma existing_title_Some uid ty title db :
  is_Some (existing_title uid ty title db)
  <-> exists a, a ∈ achievements db /\ Achievement.user_id a = uid
                /\ Achievement.achievement_type a = ty
                /\ Achievement.title a = title.
Proof.
  unfold existing_title. split.
  - intros [[i a] H]. apply list_find_Some in H as (Hi & Hp & _).
    exists a. split; [now apply list_elem_of_lookup_2 in Hi | exact Hp].
  - intros (a & Hin & Hp). now apply (list_find_elem_of _ _ a).
Qed.

Lemma after_perfect_keeps uid now user db x :
  x ∈ snd (after_times uid now user db) -> x ∈ snd (after_perfect uid now user db).
Proof.
  intros H. unfold after_perfect.
  destruct (Qgeb _ 95); [|exact H].
  destruct (existing_title _ _ _ _); [exact H|].
  simpl. apply elem_of_app. now left.
Qed.

Lemma pending_unlocks_counts uid now user db :
  fst (pending_unlocks uid now user db) = len (snd (pending_unlocks uid now user db)).
Proof.
  unfold pending_unlocks. apply milestone_loop_counts.
  unfold after_perfect.
  assert (H : fst (after_times uid now user db)
              = len (snd (after_times uid now user db))).
  { unfold after_times. apply milestone_loop_counts.
    unfold after_streaks. now apply milestone_loop_counts. }
  destruct (Qgeb _ 95); [|exact H].
  destruct (existing_title _ _ _ _); [exact H|].
  simpl. rewrite H. unfold len. rewrite length_app. simpl. lia.
Qed.

Lemma pending_unlocks_new uid now user db :
  Forall (newly_unlocked uid db) (snd (pending_unlocks uid now user db)).
Proof.
  unfold pending_unlocks. apply milestone_loop_Forall.
  { intros m _ Hnone. split; [reflexivity|]. split; [reflexivity|].
    apply (milestone_row_fresh db uid "mastery" _ (mastery_achievement_key _ _ _));
      [discriminate | exact Hnone]. }
  assert (H : Forall (newly_unlocked uid db) (snd (after_times uid now user db))).
  { unfold after_times. apply milestone_loop_Forall.
    { intros m _ Hnone. split; [reflexivity|]. split; [reflexivity|].
      apply (milestone_row_fresh db uid "time" _ (time_achievement_key _ _ _));
        [discriminate | exact Hnone]. }
    unfold after_streaks. apply milestone_loop_Forall; [|constructor].
    intros m _ Hnone. split; [reflexivity|]. split; [reflexivity|].
    apply (milestone_row_fresh db uid "streak" _ (streak_achievement_key _ _ _));
      [discriminate | exact Hnone]. }
  unfold after_perfect.
  destruct (Qgeb _ 95); [|exact H].
  destruct (existing_title _ _ _ _) eqn:E; [exact H|].
  simpl. apply Forall_app. split; [exact H|].
  apply Forall_cons. split; [|constructor].
  split; [reflexivity|]. split; [reflexivity|].
  intros b Hb (Hu & Ht & Hk). simpl in Hu, Ht, Hk.
  unfold existing_title in E. eapply list_find_None in E.
  rewrite Forall_forall in E. apply (E b Hb). auto.
Qed.

(** After the commit every milestone reached has its row, old or new. *)
Lemma committed_streaks uid now user db m :
  m ∈ streak_milestones -> (m <= or_zero (max_streak_days uid db))%Z ->
  has_threshold uid "streak" m
    (achievements db ++ snd (pending_unlocks uid now user db)).
Proof.
  intros Hm Hle. apply has_threshold_app.
  destruct (milestone_loop_covers db uid "streak" (or_zero (max_streak_days uid db))
              (streak_achievement uid now (or_zero (max_streak_days uid db)))
              (0, []) streak_milestones m Hm Hle)
    as [H|H]; [now left | right].
  eapply has_threshold_built; [apply streak_achievement_key|].
  unfold pending_unlocks. apply milestone_loop_keeps, after_perfect_keeps.
  unfold after_times. apply milestone_loop_keeps. exact H.
Qed.

Lemma committed_times uid now user db m :
  m ∈ time_milestones -> (m <= User.total_study_time_minutes user)%Z ->
  has_threshold uid "time" m
    (achievements db ++ snd (pending_unlocks uid now user db)).
Proof.
  intros Hm Hle. apply has_threshold_app.
  destruct (milestone_loop_covers db uid "time" (User.total_study_time_minutes user)
              (time_achievement uid now (User.total_study_time_minutes user))
              (after_streaks uid now db)
              time_milestones m Hm Hle)
    as [H|H]; [now left | right].
  eapply has_threshold_built; [apply time_achievement_key|].
  unfold pending_unlocks. apply milestone_loop_keeps, after_perfect_keeps. exact H.
Qed.

Lemma committed_masteries uid now user db m :
  m ∈ mastery_milestones -> (m <= mastered_count uid db)%Z ->
  has_threshold uid "mastery" m
    (achievements db ++ snd (pending_unlocks uid now user db)).
Proof.
  intros Hm Hle. apply has_threshold_app.
  destruct (milestone_loop_covers db uid "mastery" (mastered_count uid db)
              (mastery_achievement uid now (mastered_count uid db))
              (after_perfect uid now user db)
              mastery_milestones m Hm Hle)
    as [H|H]; [now left | right].
  eapply has_threshold_built; [apply mastery_achievement_key|]. exact H.
Qed.

Lemma committed_perfect uid now user db :
  Qgeb (User.average_score user) 95 = true ->
  exists a, a ∈ achievements db ++ snd (pending_unlocks uid now user db)
            /\ Achievement.user_id a = uid
            /\ Achievement.achievement_type a = "assessment"
            /\ Achievement.title a = "Perfectionist".
Proof.
  intros Hq.
  destruct (existing_title uid "assessment" "Perfectionist" db) as [r|] eqn:E.
  - destruct (proj1 (existing_title_Some uid "assessment" "Perfectionist" db))
      as (a & Hin & H); [rewrite E; eauto|].
    exists a. split; [apply elem_of_app; now left | exact H].
  - exists (perfect_achievement uid now (User.average_score user)).
    split; [|repeat split].
    apply elem_of_app. right.
    unfold pending_unlocks. apply milestone_loop_keeps.
    unfold after_perfect. rewrite Hq, E. simpl.
    apply elem_of_app. right. apply list_elem_of_here.
Qed.

Lemma pending_unlocks_after_commit uid now1 now2 user db :
  pending_unlocks uid now2 user
    (with_achievements (achievements db ++ snd (pending_unlocks uid now1 user db)) db)
  = (0%Z, []).
Proof.
  set (db1 := with_achievements
                (achievements db ++ snd (pending_unlocks uid now1 user db)) db).
  assert (Hs : after_streaks uid now2 db1 = (0%Z, [])).
  { unfold after_streaks.
    apply milestone_loop_skips.
    intros m Hm Hle. now apply committed_streaks. }
  assert (Ht : after_times uid now2 user db1 = (0%Z, [])).
  { unfold after_times. rewrite Hs.
    apply milestone_loop_skips.
    intros m Hm Hle. now apply committed_times. }
  assert (Hp : after_perfect uid now2 user db1 = (0%Z, [])).
  { unfold after_perfect. rewrite Ht.
    destruct (Qgeb (User.average_score user) 95) eqn:Hq; [|reflexivity].
    destruct (existing_title uid "assessment" "Perfectionist" db1) as [r|] eqn:E;
      [reflexivity|].
    exfalso.
    assert (Hsome : is_Some (existing_title uid "assessment" "Perfectionist" db1))
      by (apply existing_title_Some; now apply committed_perfect).
    rewrite E in Hsome. now destruct Hsome. }
  unfold pending_unlocks. rewrite Hp.
  apply milestone_loop_skips.
  intros m Hm Hle. now apply committed_masteries.
Qed.

(** *** Counting the rows of one check *)

Lemma unlock_count_app uid ty m l1 l2 :
  unlock_count uid ty m (l1 ++ l2)
  = (unlock_count uid ty m l1 + unlock_count uid ty m l2)%nat.
Proof. unfold unlock_count. now rewrite filter_app, length_app. Qed.

Lemma title_count_app uid ty title l1 l2 :
  title_count uid ty title (l1 ++ l2)
  = (title_count uid ty title l1 + title_count uid ty title l2)%nat.
Proof. unfold title_count. now rewrite filter_app, length_app. Qed.

Section MilestoneCount.

Variables (db : Db) (uid : Z) (ty : string) (aggregate : Z).
Variable build : Z -> Achievement.t.

Hypothesis build_key : forall m,
  Achievement.user_id (build m) = uid
  /\ Achievement.achievement_type (build m) = ty
  /\ Achievement.threshold_value (build m) = Some (inject_Z m).

Let step := check_milestone db uid ty aggregate build.

Lemma built_count_same m : unlock_count uid ty m [build m] = 1%nat.
Proof.
  destruct (build_key m) as (Bu & Bt & Bv).
  unfold unlock_count. rewrite filter_cons, decide_True; [reflexivity|].
  repeat split; try assumption. unfold threshold_is. rewrite Bv. reflexivity.
Qed.

Lemma built_count_other ty' m m' :
  ty' <> ty \/ m' <> m -> unlock_count uid ty' m [build m'] = 0%nat.
Proof.
  intros H. destruct (build_key m') as (Bu & Bt & Bv).
  unfold unlock_count. rewrite filter_cons, decide_False; [reflexivity|].
  intros (_ & Ht & Hv). unfold threshold_is in Hv. rewrite Bv in Hv.
  pose proof (proj1 (inject_Z_injective m' m) Hv) as Hm.
  destruct H as [H|H]; congruence.
Qed.

Lemma built_title_other ty' title m :
  ty' <> ty -> title_count uid ty' title [build m] = 0%nat.
Proof.
  intros H. destruct (build_key m) as (Bu & Bt & Bv).
  unfold title_count. rewrite filter_cons, decide_False; [reflexivity|].
  intros (_ & Ht & _). congruence.
Qed.

Lemma milestone_loop_count_other ty' m acc ms :
  ty' <> ty \/ m ∉ ms ->
  unlock_count uid ty' m (snd (foldl step acc ms))
  = unlock_count uid ty' m (snd acc).
Proof.
  unfold step. revert acc; induction ms as [|m' ms IH]; intros acc H; [reflexivity|].
  simpl. rewrite IH.
  - destruct (check_milestone_cases db uid ty aggregate build acc m')
      as [[-> _]|(-> & _)]; [reflexivity|].
    simpl. rewrite unlock_count_app, built_count_other; [lia|].
    destruct H as [H|H]; [now left | right].
    intros ->. apply H, list_elem_of_here.
  - destruct H as [H|H]; [now left | right].
    intros Hin. apply H. now apply list_elem_of_further.
Qed.

Lemma milestone_loop_count_once m acc ms :
  NoDup ms -> m ∈ ms -> (m <= aggregate)%Z ->
  existing_threshold uid ty m db = None ->
  unlock_count uid ty m (snd (foldl step acc ms))
  = (unlock_count uid ty m (snd acc) + 1)%nat.
Proof.
  unfold step. revert acc; induction ms as [|m' ms IH]; intros acc Hnd Hin Hle Hnone.
  - now apply elem_of_nil in Hin.
  - apply NoDup_cons in Hnd as [Hfresh Hnd]. simpl.
    apply elem_of_cons in Hin as [->|Hin].
    + rewrite milestone_loop_count_other by now right.
      unfold check_milestone.
      destruct (Z.leb_spec m' aggregate); [|lia]. rewrite Hnone. simpl.
      now rewrite unlock_count_app, built_count_same.
    + rewrite IH by assumption. f_equal.
      destruct (check_milestone_cases db uid ty aggregate build acc m')
        as [[-> _]|(-> & _)]; [reflexivity|].
      simpl. rewrite unlock_count_app, built_count_other; [lia|].
      right. intros ->. contradiction.
Qed.

Lemma milestone_loop_count_le ty' m acc ms :
  NoDup ms ->
  (unlock_count uid ty' m (snd (foldl step acc ms))
   <= unlock_count uid ty' m (snd acc) + 1)%nat.
Proof.
  unfold step. revert acc; induction ms as [|m' ms IH]; intros acc Hnd; [simpl; lia|].
  apply NoDup_cons in Hnd as [Hfresh Hnd]. simpl.
  destruct (check_milestone_cases db uid ty aggregate build acc m')
    as [[-> _]|(-> & _)]; [now apply IH|].
  destruct (decide (ty' = ty /\ m' = m)) as [[-> ->]|Hne].
  - rewrite milestone_loop_count_other by now right.
    simpl. rewrite unlock_count_app, built_count_same. lia.
  - etransitivity; [now apply IH|].
    simpl. rewrite unlock_count_app, built_count_other; [lia|].
    destruct (decide (ty' = ty)); [right | now left].
    intros ->. apply Hne. now split.
Qed.

Lemma milestone_loop_titles ty' title acc ms :
  ty' <> ty ->
  title_count uid ty' title (snd (foldl step acc ms))
  = title_count uid ty' title (snd acc).
Proof.
  unfold step. intros Hty. revert acc; induction ms as [|m' ms IH]; intros acc; [reflexivity|].
  simpl. rewrite IH.
  destruct (check_milestone_cases db uid ty aggregate build acc m')
    as [[-> _]|(-> & _)]; [reflexivity|].
  simpl. rewrite title_count_app, built_title_other by exact Hty. lia.
Qed.

End MilestoneCount.

Lemma streak_milestones_NoDup : NoDup streak_milestones.
Proof. apply (bool_decide_unpack _). vm_compute. exact I. Qed.

Lemma time_milestones_NoDup : NoDup time_milestones.
Proof. apply (bool_decide_unpack _). vm_compute. exact I. Qed.

Lemma mastery_milestones_NoDup : NoDup mastery_milestones.
Proof. apply (bool_decide_unpack _). vm_compute. exact I. Qed.

Lemma not_has_threshold_None uid ty m db :
  ~ has_threshold uid ty m (achievements db) ->
  existing_threshold uid ty m db = None.
Proof.
  intros H. destruct (existing_threshold uid ty m db) eqn:E; [|reflexivity].
  exfalso. apply H, existing_threshold_Some. rewrite E. eauto.
Qed.

Lemma after_perfect_count uid now user db ty m :
  (unlock_count uid ty m (snd (after_perfect uid now user db))
   <= unlock_count uid ty m (snd (after_times uid now user db)) + 1)%nat
  /\ (ty <> "assessment" ->
      unlock_count uid ty m (snd (after_perfect uid now user db))
      = unlock_count uid ty m (snd (after_times uid now user db))).
Proof.
  unfold after_perfect.
  destruct (Qgeb _ 95); [|split; [lia | reflexivity]].
  destruct (existing_title _ _ _ _); [split; [lia | reflexivity]|].
  simpl. rewrite unlock_count_app.
  set (row := perfect_achievement uid now (User.average_score user)).
  assert (H : (unlock_count uid ty m [row] <= 1)%nat
              /\ (ty <> "assessment" -> unlock_count uid ty m [row] = 0%nat)).
  { unfold unlock_count. rewrite filter_cons.
    destruct (decide _) as [(_ & Ht & _)|_]; simpl.
    - split; [lia|]. intros Hne. exfalso. apply Hne. now rewrite <- Ht.
    - split; [lia | reflexivity]. }
  destruct H as [H1 H0]. split; [lia|].
  intros Hne. rewrite (H0 Hne). lia.
Qed.

Lemma after_perfect_titles uid now user db :
  (title_count uid "assessment" "Perfectionist" (snd (after_perfect uid now user db))
   <= title_count uid "assessment" "Perfectionist"
        (snd (after_times uid now user db)) + 1)%nat
  /\ (Qgeb (User.average_score user) 95 = true ->
      existing_title uid "assessment" "Perfectionist" db = None ->
      title_count uid "assessment" "Perfectionist"
        (snd (after_perfect uid now user db))
      = (title_count uid "assessment" "Perfectionist"
           (snd (after_times uid now user db)) + 1)%nat).
Proof.
  unfold after_perfect.
  destruct (Qgeb _ 95); [|split; [lia | discriminate]].
  destruct (existing_title _ _ _ _); [split; [lia | discriminate]|].
  simpl. rewrite title_count_app.
  set (row := perfect_achievement uid now (User.average_score user)).
  assert (H : title_count uid "assessment" "Perfectionist" [row] = 1%nat).
  { unfold title_count. rewrite filter_cons, decide_True by (repeat split).
    reflexivity. }
  rewrite H. split; [lia | reflexivity].
Qed.

(** No key occurs twice among the rows of one check. *)
Lemma pending_unlocks_count_le uid now user db ty m :
  (unlock_count uid ty m (snd (pending_unlocks uid now user db)) <= 1)%nat.
Proof.
  pose proof (milestone_loop_count_le db uid "mastery" (mastered_count uid db)
                (mastery_achievement uid now (mastered_count uid db))
                (mastery_achievement_key _ _ _) ty m
                (after_perfect uid now user db) mastery_milestones
                mastery_milestones_NoDup) as H4.
  pose proof (milestone_loop_count_other db uid "mastery" (mastered_count uid db)
                (mastery_achievement uid now (mastered_count uid db))
                (mastery_achievement_key _ _ _) ty m
                (after_perfect uid now user db) mastery_milestones) as E4.
  destruct (after_perfect_count uid now user db ty m) as [H3 E3].
  pose proof (milestone_loop_count_le db uid "time" (User.total_study_time_minutes user)
                (time_achievement uid now (User.total_study_time_minutes user))
                (time_achievement_key _ _ _) ty m
                (after_streaks uid now db) time_milestones
                time_milestones_NoDup) as H2.
  pose proof (milestone_loop_count_other db uid "time"
                (User.total_study_time_minutes user)
                (time_achievement uid now (User.total_study_time_minutes user))
                (time_achievement_key _ _ _) ty m
                (after_streaks uid now db) time_milestones) as E2.
  pose proof (milestone_loop_count_le db uid "streak"
                (or_zero (max_streak_days uid db))
                (streak_achievement uid now (or_zero (max_streak_days uid db)))
                (streak_achievement_key _ _ _) ty m
                (0%Z, []) streak_milestones streak_milestones_NoDup) as H1.
  pose proof (milestone_loop_count_other db uid "streak"
                (or_zero (max_streak_days uid db))
                (streak_achievement uid now (or_zero (max_streak_days uid db)))
                (streak_achievement_key _ _ _) ty m
                (0%Z, []) streak_milestones) as E1.
  fold (after_streaks uid now db) in H1, E1.
  fold (after_times uid now user db) in H2, E2.
  fold (pending_unlocks uid now user db) in H4, E4.
  change (unlock_count uid ty m (snd (0%Z, []))) with 0%nat in H1, E1.
  destruct (decide (ty = "mastery")) as [->|N4].
  { rewrite E3 in H4 by discriminate.
    rewrite E2 in H4 by (left; discriminate).
    rewrite E1 in H4 by (left; discriminate). exact H4. }
  rewrite E4 by now left.
  destruct (decide (ty = "assessment")) as [->|N3].
  { rewrite E2 in H3 by (left; discriminate).
    rewrite E1 in H3 by (left; discriminate). exact H3. }
  rewrite E3 by exact N3.
  destruct (decide (ty = "time")) as [->|N2].
  { rewrite E1 in H2 by (left; discriminate). exact H2. }
  rewrite E2 by now left. exact H1.
Qed.

Lemma pending_unlocks_streak_once uid now user db m :
  m ∈ streak_milestones -> (m <= or_zero (max_streak_days uid db))%Z ->
  ~ has_threshold uid "streak" m (achievements db) ->
  unlock_count uid "streak" m (snd (pending_unlocks uid now user db)) = 1%nat.
Proof.
  intros Hm Hle Hno. unfold pending_unlocks.
  rewrite (milestone_loop_count_other db uid "mastery" _ _
             (mastery_achievement_key _ _ _)) by (left; discriminate).
  rewrite (proj2 (after_perfect_count uid now user db "streak" m)) by discriminate.
  unfold after_times.
  rewrite (milestone_loop_count_other db uid "time" _ _
             (time_achievement_key _ _ _)) by (left; discriminate).
  unfold after_streaks.
  rewrite (milestone_loop_count_once db uid "streak" _ _
             (streak_achievement_key _ _ _) m (0%Z, []) streak_milestones
             streak_milestones_NoDup Hm Hle (not_has_threshold_None _ _ _ _ Hno)).
  reflexivity.
Qed.

Lemma pending_unlocks_time_once uid now user db m :
  m ∈ time_milestones -> (m <= User.total_study_time_minutes user)%Z ->
  ~ has_threshold uid "time" m (achievements db) ->
  unlock_count uid "time" m (snd (pending_unlocks uid now user db)) = 1%nat.
Proof.
  intros Hm Hle Hno. unfold pending_unlocks.
  rewrite (milestone_loop_count_other db uid "mastery" _ _
             (mastery_achievement_key _ _ _)) by (left; discriminate).
  rewrite (proj2 (after_perfect_count uid now user db "time" m)) by discriminate.
  unfold after_times.
  rewrite (milestone_loop_count_once db uid "time" _ _
             (time_achievement_key _ _ _) m (after_streaks uid now db)
             time_milestones
             time_milestones_NoDup Hm Hle (not_has_threshold_None _ _ _ _ Hno)).
  unfold after_streaks.
  rewrite (milestone_loop_count_other db uid "streak" _ _
             (streak_achievement_key _ _ _)) by (left; discriminate).
  reflexivity.
Qed.

Lemma pending_unlocks_mastery_once uid now user db m :
  m ∈ mastery_milestones -> (m <= mastered_count uid db)%Z ->
  ~ has_threshold uid "mastery" m (achievements db) ->
  unlock_count uid "mastery" m (snd (pending_unlocks uid now user db)) = 1%nat.
Proof.
  intros Hm Hle Hno. unfold pending_unlocks.
  rewrite (milestone_loop_count_once db uid "mastery" _ _
             (mastery_achievement_key _ _ _) m (after_perfect uid now user db)
             mastery_milestones
             mastery_milestones_NoDup Hm Hle (not_has_threshold_None _ _ _ _ Hno)).
  rewrite (proj2 (after_perfect_count uid now user db "mastery" m)) by discriminate.
  unfold after_times.
  rewrite (milestone_loop_count_other db uid "time" _ _
             (time_achievement_key _ _ _)) by (left; discriminate).
  unfold after_streaks.
  rewrite (milestone_loop_count_other db uid "streak" _ _
             (streak_achievement_key _ _ _)) by (left; discriminate).
  reflexivity.
Qed.

Lemma pending_unlocks_titles uid now user db :
  (title_count uid "assessment" "Perfectionist"
     (snd (pending_unlocks uid now user db)) <= 1)%nat
  /\ (Qgeb (User.average_score user) 95 = true ->
      existing_title uid "assessment" "Perfectionist" db = None ->
      title_count uid "assessment" "Perfectionist"
        (snd (pending_unlocks uid now user db)) = 1%nat).
Proof.
  unfold pending_unlocks.
  rewrite (milestone_loop_titles db uid "mastery" _ _
             (mastery_achievement_key _ _ _)) by discriminate.
  destruct (after_perfect_titles uid now user db) as [Hle Heq].
  assert (H0 : title_count uid "assessment" "Perfectionist"
                 (snd (after_times uid now user db)) = 0%nat).
  { unfold after_times.
    rewrite (milestone_loop_titles db uid "time" _ _
               (time_achievement_key _ _ _)) by discriminate.
    unfold after_streaks.
    rewrite (milestone_loop_titles db uid "streak" _ _
               (streak_achievement_key _ _ _)) by discriminate.
    reflexivity. }
  rewrite H0 in Hle, Heq. split; [exact Hle | exact Heq].
Qed.

(** C3. A check inserts a row only where no row of the table stood for the
    same unlock (same user, type and threshold, or same title for the
    perfect-score one), never two rows for one key, and exactly one row
    for every milestone reached, and for the perfect score reached, that
    had none; it reports as many as it inserts.  A second check right
    after it, with nothing else changed, inserts nothing and reports 0. *)
Theorem achievement_check_idempotent uid now1 now2 db ui user :
  list_find (fun u => User.id u = uid) (users db) = Some (ui, user) ->
  exists n added,
    check_for_new_achievements uid now1 db
    = (inr n, with_achievements (achievements db ++ added) db)
    /\ n = len added
    /\ Forall (newly_unlocked uid db) added
    /\ (forall ty m, (unlock_count uid ty m added <= 1)%nat)
    /\ (title_count uid "assessment" "Perfectionist" added <= 1)%nat
    /\ (forall m, m ∈ streak_milestones ->
          (m <= or_zero (max_streak_days uid db))%Z ->
          ~ has_threshold uid "streak" m (achievements db) ->
          unlock_count uid "streak" m added = 1%nat)
    /\ (forall m, m ∈ time_milestones ->
          (m <= User.total_study_time_minutes user)%Z ->
          ~ has_threshold uid "time" m (achievements db) ->
          unlock_count uid "time" m added = 1%nat)
    /\ (forall m, m ∈ mastery_milestones ->
          (m <= mastered_count uid db)%Z ->
          ~ has_threshold uid "mastery" m (achievements db) ->
          unlock_count uid "mastery" m added = 1%nat)
    /\ ((95 <= User.average_score user)%Q ->
        (forall a, a ∈ achievements db ->
           ~ (Achievement.user_id a = uid
              /\ Achievement.achievement_type a = "assessment"
              /\ Achievement.title a = "Perfectionist")) ->
        title_count uid "assessment" "Perfectionist" added = 1%nat)
    /\ check_for_new_achievements uid now2
         (with_achievements (achievements db ++ added) db)
       = (inr 0%Z, with_achievements (achievements db ++ added) db).
Proof.
  intros Hu.
  exists (fst (pending_unlocks uid now1 user db)),
         (snd (pending_unlocks uid now1 user db)).
  split; [exact (check_for_new_achievements_run uid now1 db ui user Hu)|].
  split; [apply pending_unlocks_counts|].
  split; [apply pending_unlocks_new|].
  split; [intros ty m; apply pending_unlocks_count_le|].
  split; [apply pending_unlocks_titles|].
  split; [intros m; apply pending_unlocks_streak_once|].
  split; [intros m; apply pending_unlocks_time_once|].
  split; [intros m; apply pending_unlocks_mastery_once|].
  split.
  { intros Hq Hno. apply pending_unlocks_titles.
    - unfold Qgeb. now apply Qle_bool_iff.
    - destruct (existing_title uid "assessment" "Perfectionist" db) eqn:E;
        [|reflexivity].
      exfalso.
      destruct (proj1 (existing_title_Some uid "assessment" "Perfectionist" db))
        as (a & Hin & Ha); [rewrite E; eauto|].
      exact (Hno a Hin Ha). }
  rewrite (check_for_new_achievements_run uid now2 _ ui user) by exact Hu.
  rewrite pending_unlocks_after_commit. simpl.
  now rewrite app_nil_r.
Qed.

Lemma achievement_check_idempotent_witness :
  exists added,
    check_for_new_achievements 1 5 achiever_db
    = (inr 5%Z, with_achievements added achiever_db)
    /\ map Achievement.title added
       = ["7-Day Study Streak"; "14-Day Study Streak"; "10-Hour Scholar";
          "Perfectionist"; "Master of 1 Subject"]
    /\ unlock_count 1 "streak" 14 added = 1%nat
    /\ check_for_new_achievements 1 6 (with_achievements added achiever_db)
       = (inr 0%Z, with_achievements added achiever_db).
Proof.
  destruct (achievement_check_idempotent 1 5 6 achiever_db 0%nat
              (User.mk 1 700 3 96%Q 0) eq_refl)
    as (n & added & Hrun & Hn & _ & _ & _ & Hs & _ & _ & _ & Hagain).
  exists added.
  assert (Hadd : added = snd (pending_unlocks 1 5 (User.mk 1 700 3 96%Q 0) achiever_db)).
  { rewrite (check_for_new_achievements_run 1 5 achiever_db 0%nat
               (User.mk 1 700 3 96%Q 0) eq_refl) in Hrun.
    injection Hrun as _ Hrun. simpl in Hrun. now symmetry. }
  split; [|split; [|split]].
  - rewrite Hrun, Hn, Hadd. reflexivity.
  - rewrite Hadd. reflexivity.
  - apply Hs.
    + apply list_elem_of_further, list_elem_of_here.
    + vm_compute. discriminate.
    + intros (a & Hin & _). now apply elem_of_nil in Hin.
  - exact Hagain.
Defined.

(** * Further properties of the handlers *)

(** ** Submission: the user's running average *)

Lemma total_snoc l x : (total (l ++ [x]) == total l + x)%Q.
Proof. induction l as [|y l IH]; simpl; [ring | rewrite IH; ring]. Qed.

Lemma list_find_lookup {A} (P : A -> Prop) `{!forall x, Decision (P x)}
    (l : list A) i x :
  list_find P l = Some (i, x) -> l !! i = Some x.
Proof. intros Hf. now apply list_find_Some in Hf as (? & _). Qed.

(** X1. [submit_assessment] keeps the user's [average_score] the mean of the
    scores of the assessments counted by [total_assessments_completed]: if
    it is the mean of [scores] before, it is the mean of [scores] with the
    new score appended after, and the counter has grown by one. *)
Theorem submit_keeps_running_mean aid sub uid now db ui user i a scores :
  list_find (fun u => User.id u = uid) (users db) = Some (ui, user) ->
  query_assessment aid uid db = Some (i, a) ->
  Assessment.status a = "in_progress" ->
  User.total_assessments_completed user = len scores ->
  (scores <> [] -> (User.average_score user == mean scores)%Q) ->
  exists r db' user',
    submit_assessment aid sub uid now db = (inr r, db')
    /\ users db' !! ui = Some user'
    /\ User.id user' = User.id user
    /\ User.total_study_time_minutes user' = User.total_study_time_minutes user
    /\ User.total_assessments_completed user' = (len scores + 1)%Z
    /\ (User.average_score user' == mean (scores ++ [resp_score r]))%Q.
Proof.
  intros Hu Hq Hs Hn Havg.
  pose proof (submit_assessment_run aid sub uid now db ui user i a Hu Hq Hs) as Hrun.
  cbv zeta in Hrun.
  eexists _, _, _. split; [exact Hrun|]. simpl.
  split.
  { apply list_lookup_insert_eq.
    apply list_find_lookup in Hu. now apply lookup_lt_Some in Hu. }
  simpl. split; [reflexivity|]. split; [reflexivity|].
  split; [now rewrite Hn|].
  unfold average_after. rewrite Hn.
  assert (Hpos : (0 < len scores + 1)%Z) by (unfold len; lia).
  apply Z.ltb_lt in Hpos as Hb. rewrite Hb.
  replace (len scores + 1 - 1)%Z with (len scores) by lia.
  unfold mean. rewrite total_snoc.
  assert (Hl : len (scores ++ [score_of (submit_tally aid uid sub db)])
               = (len scores + 1)%Z)
    by (unfold len; rewrite length_app; simpl; lia).
  rewrite Hl.
  destruct scores as [|x scores].
  - change (len []) with 0%Z. simpl. field. discriminate.
  - rewrite (Havg ltac:(discriminate)). unfold mean.
    set (n := len (x :: scores)) in *.
    assert (Hnz : ~ (inject_Z n == 0)%Q)
      by (apply inject_Z_nonzero; unfold n, len; simpl; lia).
    assert (Hnz1 : ~ (inject_Z (n + 1) == 0)%Q)
      by (apply inject_Z_nonzero; lia).
    rewrite inject_Z_plus in Hnz1 |- *. field. now split.
Qed.

Lemma submit_keeps_running_mean_witness :
  exists r db' user',
    submit_assessment 10 sample_submission 1 60000000 (sample_db "in_progress")
    = (inr r, db')
    /\ users db' !! 0%nat = Some user'
    /\ User.total_assessments_completed user' = 1%Z
    /\ (User.average_score user' == 200 # 3)%Q.
Proof.
  destruct (submit_keeps_running_mean 10 sample_submission 1 60000000
              (sample_db "in_progress") 0%nat sample_user 0%nat
              (sample_assessment "in_progress") [] eq_refl eq_refl eq_refl eq_refl)
    as (r & db' & user' & Hrun & Hl & _ & _ & Hn & Havg).
  - intros H. now destruct H.
  - exists r, db', user'. split; [exact Hrun|]. split; [exact Hl|].
    split; [exact Hn|]. rewrite Havg.
    assert (Hv : fst (submit_assessment 10 sample_submission 1 60000000
                        (sample_db "in_progress")) = inr r)
      by now rewrite Hrun.
    vm_compute in Hv. injection Hv as <-. reflexivity.
Defined.

(** ** Submission: bounds *)






(** X3. A submission with no gradable answer (an empty list, or only unknown
    question ids) completes the assessment with score exactly 0: nothing is
    stored, nothing is divided by zero. *)
Theorem submit_without_gradable_answers aid sub uid now db ui user i a :
  list_find (fun u => User.id u = uid) (users db) = Some (ui, user) ->
  query_assessment aid uid db = Some (i, a) ->
  Assessment.status a = "in_progress" ->
  Forall (fun x => question_for aid (sub_question_id x) db = None) sub ->
  exists r db',
    submit_assessment aid sub uid now db = (inr r, db')
    /\ answers db' = answers db
    /\ resp_score r = 0%Q
    /\ resp_correct_answers r = 0%Z
    /\ Assessment.score_percentage (resp_assessment r) = Some 0%Q
    /\ Assessment.status (resp_assessment r) = "completed"
    /\ Assessment.is_completed (resp_assessment r) = true
    /\ Assessment.questions_answered (resp_assessment r) = len sub
    /\ assessments db' = <[i := resp_assessment r]> (assessments db).
Proof.
  intros Hu Hq Hs Hnone.
  assert (Hrows : graded_rows aid uid sub db = []).
  { induction Hnone as [|x sub Hx _ IH]; [reflexivity|].
    rewrite graded_rows_cons, Hx. exact IH. }
  pose proof (submit_assessment_run aid sub uid now db ui user i a Hu Hq Hs) as Hrun.
  cbv zeta in Hrun.
  destruct (submit_tally_rows aid uid sub db) as (Hadd & _ & _ & Hc).
  destruct (score_of_rows aid uid sub db) as (_ & Hzero).
  rewrite Hrows in *.
  assert (Hsc : score_of (submit_tally aid uid sub db) = 0%Q)
    by (apply Hzero; intros H; discriminate H).
  eexists _, _. split; [exact Hrun|]. simpl.
  rewrite Hadd, Hsc, Hc, app_nil_r. repeat split.
Qed.

Lemma submit_without_gradable_answers_witness :
  exists r db',
    submit_assessment 10 [mkAnswerSubmission 7 (Some "x") None] 1 60000000
                      (sample_db "in_progress")
    = (inr r, db')
    /\ answers db' = [] /\ resp_score r = 0%Q
    /\ Assessment.questions_answered (resp_assessment r) = 1%Z.
Proof.
  destruct (submit_without_gradable_answers 10 [mkAnswerSubmission 7 (Some "x") None]
              1 60000000 (sample_db "in_progress") 0%nat sample_user 0%nat
              (sample_assessment "in_progress") eq_refl eq_refl eq_refl)
    as (r & db' & Hrun & Hans & Hsc & _ & _ & _ & _ & Hn & _).
  - repeat constructor.
  - exists r, db'. auto.
Defined.

(** ** The assessment lifecycle, end to end *)

Lemma query_assessment_insert aid uid db i a a' rows :
  query_assessment aid uid db = Some (i, a) ->
  Assessment.id a' = aid -> Assessment.user_id a' = uid ->
  list_find (fun a => Assessment.id a = aid /\ Assessment.user_id a = uid)
            (<[i := a']> (assessments db)) = rows ->
  rows = Some (i, a').
Proof.
  unfold query_assessment. intros Hq Hid Hu <-.
  now apply (list_find_insert_same
               (fun a => Assessment.id a = aid /\ Assessment.user_id a = uid))
    with (x := a).
Qed.

Lemma query_assessment_key aid uid db i a :
  query_assessment aid uid db = Some (i, a) ->
  Assessment.id a = aid /\ Assessment.user_id a = uid.
Proof.
  unfold query_assessment. intros H. now apply list_find_Some in H as (_ & ? & _).
Qed.

Lemma start_assessment_run aid uid now db i a :
  query_assessment aid uid db = Some (i, a) ->
  Assessment.status a = "not_started" ->
  start_assessment aid uid now db
  = (inr (started now a),
     with_assessments (<[i := started now a]> (assessments db)) db).
Proof.
  intros Hq Hs. unfold start_assessment, bind, get, raise_if, ret, modify.
  rewrite Hq, Hs. reflexivity.
Qed.

(** X4. Started at [t1] and submitted at [t2], a not-started assessment ends
    completed with [time_taken_minutes = (t2 - t1) / 60] (in minutes); it
    cannot be started again once started, and once submitted it can be
    neither submitted nor started again: each such call raises the 400
    error and changes nothing. *)
Theorem assessment_lifecycle aid sub sub' uid t1 t1' t2 t3 db ui user i a :
  list_find (fun u => User.id u = uid) (users db) = Some (ui, user) ->
  query_assessment aid uid db = Some (i, a) ->
  Assessment.status a = "not_started" ->
  exists a1 db1 r db2,
    start_assessment aid uid t1 db = (inr a1, db1)
    /\ Assessment.status a1 = "in_progress"
    /\ Assessment.start_time a1 = Some t1
    /\ start_assessment aid uid t1' db1
       = (inl (HTTPException HTTP_400_BAD_REQUEST
                 "Assessment has already been started"), db1)
    /\ submit_assessment aid sub uid t2 db1 = (inr r, db2)
    /\ Assessment.status (resp_assessment r) = "completed"
    /\ Assessment.end_time (resp_assessment r) = Some t2
    /\ Assessment.time_taken_minutes (resp_assessment r)
       = Some (inject_Z (t2 - t1) / 1000000 / 60)%Q
    /\ submit_assessment aid sub' uid t3 db2
       = (inl (HTTPException HTTP_400_BAD_REQUEST
                 "Assessment is not in progress"), db2)
    /\ start_assessment aid uid t3 db2
       = (inl (HTTPException HTTP_400_BAD_REQUEST
                 "Assessment has already been started"), db2).
Proof.
  intros Hu Hq Hs.
  destruct (query_assessment_key _ _ _ _ _ Hq) as [Hid Huid].
  set (a1 := started t1 a).
  set (db1 := with_assessments (<[i := a1]> (assessments db)) db).
  assert (Hq1 : query_assessment aid uid db1 = Some (i, a1))
    by (eapply query_assessment_insert; eauto).
  assert (Hu1 : list_find (fun u => User.id u = uid) (users db1) = Some (ui, user))
    by exact Hu.
  pose proof (submit_assessment_run aid sub uid t2 db1 ui user i a1 Hu1 Hq1 eq_refl)
    as Hrun.
  cbv zeta in Hrun.
  match type of Hrun with _ = (inr ?r0, ?d0) => set (r := r0) in *; set (db2 := d0) in * end.
  assert (Hq2 : query_assessment aid uid db2 = Some (i, resp_assessment r)).
  { unfold db2. eapply (query_assessment_insert aid uid db1 i a1); eauto. }
  assert (Hu2 : list_find (fun u => User.id u = uid) (users db2)
                = Some (ui, with_assessment_stats
                              (User.total_assessments_completed user + 1)
                              (average_after user (resp_score r)) user)).
  { unfold db2. simpl.
    apply (list_find_insert_same (fun u => User.id u = uid)) with (x := user);
      [exact Hu|].
    simpl. now apply list_find_Some in Hu as (_ & ? & _). }
  exists a1, db1, r, db2.
  split; [now apply start_assessment_run|].
  split; [reflexivity|]. split; [reflexivity|].
  split; [apply (start_assessment_rejects _ _ _ _ i a1 Hq1); discriminate|].
  split; [exact Hrun|].
  split; [reflexivity|]. split; [reflexivity|]. split; [reflexivity|].
  split.
  - apply (submit_assessment_rejects _ _ _ _ _ _ i (resp_assessment r) Hu2 Hq2).
    discriminate.
  - apply (start_assessment_rejects _ _ _ _ i (resp_assessment r) Hq2).
    discriminate.
Qed.

Lemma assessment_lifecycle_witness :
  exists a1 db1 r db2,
    start_assessment 10 1 1000000 (sample_db "not_started") = (inr a1, db1)
    /\ submit_assessment 10 sample_submission 1 121000000 db1 = (inr r, db2)
    /\ Assessment.time_taken_minutes (resp_assessment r)
       = Some (inject_Z (121000000 - 1000000) / 1000000 / 60)%Q
    /\ submit_assessment 10 sample_submission 1 130000000 db2
       = (inl (HTTPException HTTP_400_BAD_REQUEST
                 "Assessment is not in progress"), db2).
Proof.
  destruct (assessment_lifecycle 10 sample_submission sample_submission 1
              1000000 2000000 121000000 130000000 (sample_db "not_started")
              0%nat sample_user 0%nat (sample_assessment "not_started")
              eq_refl eq_refl eq_refl)
    as (a1 & db1 & r & db2 & H1 & _ & _ & _ & H2 & _ & _ & H3 & H4 & _).
  exists a1, db1, r, db2. auto.
Defined.

(** ** Results of an assessment *)

Lemma answer_dict_fold (rows : list Answer.t) (d : gmap Z Answer.t) (k : Z) :
  foldl (fun d a => <[Answer.question_id a := a]> d) d rows !! k
  = match last (filter (fun a => Answer.question_id a = k) rows) with
    | Some a => Some a
    | None => d !! k
    end.
Proof.
  revert d; induction rows as [|a rows IH] using rev_ind; intros d; [reflexivity|].
  rewrite foldl_app, filter_app. simpl.
  rewrite filter_cons, filter_nil.
  destruct (decide (Answer.question_id a = k)) as [E|E].
  - rewrite last_snoc, <- E. apply lookup_insert_eq.
  - rewrite app_nil_r, lookup_insert_ne by exact E. apply IH.
Qed.

Lemma answer_dict_lookup rows k :
  answer_dict_of rows !! k = last (filter (fun a => Answer.question_id a = k) rows).
Proof.
  unfold answer_dict_of. rewrite answer_dict_fold.
  destruct (last _); [reflexivity | apply lookup_empty].
Qed.

Lemma graded_rows_assessment aid uid sub db :
  filter (fun a => Answer.assessment_id a = aid) (graded_rows aid uid sub db)
  = graded_rows aid uid sub db.
Proof.
  induction sub as [|x sub IH]; [reflexivity|].
  rewrite graded_rows_cons.
  destruct (question_for aid (sub_question_id x) db) as [q|]; [|exact IH].
  rewrite filter_cons. simpl. rewrite decide_True by reflexivity. now rewrite IH.
Qed.

Lemma graded_rows_no_answer aid uid sub db k :
  (forall x, x ∈ sub -> sub_question_id x <> k) ->
  filter (fun a => Answer.question_id a = k) (graded_rows aid uid sub db) = [].
Proof.
  intros H. induction sub as [|x sub IH]; [reflexivity|].
  rewrite graded_rows_cons.
  assert (IH' : filter (fun a => Answer.question_id a = k)
                       (graded_rows aid uid sub db) = [])
    by (apply IH; intros y Hy; apply H; now apply list_elem_of_further).
  destruct (question_for aid (sub_question_id x) db) as [q|]; [|exact IH'].
  rewrite filter_cons. simpl.
  rewrite decide_False; [exact IH'|]. apply H, list_elem_of_here.
Qed.

(** X5. Results are refused with the 400 error while the assessment is not
    completed and are served right after a submission: the summary repeats
    the stored score and counters, there is one entry per question of the
    assessment, in order, and a question nobody answered is reported as
    not correct with 0 points and no answer. *)
Theorem results_follow_submission aid sub uid now db ui user i a :
  list_find (fun u => User.id u = uid) (users db) = Some (ui, user) ->
  query_assessment aid uid db = Some (i, a) ->
  Assessment.status a = "in_progress" ->
  Assessment.is_completed a = false ->
  query_answers aid db = [] ->
  get_assessment_results aid uid db
  = (inl (HTTPException HTTP_400_BAD_REQUEST "Assessment is not completed yet"), db)
  /\ exists r db' res,
       submit_assessment aid sub uid now db = (inr r, db')
       /\ get_assessment_results aid uid db' = (inr res, db')
       /\ res_assessment res = resp_assessment r
       /\ res_score_percentage res = Some (resp_score r)
       /\ res_correct_answers res = resp_correct_answers r
       /\ res_questions_answered res = len sub
       /\ map qr_question_id (res_question_results res)
          = map Question.id (query_questions aid db)
       /\ (forall q, q ∈ query_questions aid db ->
             (forall x, x ∈ sub -> sub_question_id x <> Question.id q) ->
             mkQuestionResult (Question.id q) (Question.correct_answer q) None
                              (Some false) 0%Q (Question.points_possible q)
             ∈ res_question_results res).
Proof.
  intros Hu Hq Hs Hc Hans. split.
  { unfold get_assessment_results, bind, get, raise_if, raise.
    rewrite Hq, Hc. reflexivity. }
  destruct (query_assessment_key _ _ _ _ _ Hq) as [Hid Huid].
  pose proof (submit_assessment_run aid sub uid now db ui user i a Hu Hq Hs) as Hrun.
  cbv zeta in Hrun.
  destruct (submit_tally_rows aid uid sub db) as (Hadd & _).
  match type of Hrun with _ = (inr ?r0, ?d0) => set (r := r0) in *; set (db' := d0) in * end.
  assert (Hq' : query_assessment aid uid db' = Some (i, resp_assessment r))
    by (unfold db'; eapply (query_assessment_insert aid uid db i a); eauto).
  assert (Hrows : query_answers aid db' = graded_rows aid uid sub db).
  { unfold query_answers, db'. simpl. rewrite filter_app.
    fold (query_answers aid db). rewrite Hans, Hadd. simpl.
    apply graded_rows_assessment. }
  exists r, db'. eexists. split; [exact Hrun|].
  split.
  { unfold get_assessment_results, bind, get, raise_if, ret.
    rewrite Hq'. simpl. reflexivity. }
  simpl. split; [reflexivity|]. split; [reflexivity|]. split; [reflexivity|].
  split; [reflexivity|]. split.
  { rewrite map_map. reflexivity. }
  intros q Hin Hno.
  apply list_elem_of_fmap. exists q. split; [|exact Hin].
  unfold question_result.
  change (query_answers aid db') with (query_answers aid db') in *.
  rewrite answer_dict_lookup, Hrows, (graded_rows_no_answer _ _ _ _ _ Hno).
  reflexivity.
Qed.

Lemma results_follow_submission_witness :
  get_assessment_results 10 1 (sample_db "in_progress")
  = (inl (HTTPException HTTP_400_BAD_REQUEST "Assessment is not completed yet"),
     sample_db "in_progress")
  /\ exists r db' res,
       submit_assessment 10 [mkAnswerSubmission 100 (Some "paris") None] 1 60000000
                         (sample_db "in_progress") = (inr r, db')
       /\ get_assessment_results 10 1 db' = (inr res, db')
       /\ mkQuestionResult 101 "4" None (Some false) 0%Q 1%Q
          ∈ res_question_results res.
Proof.
  destruct (results_follow_submission 10 [mkAnswerSubmission 100 (Some "paris") None]
              1 60000000 (sample_db "in_progress") 0%nat sample_user 0%nat
              (sample_assessment "in_progress") eq_refl eq_refl eq_refl eq_refl eq_refl)
    as (H400 & r & db' & res & Hrun & Hres & _ & _ & _ & _ & _ & Hun).
  split; [exact H400|].
  exists r, db', res. split; [exact Hrun|]. split; [exact Hres|].
  apply (Hun (Question.mk 101 10 "4" 1%Q)).
  - apply list_elem_of_further, list_elem_of_here.
  - intros x Hx. apply list_elem_of_singleton in Hx. subst x. discriminate.
Defined.

(** ** The trend of steadily growing scores *)

Lemma combine_with_map {A B} (f : A -> B) (l : list A) :
  combine l (map f l) = map (fun x => (x, f x)) l.
Proof. induction l as [|x l IH]; simpl; [reflexivity | now rewrite IH]. Qed.

Lemma sum_x_succ n : sum_x (S n) = (sum_x n + Z.of_nat n)%Z.
Proof. unfold sum_x. rewrite seq_S, map_app, totalZ_app. simpl. lia. Qed.

Lemma sum_xx_succ n : sum_xx (S n) = (sum_xx n + Z.of_nat n * Z.of_nat n)%Z.
Proof. unfold sum_xx. rewrite seq_S, map_app, totalZ_app. simpl. lia. Qed.

Lemma total_linear a d n :
  (total (linear_scores a d n)
   == inject_Z (Z.of_nat n) * a + d * inject_Z (sum_x n))%Q.
Proof.
  unfold linear_scores. induction n as [|n IH].
  - simpl. change (sum_x 0) with 0%Z. change (inject_Z 0) with 0%Q. ring.
  - rewrite seq_S, map_app. cbn [map]. rewrite total_snoc, IH, sum_x_succ.
    rewrite Nat2Z.inj_succ. unfold Z.succ. rewrite !inject_Z_plus. simpl Nat.add.
    change (inject_Z 1) with 1%Q. ring.
Qed.

Lemma sum_xy_linear a d n :
  (sum_xy (linear_scores a d n)
   == a * inject_Z (sum_x n) + d * inject_Z (sum_xx n))%Q.
Proof.
  unfold sum_xy, linear_scores. rewrite length_map, length_seq.
  rewrite combine_with_map, map_map. simpl.
  induction n as [|n IH].
  - simpl. change (sum_x 0) with 0%Z. change (sum_xx 0) with 0%Z.
    change (inject_Z 0) with 0%Q. ring.
  - rewrite seq_S, map_app. cbn [map]. rewrite total_snoc, IH, sum_x_succ, sum_xx_succ.
    rewrite !inject_Z_plus, inject_Z_mult. simpl Nat.add. simpl fst. simpl snd. ring.
Qed.

(** X6. Scores that grow by [d] per assessment have improvement trend [d]
    (so constant scores have trend 0), whatever the first score. *)
Theorem trend_of_linear_scores (a d : Q) (n : nat) (db : Db) :
  (2 <= n)%nat ->
  exists r, improvement_trend_of (linear_scores a d n) db = (inr r, db)
            /\ (r == d)%Q.
Proof.
  intros Hn.
  assert (Hlen : length (linear_scores a d n) = n)
    by (unfold linear_scores; now rewrite length_map, length_seq).
  destruct (improvement_trend_of_run (linear_scores a d n) db) as [_ H].
  destruct H as (Hpos & _ & r & Hr & Heq); [unfold len; lia|].
  exists r. split; [exact Hr|]. rewrite Heq.
  unfold least_squares_slope. rewrite Hlen in *.
  rewrite sum_xy_linear, total_linear.
  assert (Hden : (inject_Z (slope_denominator n)
                  == inject_Z (Z.of_nat n) * inject_Z (sum_xx n)
                     - inject_Z (sum_x n) * inject_Z (sum_x n))%Q).
  { unfold slope_denominator. unfold Z.sub.
    rewrite inject_Z_plus, inject_Z_opp, !inject_Z_mult. ring. }
  assert (Hnz : ~ (inject_Z (slope_denominator n) == 0)%Q)
    by (apply inject_Z_nonzero; lia).
  rewrite Hden in Hnz |- *. field. exact Hnz.
Qed.

Lemma trend_of_linear_scores_witness :
  exists r, improvement_trend_of (linear_scores 40 (5 # 2) 4) empty_db
            = (inr r, empty_db)
            /\ (r == 5 # 2)%Q.
Proof. apply (trend_of_linear_scores 40 (5 # 2) 4 empty_db). lia. Defined.

(** ** Performance analytics: count and average *)

Lemma query_performance_window uid subject days now db :
  query_performance uid subject days now db
  = time_ordered (of_subject subject
                    (completed_in_window uid days now (assessments db))).
Proof.
  unfold query_performance, time_ordered, timedelta_days. f_equal.
  assert (Hw : filter (fun a => Assessment.user_id a = uid
                                /\ Assessment.is_completed a = true
                                /\ (now - days * 86400000000
                                    <= Assessment.created_at a)%Z)
                      (assessments db)
               = completed_in_window uid days now (assessments db)).
  { induction (assessments db) as [|a rows IH]; [reflexivity|].
    rewrite filter_cons, IH. simpl.
    replace (24 * 60 * 60 * 1000000)%Z with 86400000000%Z by reflexivity.
    destruct (Z.eqb_spec (Assessment.user_id a) uid) as [Eu|Eu];
      destruct (Assessment.is_completed a) eqn:Ec;
      destruct (Z.leb_spec (now - days * 86400000000) (Assessment.created_at a))
        as [Et|Et]; simpl;
      try (rewrite decide_True by (repeat split; assumption); reflexivity);
      rewrite decide_False; try reflexivity;
      intros (H1 & H2 & H3); try congruence; lia. }
  rewrite Hw. clear Hw.
  generalize (completed_in_window uid days now (assessments db)). intros rows.
  destruct subject as [[|c t]|]; try reflexivity.
  simpl. induction rows as [|a rows IH]; [reflexivity|].
  rewrite filter_cons, IH. simpl.
  destruct (String.eqb_spec (Assessment.subject a) (String c t)) as [E|E].
  - rewrite decide_True by (now rewrite E). reflexivity.
  - rewrite decide_False; [reflexivity|]. intros H. apply E. congruence.
Qed.

(** X7. With no completed assessment of the user (and of the subject asked
    for) created in the last [days] days the performance analytics return
    0 for the count, the average and the trend, without raising;
    otherwise the count is the number of those assessments and the
    average is the arithmetic mean of their scores. *)
Theorem performance_average_is_mean uid subject days now db :
  let rows :=
    time_ordered (of_subject subject
                    (completed_in_window uid days now (assessments db))) in
  (rows = [] ->
     get_assessment_analytics uid subject days now db
     = (inr (mkPerformanceAnalytics 0 0%Q 0%Q), db))
  /\ (forall scores,
        scored rows scores ->
        scores <> [] ->
        exists pa,
          get_assessment_analytics uid subject days now db = (inr pa, db)
          /\ pa_total_assessments pa = len scores
          /\ (pa_average_score pa == mean scores)%Q).
Proof.
  intros rows. subst rows. rewrite <- query_performance_window.
  split.
  - intros Hnil. unfold get_assessment_analytics, bind, get. now rewrite Hnil.
  - intros scores H Hne. pose proof (scored_length _ _ H) as Hlen.
    unfold get_assessment_analytics. unfold bind at 1, get at 1.
    destruct (query_performance uid subject days now db) as [|a rows] eqn:Hrows.
    { destruct scores; [congruence | discriminate]. }
    rewrite (bind_ok _ _ _ _ _ (scored_sum _ _ _ H)).
    rewrite (bind_ok _ _ _ _ _
               (truediv_ok _ _ _ (len_nonzero (a :: rows) ltac:(discriminate)))).
    rewrite (bind_ok _ _ _ _ _ (scores_of_scored _ _ _ H)).
    destruct (improvement_trend_of_run scores db) as [H1 H2].
    assert (Ht : exists t, improvement_trend_of scores db = (inr t, db)).
    { destruct (Z.leb_spec (len scores) 1) as [Hn|Hn]; [eauto|].
      destruct H2 as (_ & _ & t & Ht & _); [lia | eauto]. }
    destruct Ht as [t Ht]. rewrite (bind_ok _ _ _ _ _ Ht).
    eexists. split; [reflexivity|]. simpl.
    split; [unfold len; now rewrite Hlen|].
    unfold mean, len. rewrite Hlen. now rewrite sum_total.
Qed.

Lemma performance_average_is_mean_witness :
  get_assessment_analytics 1 None 30 day_40 outside_db
  = (inr (mkPerformanceAnalytics 0 0%Q 0%Q), outside_db)
  /\ (exists pa, get_assessment_analytics 1 None 30 day_40 window_db
                 = (inr pa, window_db)
                 /\ pa_total_assessments pa = 2
                 /\ (pa_average_score pa == 75)%Q)
  /\ (exists pa, get_assessment_analytics 1 (Some "math") 30 day_40 window_db
                 = (inr pa, window_db)
                 /\ pa_total_assessments pa = 2)
  /\ get_assessment_analytics 1 (Some "physics") 30 day_40 window_db
     = (inr (mkPerformanceAnalytics 0 0%Q 0%Q), window_db).
Proof.
  split; [|split; [|split]].
  - apply (performance_average_is_mean 1 None 30 day_40 outside_db).
    reflexivity.
  - destruct (performance_average_is_mean 1 None 30 day_40 window_db) as [_ H].
    destruct (H [60%Q; 90%Q]) as (pa & Hrun & Hn & Ha);
      [reflexivity | discriminate |].
    exists pa. split; [exact Hrun|]. split; [exact Hn|]. rewrite Ha. reflexivity.
  - destruct (performance_average_is_mean 1 (Some "math") 30 day_40 window_db)
      as [_ H].
    destruct (H [60%Q; 90%Q]) as (pa & Hrun & Hn & _);
      [reflexivity | discriminate |].
    exists pa. split; [exact Hrun | exact Hn].
  - apply (performance_average_is_mean 1 (Some "physics") 30 day_40 window_db).
    reflexivity.
Defined.

(** ** Overview: the sign of the improvement rate *)

Lemma improvement_value_positive_first scores :
  (2 <= len scores)%Z ->
  let h := Z.to_nat (len scores / 2) in
  (0 < mean (take h scores))%Q ->
  (improvement_value scores
   == (mean (drop h scores) - mean (take h scores)) / mean (take h scores) * 100)%Q.
Proof.
  intros Hn h Hpos. unfold improvement_value. fold h.
  destruct (Z.leb_spec 2 (len scores)); [|lia]. cbv zeta.
  assert (Hf : (sum (take h scores) / inject_Z (len (take h scores))
                == mean (take h scores))%Q)
    by (unfold mean; now rewrite sum_total).
  assert (Hg : (sum (drop h scores) / inject_Z (len (drop h scores))
                == mean (drop h scores))%Q)
    by (unfold mean; now rewrite sum_total).
  destruct (Qgtb _ 0) eqn:E.
  - now rewrite Hf, Hg.
  - exfalso. rewrite <- Hf in Hpos. apply Qgtb_true in Hpos. congruence.
Qed.

(** X8. For non-negative scores whose first half has a positive mean, the
    improvement rate is positive exactly when the second half's mean is
    larger, 0 exactly when the two means are equal, and never below -100. *)
Theorem improvement_rate_sign uid days now db scores :
  scored (completed_assessments_since uid (now - timedelta_days days) db) scores ->
  Forall (fun x => (0 <= x)%Q) scores ->
  (2 <= len scores)%Z ->
  let h := Z.to_nat (len scores / 2) in
  (0 < mean (take h scores))%Q ->
  exists ov,
    get_analytics_overview uid days now db = (inr ov, db)
    /\ ((0 < ov_improvement_rate ov)%Q
        <-> (mean (take h scores) < mean (drop h scores))%Q)
    /\ ((ov_improvement_rate ov == 0)%Q
        <-> (mean (drop h scores) == mean (take h scores))%Q)
    /\ (-100 <= ov_improvement_rate ov)%Q.
Proof.
  intros Hs Hnn Hn h Hpos.
  destruct (get_analytics_overview_run uid days now db scores Hs)
    as (ov & Hrun & _ & _ & Hi).
  exists ov. split; [exact Hrun|]. rewrite Hi.
  rewrite (improvement_value_positive_first scores Hn Hpos). fold h.
  assert (Hg : (0 <= mean (drop h scores))%Q)
    by (apply mean_nonneg, Forall_drop, Hnn).
  set (f := mean (take h scores)) in *. set (g := mean (drop h scores)) in *.
  assert (Hk : (0 < 100 / f)%Q) by (apply Qlt_shift_div_l; [exact Hpos | reflexivity]).
  assert (Hfn : ~ (f == 0)%Q) by (intros E; rewrite E in Hpos; discriminate Hpos).
  assert (Hr : ((g - f) / f * 100 == (g - f) * (100 / f))%Q) by (field; exact Hfn).
  rewrite Hr. set (k := (100 / f)%Q) in *.
  assert (Hkf : (k * f == 100)%Q) by (unfold k; field; exact Hfn).
  split; [|split].
  - split; intros H; nra.
  - split; intros H; nra.
  - nra.
Qed.

Lemma improvement_rate_sign_witness :
  exists ov,
    get_analytics_overview 1 30 1000 sample_scores_db = (inr ov, sample_scores_db)
    /\ (0 < ov_improvement_rate ov)%Q
    /\ (-100 <= ov_improvement_rate ov)%Q.
Proof.
  destruct (improvement_rate_sign 1 30 1000 sample_scores_db [60%Q; 90%Q])
    as (ov & Hrun & Hpos & _ & Hlow).
  - reflexivity.
  - repeat constructor; discriminate.
  - unfold len; simpl; lia.
  - reflexivity.
  - exists ov. split; [exact Hrun|]. split; [|exact Hlow].
    apply Hpos. reflexivity.
Defined.

(** ** Overview: sessions, subjects and study time *)

Lemma size_list_to_set_le (l : list string) :
  (size (list_to_set l : gset string) <= length l)%nat.
Proof.
  induction l as [|x l IH]; [reflexivity|].
  rewrite list_to_set_cons, size_union_alt, size_singleton. simpl.
  assert (Hle : (size (list_to_set l ∖ {[x]} : gset string)
                 <= size (list_to_set l : gset string))%nat)
    by (apply subseteq_size, subseteq_difference_l; reflexivity).
  lia.
Qed.

Lemma totalZ_nonneg l : Forall (fun x => (0 <= x)%Z) l -> (0 <= totalZ l)%Z.
Proof. induction 1; simpl; lia. Qed.

(** X9. The overview counts the user's sessions of the window, never reports
    more distinct subjects than sessions, and adds up their durations with
    a missing duration counted as 0 (so the total is not negative when no
    stored duration is). *)
Theorem overview_session_counts uid days now db scores :
  scored (completed_assessments_since uid (now - timedelta_days days) db) scores ->
  let sessions := sessions_since uid (now - timedelta_days days) db in
  exists ov,
    get_analytics_overview uid days now db = (inr ov, db)
    /\ ov_total_sessions ov = len sessions
    /\ (0 <= ov_subjects_studied ov <= ov_total_sessions ov)%Z
    /\ (sessions <> [] -> (1 <= ov_subjects_studied ov)%Z)
    /\ ov_total_study_time_minutes ov
       = totalZ (map (fun s => default 0%Z (LearningSession.duration_minutes s))
                     sessions)
    /\ (Forall (fun s => forall d, LearningSession.duration_minutes s = Some d ->
                                   (0 <= d)%Z) sessions ->
        (0 <= ov_total_study_time_minutes ov)%Z).
Proof.
  intros H sessions. unfold get_analytics_overview.
  unfold bind at 1, get at 1.
  fold (sessions_since uid (now - timedelta_days days) db). fold sessions.
  rewrite (bind_ok _ _ _ _ _ (average_score_of_scored _ _ _ H)).
  rewrite (bind_ok _ _ _ _ _ (improvement_rate_of_scored _ _ _ H)).
  eexists. split; [reflexivity|]. simpl.
  split; [reflexivity|]. split.
  { split; [lia|]. unfold len. apply Nat2Z.inj_le.
    etransitivity; [apply size_list_to_set_le|]. now rewrite length_map. }
  split.
  { intros Hne. destruct sessions as [|s rest]; [congruence|]. simpl.
    rewrite size_union_alt, size_singleton. lia. }
  split; [apply sumZ_totalZ|].
  intros Hd. rewrite sumZ_totalZ. apply totalZ_nonneg.
  apply Forall_forall. intros x Hx. apply list_elem_of_fmap in Hx as (s & -> & Hs).
  rewrite Forall_forall in Hd. specialize (Hd s Hs).
  destruct (LearningSession.duration_minutes s); simpl; [now apply Hd | lia].
Qed.

Lemma overview_session_counts_witness :
  exists ov,
    get_analytics_overview 1 30 1000 sample_sessions_db = (inr ov, sample_sessions_db)
    /\ ov_total_sessions ov = 3%Z
    /\ (0 <= ov_subjects_studied ov <= 3)%Z
    /\ ov_total_study_time_minutes ov = 65%Z.
Proof.
  destruct (overview_session_counts 1 30 1000 sample_sessions_db [60%Q; 90%Q])
    as (ov & Hrun & Hn & Hsub & _ & Ht & _).
  - reflexivity.
  - exists ov. split; [exact Hrun|]. split; [rewrite Hn; reflexivity|].
    split; [rewrite Hn in Hsub; exact Hsub | rewrite Ht; reflexivity].
Defined.

(** ** Performance trends: direction and percentage *)

Lemma values_of_present {S} (values : list Q) (s : S) :
  values_of (map Some values) s = (inr values, s).
Proof.
  induction values as [|x values IH]; [reflexivity|].
  simpl. now rewrite (bind_ok _ _ _ _ _ IH).
Qed.

Lemma float_sum_present {S} fp (values : list Q) (s : S) :
  float_sum fp (map Some values) s = (inr (fl_sum fp values), s).
Proof.
  unfold float_sum. now rewrite (bind_ok _ _ _ _ _ (values_of_present values s)).
Qed.

Lemma float_div_ok {S} fp (a b : Q) (s : S) :
  ~ (b == 0)%Q -> float_div fp a b s = (inr (fl_div fp a b), s).
Proof.
  intros Hb; unfold float_div.
  destruct (Qeq_bool b 0) eqn:E; [apply Qeq_bool_eq in E; contradiction | reflexivity].
Qed.

(** X10. The trend summary is "stable" exactly for fewer than 2 values.  For 2
    or more present values it never raises, however the float operations
    round: the direction is "improving" when the second half's computed
    average exceeds the first half's and "declining" in every other case,
    equal computed averages included; the percentage is computed as
    [(second - first) / first * 100] for a positive first average and is 0
    otherwise. *)
Theorem trend_statistics_direction (fp : FloatArith) (values : list Q) (db : Db) :
  ((len values < 2)%Z ->
     trend_statistics fp (map Some values) db = (inr ("stable", 0%Q), db))
  /\ ((2 <= len values)%Z ->
        let h := Z.to_nat (len values / 2) in
        let first :=
          fl_div fp (fl_sum fp (take h values)) (inject_Z (len values / 2)) in
        let second :=
          fl_div fp (fl_sum fp (drop h values))
                 (inject_Z (len values - len values / 2)) in
        exists direction percentage,
          trend_statistics fp (map Some values) db = (inr (direction, percentage), db)
          /\ direction <> "stable"
          /\ (direction = "improving" <-> (first < second)%Q)
          /\ (direction = "declining" <-> (second <= first)%Q)
          /\ ((0 < first)%Q ->
              percentage = fl_mul fp (fl_div fp (fl_sub fp second first) first) 100)
          /\ ((first <= 0)%Q -> percentage = 0%Q)).
Proof.
  assert (Hlen : len (map Some values) = len values)
    by (unfold len; now rewrite length_map).
  unfold trend_statistics. rewrite Hlen. split; intros Hn.
  - destruct (Z.leb_spec 2 (len values)); [lia | reflexivity].
  - destruct (Z.leb_spec 2 (len values)); [|lia].
    destruct (half_bounds _ Hn) as [Hh1 Hh2].
    cbv zeta. set (h := Z.to_nat (len values / 2)).
    rewrite firstn_map, skipn_map.
    rewrite (bind_ok _ _ _ _ _ (float_sum_present fp (take h values) db)).
    assert (Hnz1 : ~ (inject_Z (len values / 2) == 0)%Q)
      by (apply inject_Z_nonzero; lia).
    assert (Hnz2 : ~ (inject_Z (len values - len values / 2) == 0)%Q)
      by (apply inject_Z_nonzero; lia).
    rewrite (bind_ok _ _ _ _ _ (float_div_ok fp _ _ _ Hnz1)).
    rewrite (bind_ok _ _ _ _ _ (float_sum_present fp (drop h values) db)).
    rewrite (bind_ok _ _ _ _ _ (float_div_ok fp _ _ _ Hnz2)).
    set (first := fl_div fp (fl_sum fp (take h values)) (inject_Z (len values / 2))).
    set (second := fl_div fp (fl_sum fp (drop h values))
                          (inject_Z (len values - len values / 2))).
    assert (Hperc : exists p,
              (if Qgtb first 0
               then bind (float_div fp (fl_sub fp second first) first)
                         (fun r => ret (fl_mul fp r 100))
               else ret 0%Q) db = (inr p, db)
              /\ ((0 < first)%Q ->
                  p = fl_mul fp (fl_div fp (fl_sub fp second first) first) 100)
              /\ ((first <= 0)%Q -> p = 0%Q)).
    { destruct (Qgtb first 0) eqn:E.
      - apply Qgtb_true in E.
        assert (Hnz : ~ (first == 0)%Q)
          by (intros H0; rewrite H0 in E; exact (Qlt_irrefl _ E)).
        rewrite (bind_ok _ _ _ _ _ (float_div_ok fp _ _ _ Hnz)).
        eexists. split; [reflexivity|]. split; [reflexivity|].
        intros Hle. exfalso. exact (Qlt_not_le _ _ E Hle).
      - eexists. split; [reflexivity|]. split; [|reflexivity].
        intros Hpos. apply Qgtb_true in Hpos. congruence. }
    destruct Hperc as (p & Hp & Hp1 & Hp0).
    rewrite (bind_ok _ _ _ _ _ Hp).
    eexists _, p. split; [reflexivity|].
    destruct (Qgtb second first) eqn:E.
    + apply Qgtb_true in E. split; [discriminate|]. split; [tauto|].
      split; [|split; [exact Hp1 | exact Hp0]].
      split; [discriminate|]. intros Hle. exfalso. exact (Qlt_not_le _ _ E Hle).
    + assert (Hle : (second <= first)%Q).
      { apply Qnot_lt_le. intros Hlt. apply Qgtb_true in Hlt. congruence. }
      split; [discriminate|]. split.
      * split; [discriminate|]. intros Hlt. exfalso. exact (Qlt_not_le _ _ Hlt Hle).
      * split; [tauto|]. split; [exact Hp1 | exact Hp0].
Qed.

Lemma trend_statistics_direction_witness :
  trend_statistics exact_arith [Some 70%Q] empty_db
  = (inr ("stable", 0%Q), empty_db)
  /\ (exists percentage,
        trend_statistics exact_arith [Some 80%Q; Some 80%Q] empty_db
        = (inr ("declining", percentage), empty_db))
  /\ (exists percentage,
        trend_statistics exact_arith [Some 40%Q; Some 80%Q] empty_db
        = (inr ("improving", percentage), empty_db)).
Proof.
  split; [|split].
  - apply (trend_statistics_direction exact_arith [70%Q] empty_db).
    unfold len; simpl; lia.
  - destruct (trend_statistics_direction exact_arith [80%Q; 80%Q] empty_db) as [_ H].
    destruct H as (direction & percentage & Hrun & _ & _ & Hdec & _);
      [unfold len; simpl; lia|].
    exists percentage.
    assert (Hd : direction = "declining") by (apply Hdec; discriminate).
    now rewrite <- Hd.
  - destruct (trend_statistics_direction exact_arith [40%Q; 80%Q] empty_db) as [_ H].
    destruct H as (direction & percentage & Hrun & _ & Himp & _);
      [unfold len; simpl; lia|].
    exists percentage.
    assert (Hd : direction = "improving") by (apply Himp; reflexivity).
    now rewrite <- Hd.
Defined.

(** ** Learning patterns: the time of day *)

(** X11. Every hour of the day falls in a period, so the default is never used:
    6-11 is Morning, 12-16 Afternoon, 17-21 Evening, 22-23 and 0-5 Night. *)
Theorem time_of_day_periods (hour : Z) :
  (0 <= hour < 24)%Z ->
  List.find (in_range hour) time_periods <> None
  /\ (most_productive_time_of hour = "Morning" <-> (6 <= hour < 12)%Z)
  /\ (most_productive_time_of hour = "Afternoon" <-> (12 <= hour < 17)%Z)
  /\ (most_productive_time_of hour = "Evening" <-> (17 <= hour < 22)%Z)
  /\ (most_productive_time_of hour = "Night" <-> (hour < 6 \/ 22 <= hour)%Z).
Proof.
  intros Hh.
  assert (Hc : hour = 0 \/ hour = 1 \/ hour = 2 \/ hour = 3 \/ hour = 4 \/ hour = 5
               \/ hour = 6 \/ hour = 7 \/ hour = 8 \/ hour = 9 \/ hour = 10
               \/ hour = 11 \/ hour = 12 \/ hour = 13 \/ hour = 14 \/ hour = 15
               \/ hour = 16 \/ hour = 17 \/ hour = 18 \/ hour = 19 \/ hour = 20
               \/ hour = 21 \/ hour = 22 \/ hour = 23) by lia.
  repeat (destruct Hc as [->|Hc]); try subst hour;
    (split; [discriminate|]); unfold most_productive_time_of; simpl;
    (split; [|split; [|split]]);
    (split; intros Hx; [first [discriminate Hx | lia] | first [reflexivity | lia]]).
Qed.

Lemma time_of_day_periods_witness :
  most_productive_time_of 23 = "Night" /\ most_productive_time_of 6 = "Morning".
Proof.
  split.
  - apply (time_of_day_periods 23); lia.
  - apply (time_of_day_periods 6); lia.
Defined.

(** ** Completing a learning session: once, again, or a very short one *)

Lemma complete_learning_session_run sid uid now db ui user i s :
  list_find (fun u => User.id u = uid) (users db) = Some (ui, user) ->
  query_session sid uid db = Some (i, s) ->
  complete_learning_session sid uid now db
  = (inr (completed_session now s),
     with_users (<[ui := credited_user (completed_session now s) user]> (users db))
       (with_learning_sessions
          (<[i := completed_session now s]> (learning_sessions db)) db)).
Proof.
  intros Hu Hs. unfold complete_learning_session.
  rewrite (bind_ok _ _ _ _ _ (get_current_user_ok _ _ _ Hu)).
  unfold bind at 1, get at 1. unfold query_session in Hs. rewrite Hs.
  reflexivity.
Qed.

Lemma credited_user_total session user :
  User.total_study_time_minutes (credited_user session user)
  = (User.total_study_time_minutes user
     + default 0%Z (LearningSession.duration_minutes session))%Z
  /\ User.id (credited_user session user) = User.id user.
Proof.
  unfold credited_user, truthy_int.
  destruct (LearningSession.duration_minutes session) as [d|]; simpl.
  - destruct (Z.eqb_spec d 0) as [->|_]; simpl; split; (lia || reflexivity).
  - split; (lia || reflexivity).
Qed.





(** X12. The completion handler has no guard on [is_completed]: completing the
    same session a second time stores the new, longer duration and adds it
    to the user's total on top of the first one. *)
Theorem complete_session_again_adds_again sid uid now1 now2 db ui user i s st :
  list_find (fun u => User.id u = uid) (users db) = Some (ui, user) ->
  query_session sid uid db = Some (i, s) ->
  LearningSession.start_time s = Some st ->
  exists s1 db1 s2 db2 user2,
    complete_learning_session sid uid now1 db = (inr s1, db1)
    /\ complete_learning_session sid uid now2 db1 = (inr s2, db2)
    /\ LearningSession.is_completed s1 = true
    /\ LearningSession.duration_minutes s2 = Some (whole_minutes st now2)
    /\ LearningSession.end_time s2 = Some now2
    /\ users db2 !! ui = Some user2
    /\ User.total_study_time_minutes user2
       = (User.total_study_time_minutes user
          + whole_minutes st now1 + whole_minutes st now2)%Z.
Proof.
  intros Hu Hs Hst.
  pose proof (complete_learning_session_run sid uid now1 db ui user i s Hu Hs) as H1.
  set (s1 := completed_session now1 s) in *.
  set (u1 := credited_user s1 user) in *.
  match type of H1 with _ = (_, ?d) => set (db1 := d) in * end.
  assert (Hkey : LearningSession.id s = sid /\ LearningSession.user_id s = uid)
    by (unfold query_session in Hs; now apply list_find_Some in Hs as (_ & ? & _)).
  assert (Hs1 : query_session sid uid db1 = Some (i, s1)).
  { unfold query_session, db1. simpl.
    apply (list_find_insert_same
             (fun s => LearningSession.id s = sid /\ LearningSession.user_id s = uid))
      with (x := s); [exact Hs | exact Hkey]. }
  assert (Hu1 : list_find (fun u => User.id u = uid) (users db1) = Some (ui, u1)).
  { unfold db1. simpl.
    apply (list_find_insert_same (fun u => User.id u = uid)) with (x := user);
      [exact Hu|].
    unfold u1. rewrite (proj2 (credited_user_total s1 user)).
    now apply list_find_Some in Hu as (_ & ? & _). }
  pose proof (complete_learning_session_run sid uid now2 db1 ui u1 i s1 Hu1 Hs1) as H2.
  match type of H2 with _ = (_, ?d) => set (db2 := d) in * end.
  exists s1, db1, (completed_session now2 s1), db2,
         (credited_user (completed_session now2 s1) u1).
  split; [exact H1|]. split; [exact H2|]. split; [reflexivity|].
  assert (Hd1 : LearningSession.duration_minutes s1 = Some (whole_minutes st now1))
    by (unfold s1, completed_session; rewrite Hst; reflexivity).
  assert (Hd2 : LearningSession.duration_minutes (completed_session now2 s1)
                = Some (whole_minutes st now2))
    by (unfold completed_session at 1; simpl; rewrite Hst; reflexivity).
  split; [exact Hd2|]. split; [reflexivity|]. split.
  - simpl. apply list_lookup_insert_eq. rewrite length_insert.
    apply list_find_lookup in Hu. now apply lookup_lt_Some in Hu.
  - rewrite (proj1 (credited_user_total _ u1)), Hd2. unfold u1.
    rewrite (proj1 (credited_user_total s1 user)), Hd1. reflexivity.
Qed.

Lemma complete_session_again_adds_again_witness :
  exists s1 db1 s2 db2 user2,
    complete_learning_session 30 1 (1000 + 45 * 60000000) sample_session_db
    = (inr s1, db1)
    /\ complete_learning_session 30 1 (1000 + 50 * 60000000) db1 = (inr s2, db2)
    /\ users db2 !! 0%nat = Some user2
    /\ User.total_study_time_minutes user2 = (120 + 45 + 50)%Z.
Proof.
  destruct (complete_session_again_adds_again 30 1 (1000 + 45 * 60000000)
              (1000 + 50 * 60000000) sample_session_db 0%nat sample_user
              0%nat sample_session 1000 eq_refl eq_refl eq_refl)
    as (s1 & db1 & s2 & db2 & user2 & H1 & H2 & _ & _ & _ & Hl & Ht).
  exists s1, db1, s2, db2, user2.
  split; [exact H1|]. split; [exact H2|]. split; [exact Hl|].
  rewrite Ht. reflexivity.
Defined.

(** X13. A session completed less than a minute after its start gets duration 0
    and adds nothing to the user's total; so does a session that has no
    start time and no stored duration. *)
Theorem complete_session_adds_nothing sid uid now db ui user i s :
  list_find (fun u => User.id u = uid) (users db) = Some (ui, user) ->
  query_session sid uid db = Some (i, s) ->
  (exists st, LearningSession.start_time s = Some st
              /\ (0 <= now - st < 60000000)%Z)
  \/ (LearningSession.start_time s = None
      /\ LearningSession.duration_minutes s = None) ->
  exists s' db',
    complete_learning_session sid uid now db = (inr s', db')
    /\ LearningSession.is_completed s' = true
    /\ LearningSession.end_time s' = Some now
    /\ (LearningSession.duration_minutes s' = Some 0%Z
        \/ LearningSession.duration_minutes s' = None)
    /\ users db' = users db.
Proof.
  intros Hu Hs Hcase.
  rewrite (complete_learning_session_run sid uid now db ui user i s Hu Hs).
  eexists _, _. split; [reflexivity|]. split; [reflexivity|]. split; [reflexivity|].
  assert (Hd : LearningSession.duration_minutes (completed_session now s) = Some 0%Z
               \/ LearningSession.duration_minutes (completed_session now s) = None).
  { unfold completed_session. simpl.
    destruct Hcase as [(st & -> & Hlt)|[-> ->]]; [left | now right].
    f_equal. unfold whole_minutes. apply Z.quot_small. lia. }
  split; [exact Hd|]. simpl.
  assert (Hc : credited_user (completed_session now s) user = user).
  { unfold credited_user. destruct Hd as [-> | ->]; reflexivity. }
  rewrite Hc. apply list_insert_id. now apply list_find_lookup in Hu.
Qed.

Lemma complete_session_adds_nothing_witness :
  exists s' db',
    complete_learning_session 30 1 (1000 + 59000000) sample_session_db = (inr s', db')
    /\ LearningSession.duration_minutes s' = Some 0%Z
    /\ users db' = users sample_session_db.
Proof.
  destruct (complete_session_adds_nothing 30 1 (1000 + 59000000) sample_session_db
              0%nat sample_user 0%nat sample_session eq_refl eq_refl)
    as (s' & db' & Hrun & _ & _ & Hd & Hu).
  - left. exists 1000%Z. split; [reflexivity | lia].
  - exists s', db'. split; [exact Hrun|]. split; [|exact Hu].
    assert (Hv : fst (complete_learning_session 30 1 (1000 + 59000000)
                        sample_session_db) = inr s') by now rewrite Hrun.
    vm_compute in Hv. injection Hv as <-. reflexivity.
Defined.

(** ** Rating: rejections and what a call leaves alone *)

Lemma rate_content_not_found cid rating uid now db :
  (1 <= rating <= 5)%Z ->
  query_content cid db = None ->
  rate_content cid rating uid now db
  = (inl (HTTPException HTTP_404_NOT_FOUND "Content not found"), db).
Proof.
  intros Hr Hc. unfold rate_content. rewrite (rating_in_range _ Hr).
  unfold raise_if. unfold bind at 1, ret at 1. unfold bind at 1, get at 1.
  now rewrite Hc.
Qed.

(** What a successful call has written. *)
Lemma rate_content_inv cid rating uid now db v db' :
  rate_content cid rating uid now db = (inr v, db') ->
  exists ci c c' rows',
    query_content cid db = Some (ci, c)
    /\ Content.id c' = Content.id c
    /\ (Content.total_ratings c <= Content.total_ratings c')%Z
    /\ db' = with_content (<[ci := c']> (content db))
               (with_content_interactions rows' db)
    /\ (rows' = content_interactions db
                ++ [ContentInteraction.mk uid cid "rate" (Some now) (Some rating)]
        \/ exists ri e, query_own_rating uid cid db = Some (ri, e)
                        /\ rows' = <[ri := with_rating rating e]>
                                     (content_interactions db)).
Proof.
  unfold rate_content.
  destruct ((rating <? 1)%Z || (5 <? rating)%Z); [discriminate|].
  unfold raise_if. unfold bind at 1, ret at 1. unfold bind at 1, get at 1.
  destruct (query_content cid db) as [[ci c]|] eqn:Hc; [|discriminate].
  cbv zeta.
  destruct (query_own_rating uid cid db) as [[ri e]|] eqn:Hown.
  - destruct (0 <? Content.total_ratings c)%Z eqn:Hpos.
    + destruct (Content.average_rating c) as [avg|]; [|discriminate].
      destruct (ContentInteraction.rating e) as [old|]; [|discriminate].
      unfold bind, nullable, ret, modify, truediv.
      destruct (Qeq_bool (inject_Z (Content.total_ratings c)) 0); [discriminate|].
      simpl. intros H. injection H as <- <-.
      eexists ci, c, _, _. split; [reflexivity|].
      refine (conj _ (conj _ (conj eq_refl _))); [reflexivity | simpl; lia |].
      right. eauto.
    + unfold bind, nullable, ret, modify. simpl.
      destruct (Content.average_rating c) as [avg|]; [|discriminate].
      intros H. injection H as <- <-.
      eexists ci, c, _, _. split; [reflexivity|].
      refine (conj _ (conj _ (conj eq_refl _))); [reflexivity | simpl; lia |].
      right. eauto.
  - destruct (0 <? Content.total_ratings c)%Z eqn:Hpos.
    + destruct (Content.average_rating c) as [avg|]; [|discriminate].
      unfold bind, nullable, ret, modify, truediv.
      destruct (Qeq_bool (inject_Z (Content.total_ratings c + 1)) 0); [discriminate|].
      simpl. intros H. injection H as <- <-.
      eexists ci, c, _, _. split; [reflexivity|].
      refine (conj _ (conj _ (conj eq_refl _))); [reflexivity | simpl; lia |].
      now left.
    + unfold bind, nullable, ret, modify. simpl.
      intros H. injection H as <- <-.
      eexists ci, c, _, _. split; [reflexivity|].
      refine (conj _ (conj _ (conj eq_refl _))); [reflexivity | simpl; lia |].
      now left.
Qed.

Lemma list_find_insert_other {A} (P : A -> Prop) `{!forall x, Decision (P x)}
    (l : list A) i x y :
  l !! i = Some x -> ~ P x -> ~ P y ->
  list_find P (<[i := y]> l) = list_find P l.
Proof.
  intros Hi Hx Hy.
  rewrite insert_take_drop by (now apply lookup_lt_Some in Hi).
  rewrite <- (take_drop_middle l i x Hi) at 3.
  generalize (take i l) as l1. generalize (drop (S i) l) as l2.
  intros l2 l1. induction l1 as [|z l1 IH]; simpl.
  - rewrite !decide_False by assumption. reflexivity.
  - destruct (decide (P z)); [reflexivity|]. now rewrite IH.
Qed.

Lemma filter_insert_other {A} (P : A -> Prop) `{!forall x, Decision (P x)}
    (l : list A) i x y :
  l !! i = Some x -> ~ P x -> ~ P y ->
  filter P (<[i := y]> l) = filter P l.
Proof.
  intros Hi Hx Hy.
  rewrite insert_take_drop by (now apply lookup_lt_Some in Hi).
  rewrite <- (take_drop_middle l i x Hi) at 3.
  rewrite !filter_app, !filter_cons.
  now rewrite !decide_False by assumption.
Qed.

(** X14. A rating outside 1..5 is refused with 422 and a rating of an unknown
    content with 404, both before any write.  A successful call on content
    [cid] never lowers its [total_ratings] and leaves every other content
    item, the rating rows of every other content item, and all other
    tables as they were. *)
Theorem rate_content_touches_one_item cid rating uid now db :
  (~ (1 <= rating <= 5)%Z ->
     rate_content cid rating uid now db
     = (inl (HTTPException HTTP_422_UNPROCESSABLE_ENTITY "rating"), db))
  /\ ((1 <= rating <= 5)%Z -> query_content cid db = None ->
        rate_content cid rating uid now db
        = (inl (HTTPException HTTP_404_NOT_FOUND "Content not found"), db))
  /\ (forall v db',
        rate_content cid rating uid now db = (inr v, db') ->
        (forall other, other <> cid ->
           query_content other db' = query_content other db
           /\ rate_rows other db' = rate_rows other db)
        /\ (exists ci c c',
              query_content cid db = Some (ci, c)
              /\ query_content cid db' = Some (ci, c')
              /\ (Content.total_ratings c <= Content.total_ratings c')%Z)
        /\ users db' = users db
        /\ assessments db' = assessments db
        /\ achievements db' = achievements db).
Proof.
  split; [apply rate_content_invalid|]. split; [apply rate_content_not_found|].
  intros v db' Hrun.
  destruct (rate_content_inv _ _ _ _ _ _ _ Hrun)
    as (ci & c & c' & rows' & Hc & Hid & Hle & -> & Hrows).
  pose proof (query_content_id _ _ _ _ Hc) as Hcid.
  split; [|split; [|repeat split]].
  - intros other Hne. split.
    + unfold query_content. simpl.
      apply (list_find_insert_other (fun c => Content.id c = other)) with (x := c).
      * unfold query_content in Hc. now apply list_find_lookup in Hc.
      * congruence.
      * congruence.
    + unfold rate_rows. simpl.
      destruct Hrows as [->|(ri & e & Hown & ->)].
      * rewrite filter_app, filter_cons, filter_nil.
        rewrite decide_False; [now rewrite app_nil_r|].
        intros [Hx _]. simpl in Hx. congruence.
      * destruct (query_own_rating_Some _ _ _ _ _ Hown) as (Hri & _ & [He _]).
        apply (filter_insert_other (is_rate_of other)) with (x := e);
          [exact Hri | |]; intros [Hx _]; simpl in Hx; congruence.
  - exists ci, c, c'. split; [exact Hc|]. split; [|exact Hle].
    apply (query_content_insert cid db ci c); [exact Hc | congruence | reflexivity].
Qed.

Lemma rate_content_touches_one_item_witness :
  rate_content 3 6 1 10 fresh_content_db
  = (inl (HTTPException HTTP_422_UNPROCESSABLE_ENTITY "rating"), fresh_content_db)
  /\ rate_content 4 5 1 10 fresh_content_db
     = (inl (HTTPException HTTP_404_NOT_FOUND "Content not found"), fresh_content_db)
  /\ users (snd (rate_content 3 5 1 10 fresh_content_db)) = users fresh_content_db.
Proof.
  destruct (rate_content_touches_one_item 3 6 1 10 fresh_content_db) as (H422 & _).
  destruct (rate_content_touches_one_item 4 5 1 10 fresh_content_db) as (_ & H404 & _).
  destruct (rate_content_touches_one_item 3 5 1 10 fresh_content_db) as (_ & _ & Hok).
  split; [apply H422; lia|]. split; [apply H404; [lia | reflexivity]|].
  destruct (rate_content 3 5 1 10 fresh_content_db) as [[e|v] db'] eqn:E.
  - vm_compute in E. discriminate E.
  - destruct (Hok v db' eq_refl) as (_ & _ & Hu & _). exact Hu.
Defined.

Lemma NoDup_fmap_eq {A B} (f : A -> B) (l : list A) x y :
  NoDup (map f l) -> x ∈ l -> y ∈ l -> f x = f y -> x = y.
Proof.
  induction l as [|z l IH]; simpl; intros Hnd Hx Hy Hf.
  - now apply elem_of_nil in Hx.
  - apply NoDup_cons in Hnd as [Hz Hnd].
    apply elem_of_cons in Hx as [->|Hx]; apply elem_of_cons in Hy as [->|Hy].
    + reflexivity.
    + exfalso. apply Hz. rewrite Hf. apply list_elem_of_fmap. eauto.
    + exfalso. apply Hz. rewrite <- Hf. apply list_elem_of_fmap. eauto.
    + now apply IH.
Qed.

(** X15. Sending the same rating a second time counts once: after a valid call
    on a consistent store, an identical call by the same user leaves
    [total_ratings], the rating rows and the mean as the first call left
    them. *)
Theorem rate_content_same_rating_twice cid rating uid now1 now2 db :
  (1 <= rating <= 5)%Z ->
  ratings_consistent cid db ->
  exists avg1 db1 avg2 db2 ci c1 c2,
    rate_content cid rating uid now1 db = (inr avg1, db1)
    /\ rate_content cid rating uid now2 db1 = (inr avg2, db2)
    /\ query_content cid db1 = Some (ci, c1)
    /\ query_content cid db2 = Some (ci, c2)
    /\ Content.total_ratings c2 = Content.total_ratings c1
    /\ rate_rows cid db2 = rate_rows cid db1
    /\ (avg2 == avg1)%Q.
Proof.
  intros Hr Hcons.
  destruct (rate_content_step cid rating uid now1 db Hr Hcons)
    as (avg1 & db1 & ci & c & c1 & Hrun1 & Hc & Hc1 & Ha1 & Hcons1 & Hcase1).
  destruct (rate_content_step cid rating uid now2 db1 Hr Hcons1)
    as (avg2 & db2 & ci' & c1' & c2 & Hrun2 & Hc1' & Hc2 & Ha2 & Hcons2 & Hcase2).
  rewrite Hc1 in Hc1'. injection Hc1' as <- <-.
  exists avg1, db1, avg2, db2, ci, c1, c2.
  split; [exact Hrun1|]. split; [exact Hrun2|]. split; [exact Hc1|].
  split; [exact Hc2|].
  (* the caller has a row carrying [rating] after the first call *)
  assert (Hmine : exists e1, e1 ∈ rate_rows cid db1
                             /\ ContentInteraction.user_id e1 = uid
                             /\ ContentInteraction.rating e1 = Some rating).
  { destruct Hcase1 as [(_ & Hrows & _)|(l1 & e & old & l2 & _ & Hu & _ & Hrows & _)].
    - eexists. split; [rewrite Hrows; apply elem_of_app; right; apply list_elem_of_here|].
      split; reflexivity.
    - exists (with_rating rating e).
      split; [rewrite Hrows; apply elem_of_app; right; apply list_elem_of_here|].
      split; [exact Hu | reflexivity]. }
  destruct Hmine as (e1 & Hin1 & Hu1 & Hv1).
  destruct Hcase2 as [(Hnot & _)|(l1 & e & old & l2 & Hrows & Hu & Hold & Hrows2 & Ht & Hv)].
  { exfalso. apply Hnot. apply list_elem_of_fmap. eauto. }
  assert (He : e = e1).
  { destruct Hcons1 as (? & ? & _ & _ & _ & Hnd & _).
    apply (NoDup_fmap_eq ContentInteraction.user_id (rate_rows cid db1));
      [exact Hnd | | exact Hin1 | congruence].
    rewrite Hrows. apply elem_of_app. right. apply list_elem_of_here. }
  subst e1. rewrite Hv1 in Hold. injection Hold as <-.
  split; [exact Ht|]. split.
  { rewrite Hrows2, Hrows. f_equal. f_equal.
    destruct e as [u c0 t s r]. simpl in *. now rewrite Hv1. }
  rewrite Hv. unfold mean_after_edit. rewrite Ha1. simpl default.
  assert (Hpos : (0 < Content.total_ratings c1)%Z).
  { destruct Hcons1 as (ci0 & c0 & Hc0 & Htot & _).
    rewrite Hc1 in Hc0. injection Hc0 as <- <-.
    rewrite Htot, Hrows. unfold len. rewrite length_app. simpl. lia. }
  field. apply inject_Z_nonzero. lia.
Qed.

Lemma rate_content_same_rating_twice_witness :
  exists avg1 db1 avg2 db2,
    rate_content 3 4 1 10 fresh_content_db = (inr avg1, db1)
    /\ rate_content 3 4 1 20 db1 = (inr avg2, db2)
    /\ rate_rows 3 db2 = rate_rows 3 db1
    /\ (avg2 == avg1)%Q.
Proof.
  assert (Hc0 : ratings_consistent 3 fresh_content_db).
  { exists 0%nat, (Content.mk 3 None 0). split; [reflexivity|].
    split; [reflexivity|]. split; [constructor|]. split; [constructor|].
    simpl; lia. }
  destruct (rate_content_same_rating_twice 3 4 1 10 20 fresh_content_db
              ltac:(lia) Hc0)
    as (avg1 & db1 & avg2 & db2 & ci & c1 & c2 & H1 & H2 & _ & _ & _ & Hrows & Havg).
  now exists avg1, db1, avg2, db2.
Defined.

(** ** Recommendations: dismissal, repeated completion, effectiveness *)

Lemma query_recommendation_insert rid uid db i r r' :
  query_recommendation rid uid db = Some (i, r) ->
  Recommendation.id r' = Recommendation.id r ->
  Recommendation.user_id r' = Recommendation.user_id r ->
  query_recommendation rid uid
    (with_recommendations (<[i := r']> (recommendations db)) db)
  = Some (i, r').
Proof.
  unfold query_recommendation. intros Hq Hid Hu. simpl.
  apply (list_find_insert_same
           (fun r => Recommendation.id r = rid /\ Recommendation.user_id r = uid))
    with (x := r); [exact Hq|].
  apply list_find_Some in Hq as (_ & [? ?] & _). split; congruence.
Qed.

Lemma complete_recommendation_run rid uid now db i r :
  query_recommendation rid uid db = Some (i, r) ->
  Recommendation.is_accepted r = Some true ->
  complete_recommendation rid uid now db
  = (inr (completed_recommendation now r),
     with_recommendations
       (<[i := completed_recommendation now r]> (recommendations db)) db).
Proof.
  intros Hq Ha. unfold complete_recommendation, bind, get, raise_if, ret, modify.
  rewrite Hq, Ha. reflexivity.
Qed.

(** X16. Dismissing raises 404 for a recommendation the caller does not have and
    otherwise only sets [status] to "dismissed".  It does not withdraw an
    acceptance: a dismissed recommendation that had been accepted can still
    be completed, which turns its status into "completed". *)
Theorem dismissed_recommendation_completes rid uid now db :
  (query_recommendation rid uid db = None ->
     dismiss_recommendation rid uid db
     = (inl (HTTPException HTTP_404_NOT_FOUND "Recommendation not found"), db))
  /\ (forall i r,
        query_recommendation rid uid db = Some (i, r) ->
        exists db1,
          dismiss_recommendation rid uid db = (inr tt, db1)
          /\ query_recommendation rid uid db1 = Some (i, dismissed r)
          /\ Recommendation.status (dismissed r) = "dismissed"
          /\ Recommendation.is_accepted (dismissed r) = Recommendation.is_accepted r
          /\ Recommendation.is_completed (dismissed r) = Recommendation.is_completed r
          /\ (Recommendation.is_accepted r = Some true ->
              exists r2 db2,
                complete_recommendation rid uid now db1 = (inr r2, db2)
                /\ query_recommendation rid uid db2 = Some (i, r2)
                /\ Recommendation.status r2 = "completed"
                /\ Recommendation.is_completed r2 = true)).
Proof.
  split.
  - intros Hq. unfold dismiss_recommendation, bind, get. now rewrite Hq.
  - intros i r Hq.
    set (db1 := with_recommendations (<[i := dismissed r]> (recommendations db)) db).
    assert (Hq1 : query_recommendation rid uid db1 = Some (i, dismissed r))
      by (now apply (query_recommendation_insert rid uid db i r)).
    exists db1. split.
    { unfold dismiss_recommendation, bind, get, modify. now rewrite Hq. }
    split; [exact Hq1|]. split; [reflexivity|]. split; [reflexivity|].
    split; [reflexivity|].
    intros Ha.
    eexists _, _.
    split; [exact (complete_recommendation_run rid uid now db1 i (dismissed r) Hq1 Ha)|].
    split; [now apply (query_recommendation_insert rid uid db1 i (dismissed r))|].
    split; reflexivity.
Qed.

Lemma dismissed_recommendation_completes_witness :
  dismiss_recommendation 21 1 (sample_rec_db (Some true) "accepted")
  = (inl (HTTPException HTTP_404_NOT_FOUND "Recommendation not found"),
     sample_rec_db (Some true) "accepted")
  /\ exists db1 r2 db2,
       dismiss_recommendation 20 1 (sample_rec_db (Some true) "accepted")
       = (inr tt, db1)
       /\ complete_recommendation 20 1 9 db1 = (inr r2, db2)
       /\ Recommendation.status r2 = "completed".
Proof.
  split.
  - apply (dismissed_recommendation_completes 21 1 9
             (sample_rec_db (Some true) "accepted")).
    reflexivity.
  - destruct (dismissed_recommendation_completes 20 1 9
                (sample_rec_db (Some true) "accepted")) as [_ H].
    destruct (H 0%nat (sample_recommendation (Some true) "accepted") eq_refl)
      as (db1 & Hd & _ & _ & _ & _ & Hc).
    destruct (Hc eq_refl) as (r2 & db2 & Hrun & _ & Hs & _).
    now exists db1, r2, db2.
Defined.

(** X17. Completion has no guard on [is_completed]: completing an accepted
    recommendation a second time succeeds again and only moves
    [completed_at] to the later time. *)
Theorem complete_recommendation_again rid uid now1 now2 db i r :
  query_recommendation rid uid db = Some (i, r) ->
  Recommendation.is_accepted r = Some true ->
  exists r1 db1 r2 db2,
    complete_recommendation rid uid now1 db = (inr r1, db1)
    /\ complete_recommendation rid uid now2 db1 = (inr r2, db2)
    /\ Recommendation.completed_at r1 = Some now1
    /\ r2 = completed_recommendation now2 r
    /\ Recommendation.completed_at r2 = Some now2
    /\ Recommendation.status r2 = "completed"
    /\ recommendations db2 = <[i := r2]> (recommendations db).
Proof.
  intros Hq Ha.
  set (r1 := completed_recommendation now1 r).
  set (db1 := with_recommendations (<[i := r1]> (recommendations db)) db).
  assert (Hq1 : query_recommendation rid uid db1 = Some (i, r1))
    by (now apply (query_recommendation_insert rid uid db i r)).
  exists r1, db1, (completed_recommendation now2 r1),
         (with_recommendations
            (<[i := completed_recommendation now2 r1]> (recommendations db1)) db1).
  split; [exact (complete_recommendation_run rid uid now1 db i r Hq Ha)|].
  split; [exact (complete_recommendation_run rid uid now2 db1 i r1 Hq1 Ha)|].
  split; [reflexivity|]. split; [reflexivity|]. split; [reflexivity|].
  split; [reflexivity|].
  simpl. apply list_insert_insert_eq.
Qed.

Lemma complete_recommendation_again_witness :
  exists r1 db1 r2 db2,
    complete_recommendation 20 1 9 (sample_rec_db (Some true) "accepted") = (inr r1, db1)
    /\ complete_recommendation 20 1 15 db1 = (inr r2, db2)
    /\ Recommendation.completed_at r2 = Some 15%Z.
Proof.
  destruct (complete_recommendation_again 20 1 9 15
              (sample_rec_db (Some true) "accepted") 0%nat
              (sample_recommendation (Some true) "accepted") eq_refl eq_refl)
    as (r1 & db1 & r2 & db2 & H1 & H2 & _ & _ & H3 & _).
  now exists r1, db1, r2, db2.
Defined.

Lemma count_if_bounds {A} (cond : A -> bool) (l : list A) :
  (0 <= count_if cond l <= len l)%Z.
Proof.
  unfold count_if, len. split; [lia|].
  apply Nat2Z.inj_le. induction l as [|x l IH]; simpl; [lia|].
  destruct (cond x); simpl; lia.
Qed.

Lemma count_if_le {A} (p q : A -> bool) (l : list A) :
  Forall (fun x => p x = true -> q x = true) l ->
  (count_if p l <= count_if q l)%Z.
Proof.
  unfold count_if, len. intros H. apply Nat2Z.inj_le.
  induction H as [|x l Hx _ IH]; simpl; [lia|].
  destruct (p x) eqn:Ep.
  - rewrite (Hx eq_refl). simpl. lia.
  - destruct (q x); simpl; lia.
Qed.

Lemma percentage_run {S} (a b : Z) (s : S) :
  (0 <= a)%Z ->
  exists r,
    (if (0 <? b)%Z
     then bind (truediv (inject_Z a) (inject_Z b)) (fun r => ret (r * 100)%Q)
     else ret 0%Q) s = (inr r, s)
    /\ (0 <= r)%Q
    /\ ((b <= 0)%Z -> r = 0%Q)
    /\ ((a <= b)%Z -> (r <= 100)%Q)
    /\ ((0 < b)%Z -> r = (inject_Z a / inject_Z b * 100)%Q).
Proof.
  intros Ha. destruct (Z.ltb_spec 0 b) as [Hb|Hb].
  - rewrite (bind_ok _ _ _ _ _ (truediv_ok _ _ _ (inject_Z_nonzero b ltac:(lia)))).
    eexists. split; [reflexivity|].
    assert (Hbq : (0 < inject_Z b)%Q) by (unfold Qlt; simpl; lia).
    split; [|split; [intros; lia|split; [|reflexivity]]].
    + apply Qmult_le_0_compat; [|discriminate].
      apply Qle_shift_div_l; [exact Hbq|]. rewrite Qmult_0_l.
      unfold Qle; simpl; lia.
    + intros Hab. apply Qle_trans with (1 * 100)%Q; [|apply Qle_refl].
      apply Qmult_le_compat_r; [|discriminate].
      apply Qle_shift_div_r; [exact Hbq|]. rewrite Qmult_1_l.
      unfold Qle; simpl; lia.
  - exists 0%Q. split; [reflexivity|]. split; [discriminate|].
    split; [reflexivity|]. split; [discriminate | intros; lia].
Qed.

(** X18. The effectiveness metrics never raise: with nothing viewed the
    acceptance rate is 0 and with nothing accepted the completion rate is
    0.  Both rates are at least 0; the acceptance rate is at most 100 when
    every accepted recommendation was viewed, and the completion rate when
    every completed one is accepted. *)
Theorem effectiveness_rates_guarded (recommendations : list Recommendation.t)
    (db : Db) :
  exists e,
    effectiveness_of recommendations db = (inr e, db)
    /\ eff_total_recommendations e = len recommendations
    /\ eff_viewed_count e = count_if Recommendation.is_viewed recommendations
    /\ (0 <= eff_acceptance_rate e)%Q /\ (0 <= eff_completion_rate e)%Q
    /\ (count_if Recommendation.is_viewed recommendations = 0%Z ->
        eff_acceptance_rate e = 0%Q)
    /\ (count_if accepted recommendations = 0%Z -> eff_completion_rate e = 0%Q)
    /\ (Forall (fun r => accepted r = true -> Recommendation.is_viewed r = true)
               recommendations ->
        (eff_acceptance_rate e <= 100)%Q)
    /\ (Forall (fun r => Recommendation.is_completed r = true -> accepted r = true)
               recommendations ->
        (eff_completion_rate e <= 100)%Q).
Proof.
  destruct recommendations as [|r0 rest] eqn:El.
  { exists (mkEffectiveness 0 0 0%Q 0%Q). simpl.
    repeat split; try reflexivity; try discriminate. }
  rewrite <- El. unfold effectiveness_of.
  assert (Hne : match recommendations with [] => False | _ => True end)
    by (now rewrite El).
  destruct recommendations as [|r1 rest1]; [contradiction|]. clear El Hne.
  set (l := r1 :: rest1).
  destruct (percentage_run (count_if accepted l)
              (count_if Recommendation.is_viewed l) db
              (proj1 (count_if_bounds _ _)))
    as (ra & Hra & Ha0 & Haz & Ha100 & _).
  destruct (percentage_run (count_if Recommendation.is_completed l)
              (count_if accepted l) db (proj1 (count_if_bounds _ _)))
    as (rc & Hrc & Hc0 & Hcz & Hc100 & _).
  cbv zeta.
  rewrite (bind_ok _ _ _ _ _ Hra), (bind_ok _ _ _ _ _ Hrc).
  eexists. split; [reflexivity|]. simpl.
  split; [reflexivity|]. split; [reflexivity|].
  split; [exact Ha0|]. split; [exact Hc0|].
  split; [intros Hz; apply Haz; fold l in Hz; lia|].
  split; [intros Hz; apply Hcz; fold l in Hz; lia|].
  split; intros H.
  - apply Ha100. now apply count_if_le.
  - apply Hc100. now apply count_if_le.
Qed.

Lemma effectiveness_rates_guarded_witness :
  exists e,
    effectiveness_of sample_recommendations empty_db = (inr e, empty_db)
    /\ eff_total_recommendations e = 4%Z
    /\ (eff_acceptance_rate e <= 100)%Q
    /\ (eff_completion_rate e <= 100)%Q.
Proof.
  destruct (effectiveness_rates_guarded sample_recommendations empty_db)
    as (e & Hrun & Hn & _ & _ & _ & _ & _ & Ha & Hc).
  exists e. split; [exact Hrun|]. split; [exact Hn|]. split.
  - apply Ha. unfold sample_recommendations.
    repeat (constructor; [cbv; congruence|]). constructor.
  - apply Hc. unfold sample_recommendations.
    repeat (constructor; [cbv; congruence|]). constructor.
Defined.

(** ** Achievement check: what is unlocked, and what is left locked *)

Lemma milestone_loop_Forall_in db uid ty aggregate build
    (Q : Achievement.t -> Prop) acc ms :
  (forall m, m ∈ ms -> (m <= aggregate)%Z -> Q (build m)) ->
  Forall Q (snd acc) ->
  Forall Q (snd (foldl (check_milestone db uid ty aggregate build) acc ms)).
Proof.
  revert acc; induction ms as [|m ms IH]; intros acc HQ H; [exact H|].
  simpl. apply IH.
  - intros m' Hm'. apply HQ. now apply list_elem_of_further.
  - destruct (check_milestone_cases db uid ty aggregate build acc m)
      as [[-> _]|(-> & Hle & _)]; [exact H|].
    simpl. apply Forall_app. split; [exact H|].
    apply Forall_cons. split; [|constructor]. apply HQ; [apply list_elem_of_here | exact Hle].
Qed.

Lemma milestone_loop_length db uid ty aggregate build acc ms :
  (length (snd (foldl (check_milestone db uid ty aggregate build) acc ms))
   <= length (snd acc) + length ms)%nat.
Proof.
  revert acc; induction ms as [|m ms IH]; intros acc; simpl; [lia|].
  etransitivity; [apply IH|].
  destruct (check_milestone_cases db uid ty aggregate build acc m)
    as [[-> _]|(-> & _)]; simpl; [lia|].
  rewrite length_app. simpl. lia.
Qed.

(** X19. Every row a check inserts is for a milestone of the fixed tables that
    the user's aggregate has reached (or is the perfect-score row, which
    needs an average of at least 95), is unlocked, and carries the points
    of its kind: twice the days, 5 per hour, 100, or 50 per subject.  One
    check inserts at most 15 rows. *)
Theorem achievement_check_unlocks_reached uid now db ui user :
  list_find (fun u => User.id u = uid) (users db) = Some (ui, user) ->
  exists n added,
    check_for_new_achievements uid now db
    = (inr n, with_achievements (achievements db ++ added) db)
    /\ (0 <= n <= 15)%Z
    /\ n = len added
    /\ Forall (earned_by uid (or_zero (max_streak_days uid db))
                         (User.total_study_time_minutes user)
                         (User.average_score user) (mastered_count uid db))
              added.
Proof.
  intros Hu.
  exists (fst (pending_unlocks uid now user db)),
         (snd (pending_unlocks uid now user db)).
  split; [exact (check_for_new_achievements_run uid now db ui user Hu)|].
  pose proof (pending_unlocks_counts uid now user db) as Hn.
  split.
  { rewrite Hn. unfold len. split; [lia|].
    unfold pending_unlocks.
    pose proof (milestone_loop_length db uid "mastery" (mastered_count uid db)
                  (mastery_achievement uid now (mastered_count uid db))
                  (after_perfect uid now user db) mastery_milestones) as H4.
    assert (H3 : (length (snd (after_perfect uid now user db))
                  <= length (snd (after_times uid now user db)) + 1)%nat).
    { unfold after_perfect. destruct (Qgeb _ 95); [|lia].
      destruct (existing_title _ _ _ _); simpl; [lia|].
      rewrite length_app. simpl. lia. }
    pose proof (milestone_loop_length db uid "time"
                  (User.total_study_time_minutes user)
                  (time_achievement uid now (User.total_study_time_minutes user))
                  (after_streaks uid now db) time_milestones) as H2.
    pose proof (milestone_loop_length db uid "streak"
                  (or_zero (max_streak_days uid db))
                  (streak_achievement uid now (or_zero (max_streak_days uid db)))
                  (0, []) streak_milestones) as H1.
    fold (after_streaks uid now db) in H1.
    fold (after_times uid now user db) in H2.
    simpl length in *. lia. }
  split; [exact Hn|].
  unfold pending_unlocks. apply milestone_loop_Forall_in.
  { intros m Hm Hle. split; [reflexivity|]. split; [reflexivity|].
    right. right. right. split; [reflexivity|].
    exists m. split; [now apply list_elem_of_In|]. now repeat split. }
  assert (H : Forall (earned_by uid (or_zero (max_streak_days uid db))
                        (User.total_study_time_minutes user)
                        (User.average_score user) (mastered_count uid db))
                     (snd (after_times uid now user db))).
  { unfold after_times. apply milestone_loop_Forall_in.
    { intros m Hm Hle. split; [reflexivity|]. split; [reflexivity|].
      right. left. split; [reflexivity|].
      exists m. split; [now apply list_elem_of_In|]. now repeat split. }
    unfold after_streaks. apply milestone_loop_Forall_in; [|constructor].
    intros m Hm Hle. split; [reflexivity|]. split; [reflexivity|].
    left. split; [reflexivity|].
    exists m. split; [now apply list_elem_of_In|]. now repeat split. }
  unfold after_perfect.
  destruct (Qgeb (User.average_score user) 95) eqn:Hq; [|exact H].
  destruct (existing_title _ _ _ _); [exact H|].
  simpl. apply Forall_app. split; [exact H|].
  apply Forall_cons. split; [|constructor].
  split; [reflexivity|]. split; [reflexivity|].
  right. right. left. split; [reflexivity|]. split; [reflexivity|].
  split; [|reflexivity]. unfold Qgeb in Hq. now apply Qle_bool_iff in Hq.
Qed.

Lemma achievement_check_unlocks_reached_witness :
  exists n added,
    check_for_new_achievements 1 5 achiever_db
    = (inr n, with_achievements (achievements achiever_db ++ added) achiever_db)
    /\ (0 <= n <= 15)%Z
    /\ Forall (earned_by 1 15 700 96%Q 1) added.
Proof.
  destruct (achievement_check_unlocks_reached 1 5 achiever_db 0%nat
              (User.mk 1 700 3 96%Q 0) eq_refl)
    as (n & added & Hrun & Hn & _ & Hall).
  now exists n, added.
Defined.

(** X20. After a check every milestone the user has reached has its row in the
    table, and so has the perfect-score achievement when the average is at
    least 95: nothing reached is left locked. *)
Theorem achievement_check_leaves_none_locked uid now db ui user :
  list_find (fun u => User.id u = uid) (users db) = Some (ui, user) ->
  exists n db1,
    check_for_new_achievements uid now db = (inr n, db1)
    /\ (forall m, m ∈ streak_milestones ->
          (m <= or_zero (max_streak_days uid db))%Z ->
          has_threshold uid "streak" m (achievements db1))
    /\ (forall m, m ∈ time_milestones ->
          (m <= User.total_study_time_minutes user)%Z ->
          has_threshold uid "time" m (achievements db1))
    /\ (forall m, m ∈ mastery_milestones ->
          (m <= mastered_count uid db)%Z ->
          has_threshold uid "mastery" m (achievements db1))
    /\ ((95 <= User.average_score user)%Q ->
        exists a, a ∈ achievements db1
                  /\ Achievement.user_id a = uid
                  /\ Achievement.achievement_type a = "assessment"
                  /\ Achievement.title a = "Perfectionist").
Proof.
  intros Hu.
  eexists _, _.
  split; [exact (check_for_new_achievements_run uid now db ui user Hu)|].
  simpl. split; [|split; [|split]].
  - intros m Hm Hle. now apply committed_streaks.
  - intros m Hm Hle. now apply committed_times.
  - intros m Hm Hle. now apply committed_masteries.
  - intros Hq. apply committed_perfect. unfold Qgeb. now apply Qle_bool_iff.
Qed.

Lemma achievement_check_leaves_none_locked_witness :
  exists n db1,
    check_for_new_achievements 1 5 achiever_db = (inr n, db1)
    /\ has_threshold 1 "streak" 14 (achievements db1)
    /\ has_threshold 1 "time" 600 (achievements db1).
Proof.
  destruct (achievement_check_leaves_none_locked 1 5 achiever_db 0%nat
              (User.mk 1 700 3 96%Q 0) eq_refl)
    as (n & db1 & Hrun & Hs & Ht & _).
  exists n, db1. split; [exact Hrun|]. split.
  - apply Hs; [|vm_compute; discriminate].
    apply list_elem_of_further, list_elem_of_here.
  - apply Ht; [|vm_compute; discriminate]. apply list_elem_of_here.
Defined.

(** ** Grading: letter case and surrounding whitespace *)

Lemma isspace_lower_char c : Str.isspace (Str.lower_char c) = Str.isspace c.
Proof.
  destruct c as [b0 b1 b2 b3 b4 b5 b6 b7].
  destruct b0, b1, b2, b3, b4, b5, b6, b7; reflexivity.
Qed.

Lemma lower_lstrip s : Str.lower (Str.lstrip s) = Str.lstrip (Str.lower s).
Proof.
  induction s as [|c s IH]; [reflexivity|].
  simpl. rewrite isspace_lower_char.
  destruct (Str.isspace c); [exact IH | reflexivity].
Qed.

Lemma lower_rev_onto s acc :
  Str.lower (Str.rev_onto s acc) = Str.rev_onto (Str.lower s) (Str.lower acc).
Proof.
  revert acc; induction s as [|c s IH]; intros acc; [reflexivity|].
  simpl. now rewrite IH.
Qed.

Lemma lower_strip s : Str.lower (Str.strip s) = Str.strip (Str.lower s).
Proof.
  unfold Str.strip, Str.rstrip, Str.reverse.
  rewrite lower_rev_onto, lower_lstrip, lower_rev_onto, lower_lstrip.
  reflexivity.
Qed.

Lemma append_cons c (s t : string) :
  (String c s ++ t)%string = String c (s ++ t)%string.
Proof. reflexivity. Qed.

Lemma append_empty_l (t : string) : ("" ++ t)%string = t.
Proof. reflexivity. Qed.

Lemma append_empty_r (s : string) : (s ++ "")%string = s.
Proof.
  induction s as [|c s IH]; [reflexivity|]. now rewrite append_cons, IH.
Qed.

Lemma append_assoc (a b c : string) :
  ((a ++ b) ++ c)%string = (a ++ (b ++ c))%string.
Proof.
  induction a as [|x a IH]; [reflexivity|]. now rewrite !append_cons, IH.
Qed.

Lemma rev_onto_append s acc :
  Str.rev_onto s acc = (Str.reverse s ++ acc)%string.
Proof.
  unfold Str.reverse.
  revert acc; induction s as [|c s IH]; intros acc; [reflexivity|].
  simpl. rewrite (IH (String c acc)), (IH (String c "")), append_assoc.
  now rewrite append_cons, append_empty_l.
Qed.

Lemma reverse_append a b :
  Str.reverse (a ++ b)%string = (Str.reverse b ++ Str.reverse a)%string.
Proof.
  induction a as [|c a IH].
  - rewrite append_empty_l. change (Str.reverse "") with ""%string.
    now rewrite append_empty_r.
  - rewrite append_cons. unfold Str.reverse in *. simpl.
    rewrite (rev_onto_append (a ++ b)%string), (rev_onto_append a).
    unfold Str.reverse. rewrite IH. apply append_assoc.
Qed.

Lemma blank_append a b : blank (a ++ b)%string = blank a && blank b.
Proof.
  induction a as [|c a IH]; [reflexivity|].
  rewrite append_cons. simpl. rewrite IH. now rewrite andb_assoc.
Qed.

Lemma blank_reverse s : blank (Str.reverse s) = blank s.
Proof.
  induction s as [|c s IH]; [reflexivity|].
  change (String c s) with (String c "" ++ s)%string at 1.
  rewrite reverse_append, blank_append, IH. simpl.
  rewrite andb_true_r. apply andb_comm.
Qed.

Lemma lstrip_blank p s : blank p = true -> Str.lstrip (p ++ s)%string = Str.lstrip s.
Proof.
  induction p as [|c p IH]; intros H; [reflexivity|].
  rewrite append_cons. simpl in *.
  apply andb_true_iff in H as [-> H]. now apply IH.
Qed.

Lemma lstrip_blank_all p : blank p = true -> Str.lstrip p = ""%string.
Proof.
  intros H. rewrite <- (append_empty_r p). now rewrite lstrip_blank.
Qed.

Lemma lstrip_empty_blank s : Str.lstrip s = ""%string -> blank s = true.
Proof.
  induction s as [|c s IH]; [reflexivity|].
  simpl. destruct (Str.isspace c); [exact IH | discriminate].
Qed.

Lemma lstrip_append s p :
  Str.lstrip s <> ""%string ->
  Str.lstrip (s ++ p)%string = (Str.lstrip s ++ p)%string.
Proof.
  induction s as [|c s IH]; intros H; [now contradiction H|].
  rewrite append_cons. simpl in *.
  destruct (Str.isspace c); [now apply IH | now rewrite append_cons].
Qed.

Lemma reverse_involutive s : Str.reverse (Str.reverse s) = s.
Proof.
  induction s as [|c s IH]; [reflexivity|].
  change (String c s) with (String c "" ++ s)%string at 1.
  rewrite !reverse_append, IH. reflexivity.
Qed.

Lemma rstrip_blank s p : blank p = true -> Str.rstrip (s ++ p)%string = Str.rstrip s.
Proof.
  intros H. unfold Str.rstrip.
  rewrite reverse_append, lstrip_blank; [reflexivity|].
  now rewrite blank_reverse.
Qed.

Lemma rstrip_empty : Str.rstrip "" = ""%string.
Proof. reflexivity. Qed.

Lemma strip_padding p1 s p2 :
  blank p1 = true -> blank p2 = true ->
  Str.strip (p1 ++ s ++ p2)%string = Str.strip s.
Proof.
  intros H1 H2. unfold Str.strip. rewrite lstrip_blank by exact H1.
  destruct (Str.lstrip s) eqn:E.
  - rewrite lstrip_blank, lstrip_blank_all; [reflexivity | exact H2 |].
    now apply lstrip_empty_blank.
  - rewrite lstrip_append by (rewrite E; discriminate).
    rewrite E. now apply rstrip_blank.
Qed.

Lemma strip_blank p : blank p = true -> Str.strip p = ""%string.
Proof.
  intros H. unfold Str.strip. now rewrite lstrip_blank_all.
Qed.

Lemma lower_nonempty s s' :
  s <> ""%string -> Str.lower s' = Str.lower s -> s' <> ""%string.
Proof.
  intros Hs H ->. destruct s; [now apply Hs | discriminate].
Qed.

Lemma padded_nonempty p1 s p2 : s <> ""%string -> (p1 ++ s ++ p2)%string <> ""%string.
Proof.
  intros Hs H. destruct p1; [|discriminate].
  destruct s; [now apply Hs | discriminate].
Qed.

Lemma answer_matches_text qid s opt question :
  s <> ""%string ->
  answer_matches (mkAnswerSubmission qid (Some s) opt) question
  = String.eqb (Str.lower (Str.strip s))
               (Str.lower (Str.strip (Question.correct_answer question))).
Proof.
  intros Hs. destruct s; [now contradiction Hs|]. reflexivity.
Qed.

(** X21. The comparison that grades an answer ignores letter case and
    surrounding whitespace on both sides: a non-empty answer text is graded
    the same when it is padded with whitespace or when its letters change
    case, and so is the stored correct answer.  An answer of whitespace
    only is counted correct exactly when the correct answer is itself empty
    or whitespace. *)
Theorem grading_ignores_case_and_padding qid s opt question p1 p2 :
  s <> ""%string -> blank p1 = true -> blank p2 = true ->
  let matches text q := answer_matches (mkAnswerSubmission qid (Some text) opt) q in
  let padded_key :=
    Question.mk (Question.id question) (Question.assessment_id question)
                (p1 ++ Question.correct_answer question ++ p2)%string
                (Question.points_possible question) in
  let lowered_key :=
    Question.mk (Question.id question) (Question.assessment_id question)
                (Str.lower (Question.correct_answer question))
                (Question.points_possible question) in
  matches (p1 ++ s ++ p2)%string question = matches s question
  /\ (forall s', Str.lower s' = Str.lower s ->
        matches s' question = matches s question)
  /\ matches s padded_key = matches s question
  /\ matches s lowered_key = matches s question
  /\ (blank s = true ->
      (matches s question = true
       <-> blank (Question.correct_answer question) = true)).
Proof.
  intros Hs H1 H2 matches padded_key lowered_key. unfold matches.
  assert (Hidem : forall x, Str.lower (Str.lower x) = Str.lower x).
  { induction x as [|c x IH]; [reflexivity|]. simpl. rewrite IH. f_equal.
    destruct c as [b0 b1 b2 b3 b4 b5 b6 b7].
    destruct b0, b1, b2, b3, b4, b5, b6, b7; reflexivity. }
  split; [|split; [|split; [|split]]].
  - rewrite !answer_matches_text by (first [exact Hs | apply padded_nonempty; exact Hs]).
    now rewrite strip_padding.
  - intros s' Hl.
    rewrite !answer_matches_text by (first [exact Hs | apply (lower_nonempty s); assumption]).
    now rewrite !lower_strip, Hl.
  - rewrite !answer_matches_text by exact Hs. simpl.
    now rewrite strip_padding.
  - rewrite !answer_matches_text by exact Hs. simpl.
    now rewrite (lower_strip (Str.lower _)), Hidem, <- lower_strip.
  - intros Hb. rewrite answer_matches_text by exact Hs.
    rewrite (strip_blank s Hb). simpl. split.
    + intros H.
      destruct (Str.strip (Question.correct_answer question)) eqn:E;
        [|discriminate].
      unfold Str.strip, Str.rstrip in E.
      apply lstrip_empty_blank.
      rewrite <- (reverse_involutive (Str.lstrip _)).
      destruct (Str.lstrip (Str.reverse (Str.lstrip (Question.correct_answer question)))) eqn:E2.
      * apply lstrip_empty_blank in E2. rewrite blank_reverse in E2.
        apply lstrip_blank_all in E2.
        assert (Hi : forall x, Str.lstrip (Str.lstrip x) = Str.lstrip x).
        { induction x as [|c x IH]; [reflexivity|]. simpl.
          destruct (Str.isspace c) eqn:Ec; [exact IH|]. simpl. now rewrite Ec. }
        rewrite Hi in E2. rewrite E2. reflexivity.
      * unfold Str.reverse in E. simpl in E.
        rewrite rev_onto_append in E.
        destruct (Str.reverse s0); discriminate.
    + intros Hk. rewrite (strip_blank _ Hk). reflexivity.
Qed.

Lemma grading_ignores_case_and_padding_witness :
  answer_matches (mkAnswerSubmission 1 (Some "  Paris ") None)
                 (Question.mk 1 1 "paris" 2%Q)
  = answer_matches (mkAnswerSubmission 1 (Some "Paris") None)
                   (Question.mk 1 1 "paris" 2%Q).
Proof.
  refine (proj1 (grading_ignores_case_and_padding 1 "Paris" None
                   (Question.mk 1 1 "paris" 2%Q) "  " " " _ eq_refl eq_refl)).
  discriminate.
Defined.
